(** * TodoApi: authentication, token lifetime and the per-user task engine

    A shallow embedding of the backend services of the to-do application
    (AuthService, TaskService, the controllers in front of them, the
    exception middleware and the JWT bearer configuration), followed by the
    properties of the specification stated over that embedding.

    Conventions of the embedding:
    - C# [int] and [DateTime] are integers ([Z]); a [DateTime] is a number of
      ticks (100 ns) counted from the Unix epoch.
    - C# strings are [string]s of 8-bit characters.
    - A LINQ predicate over a table is evaluated by the store, which is
      SQLite: the functions it applies to a column are those of [Sqlite];
      the values it is compared with are computed by the framework first.
    - An [async] method is a program of type [Prog A]: a tree of the effects
      it awaits (store round trips, clock reads, BCrypt calls, log lines),
      ending in a returned value or a thrown exception.  [run] executes one
      program alone against a [World]; [run_pair] interleaves two requests
      at their suspension points. *)

From Stdlib Require Import ZArith List String Ascii Bool Lia.
From Stdlib Require Import Permutation Sorted.
Import ListNotations.

Local Open Scope string_scope.
Local Open Scope Z_scope.

(* ===================================================================== *)
(** ** Strings as the framework sees them                                 *)
(* ===================================================================== *)

Module Str.

(** [Char.IsWhiteSpace] on the Latin-1 range: TAB..CR, space, NEL, NBSP. *)
Definition IsWhiteSpace (c : ascii) : bool :=
  let n := N_of_ascii c in
  ((9 <=? n) && (n <=? 13) || (n =? 32) || (n =? 133) || (n =? 160))%N.

(** [Char.ToLowerInvariant] on the Latin-1 range. *)
Definition ToLowerChar (c : ascii) : ascii :=
  let n := N_of_ascii c in
  if ((65 <=? n) && (n <=? 90)
      || (192 <=? n) && (n <=? 222) && negb (n =? 215))%N
  then ascii_of_N (n + 32) else c.

Fixpoint ToLower (s : string) : string :=
  match s with
  | EmptyString => EmptyString
  | String c r => String (ToLowerChar c) (ToLower r)
  end.

Definition ToLowerInvariant := ToLower.

Fixpoint TrimStart (s : string) : string :=
  match s with
  | EmptyString => EmptyString
  | String c r => if IsWhiteSpace c then TrimStart r else s
  end.

Fixpoint TrimEnd (s : string) : string :=
  match s with
  | EmptyString => EmptyString
  | String c r =>
      match TrimEnd r with
      | EmptyString => if IsWhiteSpace c then EmptyString else String c EmptyString
      | r' => String c r'
      end
  end.

(** [String.Trim()]: white space removed at both ends. *)
Definition Trim (s : string) : string := TrimEnd (TrimStart s).

Fixpoint all_white (s : string) : bool :=
  match s with
  | EmptyString => true
  | String c r => IsWhiteSpace c && all_white r
  end.

(** [string.IsNullOrWhiteSpace] on a nullable string. *)
Definition IsNullOrWhiteSpace (s : option string) : bool :=
  match s with
  | None => true
  | Some v => all_white v
  end.

(** [String.Contains]: [sub] occurs somewhere in [s]. *)
Fixpoint Contains (s sub : string) : bool :=
  String.prefix sub s
  || match s with
     | EmptyString => false
     | String _ r => Contains r sub
     end.

Definition Length (s : string) : Z := Z.of_nat (String.length s).

End Str.

(** What the database evaluates.  A LINQ predicate over a column is not run
    by the framework: the provider translates it to SQL, and a [ToLower()]
    on a column becomes SQLite's [lower()], which folds the ASCII letters
    [A]..[Z] only and leaves every other character as it is. *)
Module Sqlite.

Definition lowerChar (c : ascii) : ascii :=
  let n := N_of_ascii c in
  if ((65 <=? n) && (n <=? 90))%N then ascii_of_N (n + 32) else c.

(** SQLite's built-in [lower(X)]. *)
Fixpoint lower (s : string) : string :=
  match s with
  | EmptyString => EmptyString
  | String c r => String (lowerChar c) (lower r)
  end.

(** [instr(X, Y) > 0]: the translation of [X.Contains(Y)]. *)
Definition instr_positive (x y : string) : bool := Str.Contains x y.

End Sqlite.

(* ===================================================================== *)
(** ** Models and DTOs                                                    *)
(* ===================================================================== *)

Definition DateTime := Z.

Definition TicksPerSecond : Z := 10000000.
Definition TicksPerMinute : Z := 60 * TicksPerSecond.

(** [DateTime.AddMinutes] *)
Definition AddMinutes (d : DateTime) (m : Z) : DateTime := d + m * TicksPerMinute.

Module User.
Record t := mk {
  Id : Z;
  Email : string;
  PasswordHash : string;
  CreatedAt : DateTime
}.
End User.

Module TodoTask.
Record t := mk {
  Id : Z;
  UserId : Z;
  Title : string;
  Description : option string;
  DueDate : option DateTime;
  Priority : Z;
  IsCompleted : bool;
  CreatedAt : DateTime;
  UpdatedAt : option DateTime
}.
End TodoTask.

Module JwtSettings.
Record t := mk {
  SecretKey : string;
  Issuer : string;
  Audience : string;
  ExpirationMinutes : Z
}.

(** The property initialisers of the class. *)
Definition default : t :=
  {| SecretKey := ""; Issuer := "TodoApi"; Audience := "TodoFrontend";
     ExpirationMinutes := 60 |}.
End JwtSettings.

Module RegisterRequest.
Record t := mk {
  Email : string;
  Password : string;
  ConfirmPassword : string
}.
End RegisterRequest.

Module LoginRequest.
Record t := mk {
  Email : string;
  Password : string
}.
End LoginRequest.

Module UserInfo.
Record t := mk {
  Id : Z;
  Email : string
}.
End UserInfo.

(** A signed token, kept symbolic: the claims that [GenerateAuthResponse]
    writes (the name identifier is the decimal text of an [int], kept here as
    the [int]), the registered claims [iss], [aud], [exp] (whole seconds
    since the epoch, as the JWT payload stores it) and the key the
    HMAC-SHA256 signature was computed with. *)
Module JwtSecurityToken.
Record t := mk {
  NameIdentifier : Z;
  EmailClaim : string;
  Jti : string;
  Iat : Z;
  Issuer : string;
  Audience : string;
  Exp : option Z;
  SigningKey : string
}.

(** [ValidTo]: the [exp] claim read back as a [DateTime] by
    [EpochTime.DateTime], which answers the epoch itself for a claim that is
    not positive. *)
Definition ValidTo (tok : t) : option DateTime :=
  option_map (fun s => if s <=? 0 then 0 else s * TicksPerSecond) (Exp tok).
End JwtSecurityToken.

Module AuthResponse.
Record t := mk {
  Token : JwtSecurityToken.t;
  ExpiresAt : DateTime;
  User : UserInfo.t
}.
End AuthResponse.

Module ErrorResponse.
Record t := mk {
  Message : string
}.
End ErrorResponse.

Module CreateTaskRequest.
Record t := mk {
  Title : string;
  Description : option string;
  DueDate : option DateTime;
  Priority : Z
}.
End CreateTaskRequest.

Module UpdateTaskRequest.
Record t := mk {
  Title : option string;
  Description : option string;
  DueDate : option DateTime;
  Priority : option Z;
  IsCompleted : option bool
}.
End UpdateTaskRequest.

Module TaskResponse.
Record t := mk {
  Id : Z;
  Title : string;
  Description : option string;
  DueDate : option DateTime;
  Priority : Z;
  IsCompleted : bool;
  CreatedAt : DateTime;
  UpdatedAt : option DateTime
}.

Definition PriorityLabel (r : t) : string :=
  if Priority r =? 1 then "Low"
  else if Priority r =? 2 then "Medium"
  else if Priority r =? 3 then "High"
  else "Unknown".
End TaskResponse.

Module TaskQueryParams.
Record t := mk {
  IsCompleted : option bool;
  Priority : option Z;
  DueBefore : option DateTime;
  DueAfter : option DateTime;
  Search : option string;
  SortBy : string;
  SortDirection : string
}.
End TaskQueryParams.

Module TaskListResponse.
Record t := mk {
  Tasks : list TaskResponse.t;
  TotalCount : Z;
  CompletedCount : Z;
  PendingCount : Z
}.
End TaskListResponse.

(* ===================================================================== *)
(** ** Effects of a request and the world they act on                     *)
(* ===================================================================== *)

Inductive Exception :=
| DbUpdateException (message : string)
| DbUpdateConcurrencyException (message : string)
| UnauthorizedAccessException (message : string)
| ArgumentException (message : string)
| InvalidOperationException (message : string).

Definition Message (e : Exception) : string :=
  match e with
  | DbUpdateException m | DbUpdateConcurrencyException m
  | UnauthorizedAccessException m | ArgumentException m
  | InvalidOperationException m => m
  end.

Inductive LogLevel := Information | Warning | Error.

(** An [IQueryable<TodoTask>]: a query still to be executed, as the function
    from the rows of the Tasks table to the rows it yields. *)
Definition IQueryable := list TodoTask.t -> list TodoTask.t.

(** What a service method can await or call outside itself.  EF Core's
    [Add]/[Remove]/property writes followed by [SaveChangesAsync] are one
    effect each, carrying the entity the change tracker holds. *)
Inductive Eff : Type -> Type :=
| UtcNow : Eff DateTime
| NewGuid : Eff string
| Log : LogLevel -> string -> Eff unit
| BCrypt_HashPassword : string -> Eff string
| BCrypt_Verify : string -> string -> Eff bool
| Users_AnyAsync : (User.t -> bool) -> Eff bool
| Users_FirstOrDefaultAsync : (User.t -> bool) -> Eff (option User.t)
| Users_Add_SaveChangesAsync : User.t -> Eff (Exception + User.t)
| Tasks_FirstOrDefaultAsync : (TodoTask.t -> bool) -> Eff (option TodoTask.t)
| Tasks_CountAsync : IQueryable -> Eff Z
| Tasks_ToListAsync : IQueryable -> Eff (list TodoTask.t)
| Tasks_Add_SaveChangesAsync : TodoTask.t -> Eff (Exception + TodoTask.t)
| Tasks_Update_SaveChangesAsync : TodoTask.t -> Eff (option Exception)
| Tasks_Remove_SaveChangesAsync : TodoTask.t -> Eff (option Exception).

Inductive Prog (A : Type) : Type :=
| Ret (a : A)
| Throw (e : Exception)
| Vis {X : Type} (e : Eff X) (k : X -> Prog A).

Arguments Ret {A} a.
Arguments Throw {A} e.
Arguments Vis {A X} e k.

Fixpoint bind {A B : Type} (p : Prog A) (f : A -> Prog B) : Prog B :=
  match p with
  | Ret a => f a
  | Throw e => Throw e
  | Vis e k => Vis e (fun x => bind (k x) f)
  end.

(** [try { p } catch (Exception ex) { h ex }] *)
Fixpoint try_catch {A : Type} (p : Prog A) (h : Exception -> Prog A) : Prog A :=
  match p with
  | Ret a => Ret a
  | Throw e => h e
  | Vis e k => Vis e (fun x => try_catch (k x) h)
  end.

Definition perform {X : Type} (e : Eff X) : Prog X := Vis e Ret.

Declare Scope prog_scope.
Delimit Scope prog_scope with prog.
Notation "x <- p ;; q" := (bind p (fun x => q))
  (at level 61, p at next level, right associativity) : prog_scope.
Notation "p ;; q" := (bind p (fun _ => q))
  (at level 61, right associativity) : prog_scope.
Local Open Scope prog_scope.

(** The external BCrypt library: [HashPassword salt password] (the salt is
    drawn at random by the library) and [Verify password hash]. *)
Class BCrypt := {
  HashPassword : string -> string -> string;
  Verify : string -> string -> bool
}.

Inductive Event :=
| Logged (level : LogLevel) (template : string)
| Hashed (password : string)
| Verified (password hash : string).

(** The database shared by all requests, the sources of time and randomness,
    and the record of log lines and BCrypt calls made so far (oldest first). *)
Record World := mkWorld {
  Users : list User.t;
  Tasks : list TodoTask.t;
  NextUserId : Z;
  NextTaskId : Z;
  Now : DateTime;
  Guid : string;
  Salt : string;
  Trace : list Event
}.

Definition with_Users (w : World) (us : list User.t) (next : Z) : World :=
  {| Users := us; Tasks := Tasks w; NextUserId := next;
     NextTaskId := NextTaskId w; Now := Now w; Guid := Guid w;
     Salt := Salt w; Trace := Trace w |}.

Definition with_Tasks (w : World) (ts : list TodoTask.t) (next : Z) : World :=
  {| Users := Users w; Tasks := ts; NextUserId := NextUserId w;
     NextTaskId := next; Now := Now w; Guid := Guid w;
     Salt := Salt w; Trace := Trace w |}.

Definition emit (w : World) (ev : Event) : World :=
  {| Users := Users w; Tasks := Tasks w; NextUserId := NextUserId w;
     NextTaskId := NextTaskId w; Now := Now w; Guid := Guid w;
     Salt := Salt w; Trace := Trace w ++ [ev] |}.

Definition set_user_id (u : User.t) (i : Z) : User.t :=
  {| User.Id := i; User.Email := User.Email u;
     User.PasswordHash := User.PasswordHash u;
     User.CreatedAt := User.CreatedAt u |}.

Definition set_task_id (t : TodoTask.t) (i : Z) : TodoTask.t :=
  {| TodoTask.Id := i; TodoTask.UserId := TodoTask.UserId t;
     TodoTask.Title := TodoTask.Title t;
     TodoTask.Description := TodoTask.Description t;
     TodoTask.DueDate := TodoTask.DueDate t;
     TodoTask.Priority := TodoTask.Priority t;
     TodoTask.IsCompleted := TodoTask.IsCompleted t;
     TodoTask.CreatedAt := TodoTask.CreatedAt t;
     TodoTask.UpdatedAt := TodoTask.UpdatedAt t |}.

(** UPDATE ... WHERE Id = [t.Id] *)
Definition replace_row (t : TodoTask.t) (rows : list TodoTask.t) : list TodoTask.t :=
  map (fun r => if TodoTask.Id r =? TodoTask.Id t then t else r) rows.

(** DELETE ... WHERE Id = [t.Id] *)
Definition delete_row (t : TodoTask.t) (rows : list TodoTask.t) : list TodoTask.t :=
  filter (fun r => negb (TodoTask.Id r =? TodoTask.Id t)) rows.

Definition has_row (i : Z) (rows : list TodoTask.t) : bool :=
  existsb (fun r => TodoTask.Id r =? i) rows.

Section Handler.
Context {bcrypt : BCrypt}.

(** The store and the libraries answering one effect.  The Users table has
    the unique index on Email declared in [OnModelCreating]; Tasks.UserId
    is a foreign key into Users; keys are generated by the store. *)
Definition handle {X : Type} (e : Eff X) (w : World) : X * World :=
  match e in Eff X return X * World with
  | UtcNow => (Now w, w)
  | NewGuid => (Guid w, w)
  | Log lvl msg => (tt, emit w (Logged lvl msg))
  | BCrypt_HashPassword pwd =>
      (HashPassword (Salt w) pwd, emit w (Hashed pwd))
  | BCrypt_Verify pwd hash =>
      (Verify pwd hash, emit w (Verified pwd hash))
  | Users_AnyAsync p => (existsb p (Users w), w)
  | Users_FirstOrDefaultAsync p => (find p (Users w), w)
  | Users_Add_SaveChangesAsync u =>
      if existsb (fun v => String.eqb (User.Email v) (User.Email u)) (Users w)
      then (inl (DbUpdateException "UNIQUE constraint failed: Users.Email"), w)
      else
        let u' := set_user_id u (NextUserId w) in
        (inr u', with_Users w (Users w ++ [u']) (NextUserId w + 1))
  | Tasks_FirstOrDefaultAsync p => (find p (Tasks w), w)
  | Tasks_CountAsync q => (Z.of_nat (List.length (q (Tasks w))), w)
  | Tasks_ToListAsync q => (q (Tasks w), w)
  | Tasks_Add_SaveChangesAsync t =>
      if existsb (fun v => User.Id v =? TodoTask.UserId t) (Users w)
      then
        let t' := set_task_id t (NextTaskId w) in
        (inr t', with_Tasks w (Tasks w ++ [t']) (NextTaskId w + 1))
      else (inl (DbUpdateException "FOREIGN KEY constraint failed"), w)
  | Tasks_Update_SaveChangesAsync t =>
      if has_row (TodoTask.Id t) (Tasks w)
      then (None, with_Tasks w (replace_row t (Tasks w)) (NextTaskId w))
      else (Some (DbUpdateConcurrencyException "0 rows affected"), w)
  | Tasks_Remove_SaveChangesAsync t =>
      if has_row (TodoTask.Id t) (Tasks w)
      then (None, with_Tasks w (delete_row t (Tasks w)) (NextTaskId w))
      else (Some (DbUpdateConcurrencyException "0 rows affected"), w)
  end.

Inductive Outcome (A : Type) : Type :=
| Returned (a : A)
| Thrown (e : Exception).

(** One request running alone. *)
Fixpoint run {A : Type} (p : Prog A) (w : World) : Outcome A * World :=
  match p with
  | Ret a => (Returned A a, w)
  | Throw e => (Thrown A e, w)
  | Vis e k => let (x, w') := handle e w in run (k x) w'
  end.

(** One suspension point of a request. *)
Definition step {A : Type} (p : Prog A) (w : World) : Prog A * World :=
  match p with
  | Vis e k => let (x, w') := handle e w in (k x, w')
  | _ => (p, w)
  end.

(** Two requests in flight: the schedule says which one resumes next
    ([true]: the first); when it is used up the first runs to its end,
    then the second. *)
Fixpoint run_pair {A B : Type} (sched : list bool)
    (p : Prog A) (q : Prog B) (w : World)
    : Outcome A * Outcome B * World :=
  match sched with
  | [] =>
      let (a, w1) := run p w in
      let (b, w2) := run q w1 in (a, b, w2)
  | true :: s => let (p', w') := step p w in run_pair s p' q w'
  | false :: s => let (q', w') := step q w in run_pair s p q' w'
  end.
End Handler.

Arguments Returned {A} a.
Arguments Thrown {A} e.

(** [await _context.SaveChangesAsync()] after an [Add]: the store's refusal
    surfaces as the exception it raises. *)
Definition SaveAdded {X : Type} (e : Eff (Exception + X)) : Prog X :=
  r <- perform e ;;
  match r with
  | inl ex => Throw ex
  | inr x => Ret x
  end.

(** [await _context.SaveChangesAsync()] after a property write or [Remove]. *)
Definition SaveChanged (e : Eff (option Exception)) : Prog unit :=
  r <- perform e ;;
  match r with
  | Some ex => Throw ex
  | None => Ret tt
  end.

(* ===================================================================== *)
(** ** Double-precision arithmetic on tick counts                         *)
(* ===================================================================== *)

(** [TimeSpan.TotalSeconds] is a [double]: the tick count converted to a
    double and divided by [TicksPerSecond], each step rounded to the nearest
    value with 53 significant bits, a tie going to the even one.  The values
    met here are positive and far from the ends of the exponent range, so a
    double is kept as the number it stands for. *)
Module Double.

(** [a / b] rounded to the nearest integer, a tie to the even one. *)
Definition nearest_even (a b : Z) : Z :=
  let q := a / b in
  let r := a mod b in
  if 2 * r <? b then q
  else if b <? 2 * r then q + 1
  else if Z.even q then q else q + 1.

(** [(double)n] for a positive [long]: exact below [2^53], above it the
    nearest multiple of [2^(log2 n - 52)]. *)
Definition of_long (n : Z) : Z :=
  let e := Z.max 0 (Z.log2 n - 52) in
  2 ^ e * nearest_even n (2 ^ e).

(** [(long)(x / TicksPerSecond)] for a double [x] holding a positive whole
    number: the quotient rounded to 53 significant bits, then its fraction
    cut off.  Below one second the quotient is at most [1 - 1e-7], and so is
    its nearest double. *)
Definition seconds_to_long (x : Z) : Z :=
  if x <? TicksPerSecond then 0
  else
    let s := 52 - Z.log2 (x / TicksPerSecond) in
    if 0 <=? s
    then nearest_even (x * 2 ^ s) TicksPerSecond / 2 ^ s
    else 2 ^ (- s) * nearest_even x (TicksPerSecond * 2 ^ (- s)).

End Double.

(* ===================================================================== *)
(** ** AuthService                                                        *)
(* ===================================================================== *)

Module AuthService.
Section WithSettings.
Variable _jwtSettings : JwtSettings.t.

(** [EpochTime.GetIntDate], which the [JwtSecurityToken] constructor applies
    to [expires]: 0 at or before the epoch, otherwise
    [(long)(d - UnixEpoch).TotalSeconds].  The fraction of a second is cut
    off, except that an instant within a few ticks below a whole second is
    already that second once it is a double. *)
Definition GetIntDate (d : DateTime) : Z :=
  if d <=? 0 then 0 else Double.seconds_to_long (Double.of_long d).

(** [DateTimeOffset.ToUnixTimeSeconds] *)
Definition ToUnixTimeSeconds (d : DateTime) : Z := d / TicksPerSecond.

Definition GenerateAuthResponse (user : User.t) : Prog AuthResponse.t :=
  now <- perform UtcNow ;;
  let expiresAt := AddMinutes now (JwtSettings.ExpirationMinutes _jwtSettings) in
  jti <- perform NewGuid ;;
  iatNow <- perform UtcNow ;;
  let token :=
    {| JwtSecurityToken.NameIdentifier := User.Id user;
       JwtSecurityToken.EmailClaim := User.Email user;
       JwtSecurityToken.Jti := jti;
       JwtSecurityToken.Iat := ToUnixTimeSeconds iatNow;
       JwtSecurityToken.Issuer := JwtSettings.Issuer _jwtSettings;
       JwtSecurityToken.Audience := JwtSettings.Audience _jwtSettings;
       JwtSecurityToken.Exp := Some (GetIntDate expiresAt);
       JwtSecurityToken.SigningKey := JwtSettings.SecretKey _jwtSettings |} in
  Ret {| AuthResponse.Token := token;
         AuthResponse.ExpiresAt := expiresAt;
         AuthResponse.User :=
           {| UserInfo.Id := User.Id user; UserInfo.Email := User.Email user |} |}.

Definition EmailExistsAsync (email : string) : Prog bool :=
  perform (Users_AnyAsync
    (fun u => String.eqb (User.Email u) (Str.Trim (Str.ToLowerInvariant email)))).

Definition RegisterAsync (request : RegisterRequest.t)
    : Prog (option AuthResponse.t) :=
  try_catch
    (taken <- EmailExistsAsync (RegisterRequest.Email request) ;;
     if (taken : bool) then
       perform (Log Warning "Registration failed: Email {Email} already exists") ;;
       Ret None
     else
       hash <- perform (BCrypt_HashPassword (RegisterRequest.Password request)) ;;
       now <- perform UtcNow ;;
       let user :=
         {| User.Id := 0;
            User.Email := Str.Trim (Str.ToLowerInvariant (RegisterRequest.Email request));
            User.PasswordHash := hash;
            User.CreatedAt := now |} in
       user <- SaveAdded (Users_Add_SaveChangesAsync user) ;;
       perform (Log Information "User registered successfully: {Email}") ;;
       r <- GenerateAuthResponse user ;;
       Ret (Some r))
    (fun ex =>
       perform (Log Error "Error during user registration for {Email}") ;;
       Throw ex).

Definition LoginAsync (request : LoginRequest.t)
    : Prog (option AuthResponse.t) :=
  try_catch
    (user <- perform (Users_FirstOrDefaultAsync
               (fun u => String.eqb (User.Email u)
                  (Str.Trim (Str.ToLowerInvariant (LoginRequest.Email request))))) ;;
     match user with
     | None =>
         perform (Log Warning "Login failed: User not found for {Email}") ;;
         Ret None
     | Some user =>
         ok <- perform (BCrypt_Verify (LoginRequest.Password request)
                          (User.PasswordHash user)) ;;
         if negb ok then
           perform (Log Warning "Login failed: Invalid password for {Email}") ;;
           Ret None
         else
           perform (Log Information "User logged in successfully: {Email}") ;;
           r <- GenerateAuthResponse user ;;
           Ret (Some r)
     end)
    (fun ex =>
       perform (Log Error "Error during login for {Email}") ;;
       Throw ex).
End WithSettings.
End AuthService.

(* ===================================================================== *)
(** ** Queries: Where, OrderBy, OrderByDescending                         *)
(* ===================================================================== *)

Module Linq.
Definition Where (p : TodoTask.t -> bool) (q : IQueryable) : IQueryable :=
  fun rows => filter p (q rows).

Fixpoint insert_by (le : TodoTask.t -> TodoTask.t -> bool)
    (x : TodoTask.t) (l : list TodoTask.t) : list TodoTask.t :=
  match l with
  | [] => [x]
  | y :: r => if le x y then x :: y :: r else y :: insert_by le x r
  end.

(** Rows in the order of [le]; rows that compare equal keep the order they
    had (the store promises no order among them, LINQ keeps it). *)
Definition sort_by (le : TodoTask.t -> TodoTask.t -> bool)
    (l : list TodoTask.t) : list TodoTask.t :=
  fold_right (insert_by le) [] l.

Definition OrderBy {K : Type} (key : TodoTask.t -> K) (le : K -> K -> bool)
    (q : IQueryable) : IQueryable :=
  fun rows => sort_by (fun a b => le (key a) (key b)) (q rows).

Definition OrderByDescending {K : Type} (key : TodoTask.t -> K)
    (le : K -> K -> bool) (q : IQueryable) : IQueryable :=
  fun rows => sort_by (fun a b => le (key b) (key a)) (q rows).

(** [a] may stand before [b] in a list sorted by [le]. *)
Definition ordered (le : TodoTask.t -> TodoTask.t -> bool) (a b : TodoTask.t)
  : Prop := le a b = true.

(** Order of a nullable column: NULL sorts below every value, both in
    SQLite's ORDER BY and in .NET's comparer for [Nullable<T>]. *)
Definition nullable_le (a b : option Z) : bool :=
  match a, b with
  | None, _ => true
  | Some _, None => false
  | Some x, Some y => x <=? y
  end.
End Linq.

(* ===================================================================== *)
(** ** TaskService                                                        *)
(* ===================================================================== *)

Module TaskService.
Import Linq.

Definition MapToResponse (task : TodoTask.t) : TaskResponse.t :=
  {| TaskResponse.Id := TodoTask.Id task;
     TaskResponse.Title := TodoTask.Title task;
     TaskResponse.Description := TodoTask.Description task;
     TaskResponse.DueDate := TodoTask.DueDate task;
     TaskResponse.Priority := TodoTask.Priority task;
     TaskResponse.IsCompleted := TodoTask.IsCompleted task;
     TaskResponse.CreatedAt := TodoTask.CreatedAt task;
     TaskResponse.UpdatedAt := TodoTask.UpdatedAt task |}.

Definition GetUserTaskAsync (userId taskId : Z) : Prog (option TodoTask.t) :=
  perform (Tasks_FirstOrDefaultAsync
    (fun t => (TodoTask.Id t =? taskId) && (TodoTask.UserId t =? userId))).

(** The search term is lower-cased by the framework before the query is
    sent; [t.Title.ToLower()] and [t.Description.ToLower()] are part of the
    query and become [lower()] of the store, [Contains] becomes [instr]. *)
Definition ApplyFilters (query : IQueryable) (queryParams : TaskQueryParams.t)
    : IQueryable :=
  let query :=
    match TaskQueryParams.IsCompleted queryParams with
    | Some v => Where (fun t => Bool.eqb (TodoTask.IsCompleted t) v) query
    | None => query
    end in
  let query :=
    match TaskQueryParams.Priority queryParams with
    | Some v => Where (fun t => TodoTask.Priority t =? v) query
    | None => query
    end in
  let query :=
    match TaskQueryParams.DueBefore queryParams with
    | Some v =>
        Where (fun t => match TodoTask.DueDate t with
                        | Some d => d <=? v
                        | None => false
                        end) query
    | None => query
    end in
  let query :=
    match TaskQueryParams.DueAfter queryParams with
    | Some v =>
        Where (fun t => match TodoTask.DueDate t with
                        | Some d => d >=? v
                        | None => false
                        end) query
    | None => query
    end in
  let query :=
    if negb (Str.IsNullOrWhiteSpace (TaskQueryParams.Search queryParams)) then
      let searchTerm :=
        Str.ToLower (match TaskQueryParams.Search queryParams with
                     | Some s => s
                     | None => ""
                     end) in
      Where (fun t =>
               Sqlite.instr_positive (Sqlite.lower (TodoTask.Title t)) searchTerm
               || match TodoTask.Description t with
                  | Some d => Sqlite.instr_positive (Sqlite.lower d) searchTerm
                  | None => false
                  end) query
    else query in
  query.

Definition ApplySorting (query : IQueryable) (queryParams : TaskQueryParams.t)
    : IQueryable :=
  let isDescending :=
    String.eqb (Str.ToLower (TaskQueryParams.SortDirection queryParams)) "desc" in
  let sortBy := Str.ToLower (TaskQueryParams.SortBy queryParams) in
  if String.eqb sortBy "duedate" then
    if isDescending
    then OrderByDescending TodoTask.DueDate nullable_le query
    else OrderBy TodoTask.DueDate nullable_le query
  else if String.eqb sortBy "priority" then
    if isDescending
    then OrderByDescending TodoTask.Priority Z.leb query
    else OrderBy TodoTask.Priority Z.leb query
  else if String.eqb sortBy "title" then
    if isDescending
    then OrderByDescending TodoTask.Title String.leb query
    else OrderBy TodoTask.Title String.leb query
  else
    if isDescending
    then OrderByDescending TodoTask.CreatedAt Z.leb query
    else OrderBy TodoTask.CreatedAt Z.leb query.

Definition GetTasksAsync (userId : Z) (queryParams : TaskQueryParams.t)
    : Prog TaskListResponse.t :=
  let query := Where (fun t => TodoTask.UserId t =? userId) (fun rows => rows) in
  let query := ApplyFilters query queryParams in
  totalCount <- perform (Tasks_CountAsync query) ;;
  completedCount <-
    perform (Tasks_CountAsync (Where (fun t => TodoTask.IsCompleted t) query)) ;;
  let pendingCount := totalCount - completedCount in
  let query := ApplySorting query queryParams in
  tasks <- perform (Tasks_ToListAsync query) ;;
  Ret {| TaskListResponse.Tasks := map MapToResponse tasks;
         TaskListResponse.TotalCount := totalCount;
         TaskListResponse.CompletedCount := completedCount;
         TaskListResponse.PendingCount := pendingCount |}.

Definition GetTaskByIdAsync (userId taskId : Z) : Prog (option TaskResponse.t) :=
  task <- GetUserTaskAsync userId taskId ;;
  Ret (option_map MapToResponse task).

Definition CreateTaskAsync (userId : Z) (request : CreateTaskRequest.t)
    : Prog TaskResponse.t :=
  now <- perform UtcNow ;;
  let task :=
    {| TodoTask.Id := 0;
       TodoTask.UserId := userId;
       TodoTask.Title := Str.Trim (CreateTaskRequest.Title request);
       TodoTask.Description :=
         option_map Str.Trim (CreateTaskRequest.Description request);
       TodoTask.DueDate := CreateTaskRequest.DueDate request;
       TodoTask.Priority := CreateTaskRequest.Priority request;
       TodoTask.IsCompleted := false;
       TodoTask.CreatedAt := now;
       TodoTask.UpdatedAt := None |} in
  task <- SaveAdded (Tasks_Add_SaveChangesAsync task) ;;
  perform (Log Information "Task created: {TaskId} for user {UserId}") ;;
  Ret (MapToResponse task).

Definition set_Title (task : TodoTask.t) (v : string) : TodoTask.t :=
  {| TodoTask.Id := TodoTask.Id task; TodoTask.UserId := TodoTask.UserId task;
     TodoTask.Title := v;
     TodoTask.Description := TodoTask.Description task;
     TodoTask.DueDate := TodoTask.DueDate task;
     TodoTask.Priority := TodoTask.Priority task;
     TodoTask.IsCompleted := TodoTask.IsCompleted task;
     TodoTask.CreatedAt := TodoTask.CreatedAt task;
     TodoTask.UpdatedAt := TodoTask.UpdatedAt task |}.

Definition set_Description (task : TodoTask.t) (v : option string) : TodoTask.t :=
  {| TodoTask.Id := TodoTask.Id task; TodoTask.UserId := TodoTask.UserId task;
     TodoTask.Title := TodoTask.Title task;
     TodoTask.Description := v;
     TodoTask.DueDate := TodoTask.DueDate task;
     TodoTask.Priority := TodoTask.Priority task;
     TodoTask.IsCompleted := TodoTask.IsCompleted task;
     TodoTask.CreatedAt := TodoTask.CreatedAt task;
     TodoTask.UpdatedAt := TodoTask.UpdatedAt task |}.

Definition set_DueDate (task : TodoTask.t) (v : option DateTime) : TodoTask.t :=
  {| TodoTask.Id := TodoTask.Id task; TodoTask.UserId := TodoTask.UserId task;
     TodoTask.Title := TodoTask.Title task;
     TodoTask.Description := TodoTask.Description task;
     TodoTask.DueDate := v;
     TodoTask.Priority := TodoTask.Priority task;
     TodoTask.IsCompleted := TodoTask.IsCompleted task;
     TodoTask.CreatedAt := TodoTask.CreatedAt task;
     TodoTask.UpdatedAt := TodoTask.UpdatedAt task |}.

Definition set_Priority (task : TodoTask.t) (v : Z) : TodoTask.t :=
  {| TodoTask.Id := TodoTask.Id task; TodoTask.UserId := TodoTask.UserId task;
     TodoTask.Title := TodoTask.Title task;
     TodoTask.Description := TodoTask.Description task;
     TodoTask.DueDate := TodoTask.DueDate task;
     TodoTask.Priority := v;
     TodoTask.IsCompleted := TodoTask.IsCompleted task;
     TodoTask.CreatedAt := TodoTask.CreatedAt task;
     TodoTask.UpdatedAt := TodoTask.UpdatedAt task |}.

Definition set_IsCompleted (task : TodoTask.t) (v : bool) : TodoTask.t :=
  {| TodoTask.Id := TodoTask.Id task; TodoTask.UserId := TodoTask.UserId task;
     TodoTask.Title := TodoTask.Title task;
     TodoTask.Description := TodoTask.Description task;
     TodoTask.DueDate := TodoTask.DueDate task;
     TodoTask.Priority := TodoTask.Priority task;
     TodoTask.IsCompleted := v;
     TodoTask.CreatedAt := TodoTask.CreatedAt task;
     TodoTask.UpdatedAt := TodoTask.UpdatedAt task |}.

Definition set_UpdatedAt (task : TodoTask.t) (v : option DateTime) : TodoTask.t :=
  {| TodoTask.Id := TodoTask.Id task; TodoTask.UserId := TodoTask.UserId task;
     TodoTask.Title := TodoTask.Title task;
     TodoTask.Description := TodoTask.Description task;
     TodoTask.DueDate := TodoTask.DueDate task;
     TodoTask.Priority := TodoTask.Priority task;
     TodoTask.IsCompleted := TodoTask.IsCompleted task;
     TodoTask.CreatedAt := TodoTask.CreatedAt task;
     TodoTask.UpdatedAt := v |}.

(** The property writes of [UpdateTaskAsync], in the order of the source. *)
Definition apply_request (task : TodoTask.t) (request : UpdateTaskRequest.t)
    : TodoTask.t :=
  let task :=
    match UpdateTaskRequest.Title request with
    | Some v => set_Title task (Str.Trim v)
    | None => task
    end in
  let task :=
    match UpdateTaskRequest.Description request with
    | Some v => set_Description task (Some (Str.Trim v))
    | None => task
    end in
  let task :=
    match UpdateTaskRequest.DueDate request with
    | Some v => set_DueDate task (Some v)
    | None => task
    end in
  let task :=
    match UpdateTaskRequest.Priority request with
    | Some v => set_Priority task v
    | None => task
    end in
  let task :=
    match UpdateTaskRequest.IsCompleted request with
    | Some v => set_IsCompleted task v
    | None => task
    end in
  task.

Definition UpdateTaskAsync (userId taskId : Z) (request : UpdateTaskRequest.t)
    : Prog (option TaskResponse.t) :=
  task <- GetUserTaskAsync userId taskId ;;
  match task with
  | None => Ret None
  | Some task =>
      let task := apply_request task request in
      now <- perform UtcNow ;;
      let task := set_UpdatedAt task (Some now) in
      SaveChanged (Tasks_Update_SaveChangesAsync task) ;;
      perform (Log Information "Task updated: {TaskId} for user {UserId}") ;;
      Ret (Some (MapToResponse task))
  end.

Definition DeleteTaskAsync (userId taskId : Z) : Prog bool :=
  task <- GetUserTaskAsync userId taskId ;;
  match task with
  | None => Ret false
  | Some task =>
      SaveChanged (Tasks_Remove_SaveChangesAsync task) ;;
      perform (Log Information "Task deleted: {TaskId} for user {UserId}") ;;
      Ret true
  end.

Definition ToggleCompletionAsync (userId taskId : Z)
    : Prog (option TaskResponse.t) :=
  task <- GetUserTaskAsync userId taskId ;;
  match task with
  | None => Ret None
  | Some task =>
      let task := set_IsCompleted task (negb (TodoTask.IsCompleted task)) in
      now <- perform UtcNow ;;
      let task := set_UpdatedAt task (Some now) in
      SaveChanged (Tasks_Update_SaveChangesAsync task) ;;
      perform (Log Information
        "Task {TaskId} completion toggled to {IsCompleted} for user {UserId}") ;;
      Ret (Some (MapToResponse task))
  end.
End TaskService.

(* ===================================================================== *)
(** ** Request validation ([ApiController] with data annotations)         *)
(* ===================================================================== *)

Module Validation.
(** [RequiredAttribute] on a string: not empty and not only white space. *)
Definition Required (s : string) : bool := negb (Str.all_white s).

Definition MaxLength (n : Z) (s : string) : bool := Str.Length s <=? n.
Definition MinLength (n : Z) (s : string) : bool := n <=? Str.Length s.
Definition Range (lo hi v : Z) : bool := (lo <=? v) && (v <=? hi).

Definition opt {A : Type} (check : A -> bool) (v : option A) : bool :=
  match v with
  | Some x => check x
  | None => true
  end.

Definition errors (checks : list (bool * string)) : list string :=
  map snd (filter (fun c => negb (fst c)) checks).

Definition CreateTaskRequest (r : CreateTaskRequest.t) : list string :=
  errors
    [ (Required (CreateTaskRequest.Title r), "Title is required");
      (MaxLength 200 (CreateTaskRequest.Title r),
         "Title cannot exceed 200 characters");
      (opt (MaxLength 2000) (CreateTaskRequest.Description r),
         "Description cannot exceed 2000 characters");
      (Range 1 3 (CreateTaskRequest.Priority r),
         "Priority must be 1 (Low), 2 (Medium), or 3 (High)") ].

Definition UpdateTaskRequest (r : UpdateTaskRequest.t) : list string :=
  errors
    [ (opt (MaxLength 200) (UpdateTaskRequest.Title r),
         "Title cannot exceed 200 characters");
      (opt (MaxLength 2000) (UpdateTaskRequest.Description r),
         "Description cannot exceed 2000 characters");
      (opt (Range 1 3) (UpdateTaskRequest.Priority r),
         "Priority must be 1 (Low), 2 (Medium), or 3 (High)") ].

(** The attributes of [TaskQueryParams], bound from the query string; an
    attribute without [ErrorMessage] answers with the framework's text. *)
Definition TaskQueryParams (q : TaskQueryParams.t) : list string :=
  errors
    [ (opt (Range 1 3) (TaskQueryParams.Priority q),
         "The field Priority must be between 1 and 3.");
      (opt (MaxLength 100) (TaskQueryParams.Search q),
         "The field Search must be a string or array type with a maximum length of '100'.") ].

Fixpoint count_char (c : ascii) (s : string) : nat :=
  match s with
  | EmptyString => O
  | String d r => if Ascii.eqb c d then S (count_char c r) else count_char c r
  end.

Fixpoint last_char (s : string) : option ascii :=
  match s with
  | EmptyString => None
  | String c EmptyString => Some c
  | String _ r => last_char r
  end.

(** [EmailAddressAttribute]: exactly one at-sign, neither first nor last. *)
Definition EmailAddress (s : string) : bool :=
  Nat.eqb (count_char "@"%char s) 1
  && match s with
     | EmptyString => false
     | String c _ => negb (Ascii.eqb c "@"%char)
     end
  && match last_char s with
     | Some c => negb (Ascii.eqb c "@"%char)
     | None => false
     end.

Definition RegisterRequest (r : RegisterRequest.t) : list string :=
  errors
    [ (Required (RegisterRequest.Email r), "Email is required");
      (EmailAddress (RegisterRequest.Email r), "Invalid email format");
      (MaxLength 255 (RegisterRequest.Email r),
         "The field Email must be a string or array type with a maximum length of '255'.");
      (Required (RegisterRequest.Password r), "Password is required");
      (MinLength 8 (RegisterRequest.Password r),
         "Password must be at least 8 characters");
      (MaxLength 100 (RegisterRequest.Password r),
         "The field Password must be a string or array type with a maximum length of '100'.");
      (Required (RegisterRequest.ConfirmPassword r),
         "Password confirmation is required");
      (String.eqb (RegisterRequest.ConfirmPassword r) (RegisterRequest.Password r),
         "Passwords do not match") ].

Definition LoginRequest (r : LoginRequest.t) : list string :=
  errors
    [ (Required (LoginRequest.Email r), "Email is required");
      (EmailAddress (LoginRequest.Email r), "Invalid email format");
      (Required (LoginRequest.Password r), "Password is required") ].
End Validation.

(* ===================================================================== *)
(** ** Controllers and the exception middleware                           *)
(* ===================================================================== *)

Inductive Body :=
| NoBody
| ErrorBody (e : ErrorResponse.t)
| ValidationProblem (errors : list string)
| AuthBody (a : AuthResponse.t)
| TaskBody (t : TaskResponse.t)
| TaskListBody (l : TaskListResponse.t).

Record IActionResult := mkResult {
  StatusCode : Z;
  Value : Body
}.

Definition error (m : string) : Body := ErrorBody {| ErrorResponse.Message := m |}.

Definition Ok (v : Body) : IActionResult := mkResult 200 v.
Definition CreatedAtAction (v : Body) : IActionResult := mkResult 201 v.
Definition NoContent : IActionResult := mkResult 204 NoBody.
Definition BadRequest (v : Body) : IActionResult := mkResult 400 v.
Definition Unauthorized (v : Body) : IActionResult := mkResult 401 v.
Definition NotFound (v : Body) : IActionResult := mkResult 404 v.
Definition Conflict (v : Body) : IActionResult := mkResult 409 v.
Definition InternalServerError (v : Body) : IActionResult := mkResult 500 v.

(** The identity the bearer handler attached to the request: the value of
    the name-identifier claim, when there is one that parses as an [int]. *)
Record ClaimsPrincipal := mkPrincipal {
  NameIdentifier : option Z
}.

Module AuthController.
Section WithSettings.
Variable _jwtSettings : JwtSettings.t.

Definition Register (request : RegisterRequest.t) : Prog IActionResult :=
  result <- AuthService.RegisterAsync _jwtSettings request ;;
  match result with
  | None => Ret (Conflict (error "An account with this email already exists"))
  | Some r => Ret (CreatedAtAction (AuthBody r))
  end.

Definition Login (request : LoginRequest.t) : Prog IActionResult :=
  result <- AuthService.LoginAsync _jwtSettings request ;;
  match result with
  | None => Ret (Unauthorized (error "Invalid email or password"))
  | Some r => Ret (Ok (AuthBody r))
  end.
End WithSettings.
End AuthController.

Module TasksController.
Section WithUser.
Variable User : ClaimsPrincipal.

Definition GetCurrentUserId : Prog Z :=
  match NameIdentifier User with
  | None => Throw (UnauthorizedAccessException "Invalid user token")
  | Some userId => Ret userId
  end.

Definition GetTasks (queryParams : TaskQueryParams.t) : Prog IActionResult :=
  userId <- GetCurrentUserId ;;
  result <- TaskService.GetTasksAsync userId queryParams ;;
  Ret (Ok (TaskListBody result)).

Definition GetTask (id : Z) : Prog IActionResult :=
  userId <- GetCurrentUserId ;;
  task <- TaskService.GetTaskByIdAsync userId id ;;
  match task with
  | None => Ret (NotFound (error "Task not found"))
  | Some t => Ret (Ok (TaskBody t))
  end.

Definition CreateTask (request : CreateTaskRequest.t) : Prog IActionResult :=
  userId <- GetCurrentUserId ;;
  task <- TaskService.CreateTaskAsync userId request ;;
  Ret (CreatedAtAction (TaskBody task)).

Definition UpdateTask (id : Z) (request : UpdateTaskRequest.t)
    : Prog IActionResult :=
  userId <- GetCurrentUserId ;;
  task <- TaskService.UpdateTaskAsync userId id request ;;
  match task with
  | None => Ret (NotFound (error "Task not found"))
  | Some t => Ret (Ok (TaskBody t))
  end.

Definition DeleteTask (id : Z) : Prog IActionResult :=
  userId <- GetCurrentUserId ;;
  deleted <- TaskService.DeleteTaskAsync userId id ;;
  if negb deleted
  then Ret (NotFound (error "Task not found"))
  else Ret NoContent.

Definition ToggleCompletion (id : Z) : Prog IActionResult :=
  userId <- GetCurrentUserId ;;
  task <- TaskService.ToggleCompletionAsync userId id ;;
  match task with
  | None => Ret (NotFound (error "Task not found"))
  | Some t => Ret (Ok (TaskBody t))
  end.
End WithUser.
End TasksController.

Module ExceptionMiddleware.
Section WithEnvironment.
Variable IsDevelopment : bool.

Definition InvokeAsync (next : Prog IActionResult) : Prog IActionResult :=
  try_catch next
    (fun ex =>
       match ex with
       | UnauthorizedAccessException _ =>
           perform (Log Warning "Unauthorized access attempt") ;;
           Ret (Unauthorized (error "Unauthorized access"))
       | ArgumentException m =>
           perform (Log Warning "Invalid argument provided") ;;
           Ret (BadRequest (error m))
       | _ =>
           perform (Log Error "An unhandled exception occurred") ;;
           let message :=
             if IsDevelopment then Message ex
             else "An unexpected error occurred. Please try again later." in
           Ret (InternalServerError (error message))
       end).
End WithEnvironment.
End ExceptionMiddleware.

(* ===================================================================== *)
(** ** Bearer-token validation as Program.cs configures it                *)
(* ===================================================================== *)

Module TokenValidationParameters.
Record t := mk {
  ValidateIssuer : bool;
  ValidateAudience : bool;
  ValidateLifetime : bool;
  ValidateIssuerSigningKey : bool;
  ValidIssuer : string;
  ValidAudience : string;
  IssuerSigningKey : string;
  ClockSkew : Z
}.
End TokenValidationParameters.

Inductive TokenError :=
| InvalidSignature
| NoExpiration
| Expired
| InvalidAudience
| InvalidIssuer.

Module Program.
Definition TokenValidationParameters (jwtSettings : JwtSettings.t)
    : TokenValidationParameters.t :=
  {| TokenValidationParameters.ValidateIssuer := true;
     TokenValidationParameters.ValidateAudience := true;
     TokenValidationParameters.ValidateLifetime := true;
     TokenValidationParameters.ValidateIssuerSigningKey := true;
     TokenValidationParameters.ValidIssuer := JwtSettings.Issuer jwtSettings;
     TokenValidationParameters.ValidAudience := JwtSettings.Audience jwtSettings;
     TokenValidationParameters.IssuerSigningKey := JwtSettings.SecretKey jwtSettings;
     TokenValidationParameters.ClockSkew := 0 |}.

(** Modelled from the spec: the lifetime check belongs to the JWT library
    of the framework, which is not part of src/; Program.cs only sets its
    parameters [ValidateLifetime] and [ClockSkew].  The specification says
    of it that validation fails with [Expired] when now > expiry, the clock
    skew being the tolerance granted past the expiry: a token is expired
    when its expiry lies before [utcNow] moved back by the clock skew.  A
    token that carries no expiry is refused, as the library documents. *)
Definition ValidateLifetime (p : TokenValidationParameters.t) (utcNow : DateTime)
    (expires : option DateTime) : option TokenError :=
  if TokenValidationParameters.ValidateLifetime p then
    match expires with
    | None => Some NoExpiration
    | Some expires =>
        if expires <? utcNow - TokenValidationParameters.ClockSkew p
        then Some Expired else None
    end
  else None.

(** The checks the JWT handler of the framework makes under those
    parameters, in its order: signature (always checked: a token must be
    signed with the configured key), lifetime, audience, issuer. *)
Definition ValidateToken (p : TokenValidationParameters.t) (utcNow : DateTime)
    (token : JwtSecurityToken.t) : TokenError + ClaimsPrincipal :=
  if negb (String.eqb (JwtSecurityToken.SigningKey token)
             (TokenValidationParameters.IssuerSigningKey p))
  then inl InvalidSignature
  else
    match ValidateLifetime p utcNow (JwtSecurityToken.ValidTo token) with
    | Some err => inl err
    | None =>
        if TokenValidationParameters.ValidateAudience p
           && negb (String.eqb (JwtSecurityToken.Audience token)
                      (TokenValidationParameters.ValidAudience p))
        then inl InvalidAudience
        else if TokenValidationParameters.ValidateIssuer p
                && negb (String.eqb (JwtSecurityToken.Issuer token)
                           (TokenValidationParameters.ValidIssuer p))
        then inl InvalidIssuer
        else inr {| NameIdentifier := Some (JwtSecurityToken.NameIdentifier token) |}
    end.

(** [OnChallenge]: every failed authentication is answered alike. *)
Definition OnChallenge : IActionResult :=
  Unauthorized (error "Authentication required. Please provide a valid token.").

(** An endpoint of the [Authorize]d tasks controller behind the
    middleware pipeline. *)
Definition Authorized (isDevelopment : bool) (jwtSettings : JwtSettings.t)
    (bearer : option JwtSecurityToken.t)
    (action : ClaimsPrincipal -> Prog IActionResult) : Prog IActionResult :=
  ExceptionMiddleware.InvokeAsync isDevelopment
    (match bearer with
     | None => Ret OnChallenge
     | Some token =>
         utcNow <- perform UtcNow ;;
         match ValidateToken (TokenValidationParameters jwtSettings) utcNow token with
         | inl _ => Ret OnChallenge
         | inr principal => action principal
         end
     end).

(** An endpoint of the anonymous auth controller behind the pipeline. *)
Definition Anonymous (isDevelopment : bool) (action : Prog IActionResult)
    : Prog IActionResult :=
  ExceptionMiddleware.InvokeAsync isDevelopment action.

(** [ApiController]: a request whose model state is invalid is answered
    with 400 and never reaches the action. *)
Definition ModelState (errors : list string) (action : Prog IActionResult)
    : Prog IActionResult :=
  match errors with
  | [] => action
  | _ :: _ => Ret (BadRequest (ValidationProblem errors))
  end.
End Program.

(** The HTTP endpoints: pipeline, authentication, model validation, action. *)
Module Endpoints.
Section WithHost.
Variable IsDevelopment : bool.
Variable jwtSettings : JwtSettings.t.

Definition Register (request : RegisterRequest.t) : Prog IActionResult :=
  Program.Anonymous IsDevelopment
    (Program.ModelState (Validation.RegisterRequest request)
       (AuthController.Register jwtSettings request)).

Definition Login (request : LoginRequest.t) : Prog IActionResult :=
  Program.Anonymous IsDevelopment
    (Program.ModelState (Validation.LoginRequest request)
       (AuthController.Login jwtSettings request)).

Definition GetTasks (bearer : option JwtSecurityToken.t)
    (queryParams : TaskQueryParams.t) : Prog IActionResult :=
  Program.Authorized IsDevelopment jwtSettings bearer
    (fun user =>
       Program.ModelState (Validation.TaskQueryParams queryParams)
         (TasksController.GetTasks user queryParams)).

Definition GetTask (bearer : option JwtSecurityToken.t) (id : Z)
    : Prog IActionResult :=
  Program.Authorized IsDevelopment jwtSettings bearer
    (fun user => TasksController.GetTask user id).

Definition CreateTask (bearer : option JwtSecurityToken.t)
    (request : CreateTaskRequest.t) : Prog IActionResult :=
  Program.Authorized IsDevelopment jwtSettings bearer
    (fun user =>
       Program.ModelState (Validation.CreateTaskRequest request)
         (TasksController.CreateTask user request)).

Definition UpdateTask (bearer : option JwtSecurityToken.t) (id : Z)
    (request : UpdateTaskRequest.t) : Prog IActionResult :=
  Program.Authorized IsDevelopment jwtSettings bearer
    (fun user =>
       Program.ModelState (Validation.UpdateTaskRequest request)
         (TasksController.UpdateTask user id request)).

Definition DeleteTask (bearer : option JwtSecurityToken.t) (id : Z)
    : Prog IActionResult :=
  Program.Authorized IsDevelopment jwtSettings bearer
    (fun user => TasksController.DeleteTask user id).

Definition ToggleCompletion (bearer : option JwtSecurityToken.t) (id : Z)
    : Prog IActionResult :=
  Program.Authorized IsDevelopment jwtSettings bearer
    (fun user => TasksController.ToggleCompletion user id).
End WithHost.
End Endpoints.

(* ===================================================================== *)
(** ** Fixtures used to exercise the model                                *)
(* ===================================================================== *)

Module Fixture.
(** A stand-in for BCrypt: the hash is the salt glued to the password. *)
#[global] Instance toyBCrypt : BCrypt :=
  {| HashPassword := fun salt pwd => salt ++ "$" ++ pwd;
     Verify := fun pwd hash =>
       match String.index 0 "$" hash with
       | Some n =>
           String.eqb pwd
             (String.substring (S n) (String.length hash - S n) hash)
       | None => false
       end |}.

Definition settings : JwtSettings.t :=
  {| JwtSettings.SecretKey := "0123456789abcdef0123456789abcdef";
     JwtSettings.Issuer := "TodoApi";
     JwtSettings.Audience := "TodoFrontend";
     JwtSettings.ExpirationMinutes := 60 |}.

Definition alice : User.t :=
  {| User.Id := 1; User.Email := "alice@example.com";
     User.PasswordHash := "s1$correct horse"; User.CreatedAt := 1000 |}.

Definition bob : User.t :=
  {| User.Id := 2; User.Email := "bob@example.com";
     User.PasswordHash := "s2$battery staple"; User.CreatedAt := 2000 |}.

Definition milk : TodoTask.t :=
  {| TodoTask.Id := 10; TodoTask.UserId := 1; TodoTask.Title := "Buy milk";
     TodoTask.Description := Some "two litres"; TodoTask.DueDate := None;
     TodoTask.Priority := 1; TodoTask.IsCompleted := false;
     TodoTask.CreatedAt := 3000; TodoTask.UpdatedAt := None |}.

Definition taxes : TodoTask.t :=
  {| TodoTask.Id := 11; TodoTask.UserId := 1; TodoTask.Title := "File taxes";
     TodoTask.Description := None; TodoTask.DueDate := Some 9000;
     TodoTask.Priority := 3; TodoTask.IsCompleted := true;
     TodoTask.CreatedAt := 4000; TodoTask.UpdatedAt := Some 4500 |}.

Definition report : TodoTask.t :=
  {| TodoTask.Id := 12; TodoTask.UserId := 2; TodoTask.Title := "Write report";
     TodoTask.Description := Some "quarterly"; TodoTask.DueDate := Some 7000;
     TodoTask.Priority := 2; TodoTask.IsCompleted := false;
     TodoTask.CreatedAt := 5000; TodoTask.UpdatedAt := None |}.

Definition world : World :=
  {| Users := [alice; bob]; Tasks := [milk; taxes; report];
     NextUserId := 3; NextTaskId := 13; Now := 6000;
     Guid := "7f9c2ba4-e88f-4d1b-9c5a-0123456789ab"; Salt := "s3";
     Trace := [] |}.

Definition carol_request : RegisterRequest.t :=
  {| RegisterRequest.Email := "carol@example.com";
     RegisterRequest.Password := "hunter2hunter2";
     RegisterRequest.ConfirmPassword := "hunter2hunter2" |}.

(** The same address as [carol_request], typed with other case and padding. *)
Definition carol_again : RegisterRequest.t :=
  {| RegisterRequest.Email := "Carol@Example.com";
     RegisterRequest.Password := "another-pass";
     RegisterRequest.ConfirmPassword := "another-pass" |}.
End Fixture.

(* ===================================================================== *)
(** ** The filter contract in the words of the specification              *)
(* ===================================================================== *)

Module Contract.
(** A supplied search term: present and not blank. *)
Definition search_term (qp : TaskQueryParams.t) : option string :=
  match TaskQueryParams.Search qp with
  | Some s => if Str.all_white s then None else Some (Str.ToLower s)
  | None => None
  end.

(** Every supplied filter holds of the task: completion flag equality,
    priority equality, due date within the inclusive bounds, search term
    (lower-cased by the framework) a substring of the title or of the
    description (lower-cased by the store). *)
Definition matches_filters (qp : TaskQueryParams.t) (t : TodoTask.t) : bool :=
  match TaskQueryParams.IsCompleted qp with
  | Some v => Bool.eqb (TodoTask.IsCompleted t) v
  | None => true
  end
  && match TaskQueryParams.Priority qp with
     | Some v => TodoTask.Priority t =? v
     | None => true
     end
  && match TaskQueryParams.DueBefore qp, TodoTask.DueDate t with
     | Some v, Some d => d <=? v
     | Some _, None => false
     | None, _ => true
     end
  && match TaskQueryParams.DueAfter qp, TodoTask.DueDate t with
     | Some v, Some d => v <=? d
     | Some _, None => false
     | None, _ => true
     end
  && match search_term qp with
     | Some term =>
         Str.Contains (Sqlite.lower (TodoTask.Title t)) term
         || match TodoTask.Description t with
            | Some d => Str.Contains (Sqlite.lower d) term
            | None => false
            end
     | None => true
     end.



(** A text made of white-space characters only (the empty text is one). *)
Definition blank (s : string) : Prop :=
  Forall (fun c => Str.IsWhiteSpace c = true) (list_ascii_of_string s).


(** [t] is [s] with its surrounding white space removed: [s] is [t] between
    two runs of white-space characters, and [t] neither begins nor ends with
    a white-space character. *)
Definition trimmed_of (s t : string) : Prop :=
  (exists pre post, s = pre ++ t ++ post /\ blank pre /\ blank post)
  /\ (forall c r, t = String c r -> Str.IsWhiteSpace c = false)
  /\ (forall r c, t = r ++ String c "" -> Str.IsWhiteSpace c = false).

(** The filtered set of a user: the user's own tasks matching the filters. *)
Definition filtered (userId : Z) (qp : TaskQueryParams.t)
    (rows : list TodoTask.t) : list TodoTask.t :=
  filter (fun t => (TodoTask.UserId t =? userId) && matches_filters qp t) rows.


(** A query with no filter supplied. *)
Definition unfiltered (sortBy sortDirection : string) : TaskQueryParams.t :=
  {| TaskQueryParams.IsCompleted := None; TaskQueryParams.Priority := None;
     TaskQueryParams.DueBefore := None; TaskQueryParams.DueAfter := None;
     TaskQueryParams.Search := None;
     TaskQueryParams.SortBy := sortBy;
     TaskQueryParams.SortDirection := sortDirection |}.

(** The primary key of the Tasks table. *)
Definition primary_key (rows : list TodoTask.t) : Prop :=
  NoDup (map TodoTask.Id rows).

(** What the store guarantees of the Tasks table at any time: the primary
    key, and generated keys never reused. *)
Definition store_ok (w : World) : Prop :=
  primary_key (Tasks w)
  /\ Forall (fun t => TodoTask.Id t < NextTaskId w) (Tasks w).

Definition principal (userId : Z) : ClaimsPrincipal :=
  {| NameIdentifier := Some userId |}.

(** The wire answer for a task that is not there. *)
Definition notFound : IActionResult := NotFound (error "Task not found").

(** All four single-task operations of [userId] on [taskId] answer
    [notFound] and leave the world as it was. *)
Definition answers_not_found {bcrypt : BCrypt} (userId taskId : Z) (w : World)
    : Prop :=
  run (TasksController.GetTask (principal userId) taskId) w
    = (Returned notFound, w)
  /\ (forall request,
        run (TasksController.UpdateTask (principal userId) taskId request) w
        = (Returned notFound, w))
  /\ run (TasksController.DeleteTask (principal userId) taskId) w
     = (Returned notFound, w)
  /\ run (TasksController.ToggleCompletion (principal userId) taskId) w
     = (Returned notFound, w).
End Contract.

(** The normalized address of a registration is already in the Users table:
    the condition of the pre-check and of the unique index alike. *)
Definition taken (request : RegisterRequest.t) (w : World) : bool :=
  existsb (fun u => String.eqb (User.Email u)
                      (Str.Trim (Str.ToLowerInvariant (RegisterRequest.Email request))))
    (Users w).

(** The row [LoginAsync] looks for. *)
Definition lookup (request : LoginRequest.t) (w : World) : option User.t :=
  find (fun u => String.eqb (User.Email u)
                   (Str.Trim (Str.ToLowerInvariant (LoginRequest.Email request))))
    (Users w).

(** The predicate of [GetUserTaskAsync]. *)
Definition owned_by (userId taskId : Z) (t : TodoTask.t) : bool :=
  (TodoTask.Id t =? taskId) && (TodoTask.UserId t =? userId).

(* ===================================================================== *)
(** ** Vocabulary for the laws of the services                            *)
(* ===================================================================== *)

Module Laws.
(** The form in which [AuthService] stores and looks up an address. *)
Definition normalize (email : string) : string :=
  Str.Trim (Str.ToLowerInvariant email).

(** The Users table holds no address twice, and only normalized ones. *)
Definition emails_ok (w : World) : Prop :=
  NoDup (map User.Email (Users w))
  /\ Forall (fun u => normalize (User.Email u) = User.Email u) (Users w).

(** An effect that, if it inserts a user, inserts a normalized address. *)
Definition adds_ok {X : Type} (e : Eff X) : Prop :=
  match e with
  | Users_Add_SaveChangesAsync u => normalize (User.Email u) = User.Email u
  | _ => True
  end.

(** A program all of whose user inserts are of that kind, whatever answers
    it receives on the way. *)
Inductive inserts_normalized {A : Type} : Prog A -> Prop :=
| in_Ret (a : A) : inserts_normalized (Ret a)
| in_Throw (e : Exception) : inserts_normalized (Throw e)
| in_Vis {X : Type} (e : Eff X) (k : X -> Prog A) :
    adds_ok e -> (forall x, inserts_normalized (k x)) ->
    inserts_normalized (Vis e k).

(** Every stored task has one of the three priorities. *)
Definition priorities_ok (w : World) : Prop :=
  Forall (fun t => 1 <= TodoTask.Priority t <= 3) (Tasks w).

(** The order [ApplySorting] is asked for: the column named by the
    lower-cased [SortBy] ("duedate", "priority", "title", anything else
    meaning the creation time), descending exactly when the lower-cased
    [SortDirection] is "desc". [precedes qp a b] says [a] may stand before
    [b]. *)
Definition precedes (qp : TaskQueryParams.t) (a b : TodoTask.t) : bool :=
  let by_column (x y : TodoTask.t) : bool :=
    let sortBy := Str.ToLower (TaskQueryParams.SortBy qp) in
    if String.eqb sortBy "duedate"
    then Linq.nullable_le (TodoTask.DueDate x) (TodoTask.DueDate y)
    else if String.eqb sortBy "priority"
    then TodoTask.Priority x <=? TodoTask.Priority y
    else if String.eqb sortBy "title"
    then String.leb (TodoTask.Title x) (TodoTask.Title y)
    else TodoTask.CreatedAt x <=? TodoTask.CreatedAt y in
  if String.eqb (Str.ToLower (TaskQueryParams.SortDirection qp)) "desc"
  then by_column b a
  else by_column a b.

Definition with_Search (qp : TaskQueryParams.t) (search : option string)
    : TaskQueryParams.t :=
  {| TaskQueryParams.IsCompleted := TaskQueryParams.IsCompleted qp;
     TaskQueryParams.Priority := TaskQueryParams.Priority qp;
     TaskQueryParams.DueBefore := TaskQueryParams.DueBefore qp;
     TaskQueryParams.DueAfter := TaskQueryParams.DueAfter qp;
     TaskQueryParams.Search := search;
     TaskQueryParams.SortBy := TaskQueryParams.SortBy qp;
     TaskQueryParams.SortDirection := TaskQueryParams.SortDirection qp |}.
End Laws.

(* ===================================================================== *)
(** ** The browser client: api.ts, AuthContext, useAuthSubmit, TaskList   *)
(* ===================================================================== *)

Module Js.
(** White space as [String.prototype.trim] sees it, on the Latin-1 range:
    TAB, LF, VT, FF, CR, space and NBSP (NEL is not among them). *)
Definition IsWhiteSpace (c : ascii) : bool :=
  let n := N_of_ascii c in
  ((9 <=? n) && (n <=? 13) || (n =? 32) || (n =? 160))%N.

Fixpoint trimStart (s : string) : string :=
  match s with
  | EmptyString => EmptyString
  | String c r => if IsWhiteSpace c then trimStart r else s
  end.

Fixpoint trimEnd (s : string) : string :=
  match s with
  | EmptyString => EmptyString
  | String c r =>
      match trimEnd r with
      | EmptyString => if IsWhiteSpace c then EmptyString else String c EmptyString
      | r' => String c r'
      end
  end.

Definition trim (s : string) : string := trimEnd (trimStart s).

(** Truthiness of a string, and of a string that may be null or undefined. *)
Definition truthy (s : string) : bool := negb (String.eqb s "").

Definition truthy_opt (s : option string) : bool :=
  match s with
  | Some v => truthy v
  | None => false
  end.
End Js.

Module Frontend.

(** What the interceptors and [getErrorMessage] read of a failed call: an
    axios error with its optional response (status, and the [message] of
    its body when the body has one) and its own message, or any other
    thrown value. *)
Record AxiosResponse := mkResponse {
  status : Z;
  data_message : option string
}.

Inductive Thrown :=
| AxiosError (response : option AxiosResponse) (message : string)
| OtherError.

Definition getErrorMessage (error : Thrown) : string :=
  match error with
  | AxiosError response message =>
      match (match response with
             | Some r => data_message r
             | None => None
             end) with
      | Some m =>
          if Js.truthy m then m
          else if Js.truthy message then message
          else "An unexpected error occurred. Please try again."
      | None =>
          if Js.truthy message then message
          else "An unexpected error occurred. Please try again."
      end
  | OtherError => "An unexpected error occurred. Please try again."
  end.

(** The body of a successful authentication, as the client reads it. *)
Record AuthData := mkAuthData {
  token : string;
  user : UserInfo.t
}.

(** How a call through [apiClient] ends. *)
Inductive Settled :=
| Fulfilled (data : option AuthData)
| Rejected (error : Thrown).

(** [localStorage] under the two keys of [STORAGE_KEYS] (the user entry is
    the JSON text of the user, kept here as the user), the path of the page
    shown, and the last value assigned to [window.location.href]. *)
Record Browser := mkBrowser {
  stored_token : option string;
  stored_user : option UserInfo.t;
  pathname : string;
  href : option string
}.

(** The response interceptor's error branch. *)
Definition onRejected (error : Thrown) (b : Browser) : Browser :=
  match error with
  | AxiosError (Some r) _ =>
      if status r =? 401 then
        {| stored_token := None; stored_user := None; pathname := pathname b;
           href :=
             if negb (Str.Contains (pathname b) "/login")
                && negb (Str.Contains (pathname b) "/register")
             then Some "/login" else href b |}
      else b
  | _ => b
  end.

Record ApiResult := mkApiResult {
  data : option AuthData;
  error : option string
}.

(** [authApi.login] and [authApi.register]: the call, the interceptor on a
    rejection, and the catch that turns it into a result. *)
Definition authApi_call (settled : Settled) (b : Browser) : ApiResult * Browser :=
  match settled with
  | Fulfilled d => ({| data := d; error := None |}, b)
  | Rejected e =>
      ({| data := None; error := Some (getErrorMessage e) |}, onRejected e b)
  end.

Record AuthState := mkAuthState {
  state_user : option UserInfo.t;
  state_token : option string;
  isAuthenticated : bool;
  auth_isLoading : bool
}.

Record Hook := mkHook {
  hook_error : option string;
  isLoading : bool;
  navigated : option string
}.

(** The page: browser, the state of [AuthProvider], the state of the form
    hook. *)
Record Page := mkPage {
  browser : Browser;
  auth : AuthState;
  hook : Hook
}.

Definition handleAuthSuccess (response : AuthData) (p : Page) : Page :=
  {| browser :=
       {| stored_token := Some (token response);
          stored_user := Some (user response);
          pathname := pathname (browser p);
          href := href (browser p) |};
     auth :=
       {| state_user := Some (user response);
          state_token := Some (token response);
          isAuthenticated := true;
          auth_isLoading := false |};
     hook := hook p |}.

(** What a form sends: the body of a login or of a registration. *)
Inductive Request :=
| LoginData (d : LoginRequest.t)
| RegisterData (d : RegisterRequest.t).

(** [a || fallback] on a string that may be null. *)
Definition or_else (a : option string) (fallback : string) : string :=
  match a with
  | Some m => if Js.truthy m then m else fallback
  | None => fallback
  end.

(** [AuthContext.login] and [AuthContext.register], which differ in the
    fallback message only; [post] is what the server makes of the request,
    and the result is the promise's value. *)
Definition authenticate (fallback : string) (post : Request -> Settled)
    (request : Request) (p : Page) : option string * Page :=
  let (result, b) := authApi_call (post request) (browser p) in
  let p := {| browser := b; auth := auth p; hook := hook p |} in
  match data result with
  | None => (Some (or_else (error result) fallback), p)
  | Some d =>
      if Js.truthy_opt (error result)
      then (Some (or_else (error result) fallback), p)
      else (None, handleAuthSuccess d p)
  end.

Definition login := authenticate "Login failed".
Definition register := authenticate "Registration failed".

Record AuthFormData := mkForm {
  email : string;
  password : string;
  confirmPassword : option string
}.

Definition set_hook (p : Page) (h : Hook) : Page :=
  {| browser := browser p; auth := auth p; hook := h |}.

(** [useAuthSubmit.handleSubmit] around an auth method that either resolves
    to an optional message or throws ([None] of the outer option). *)
Definition handleSubmit (isRegister : bool)
    (authMethod : Request -> Page -> option (option string) * Page)
    (redirectPath : string) (formData : AuthFormData) (p : Page) : Page :=
  let p := set_hook p {| hook_error := None; isLoading := true;
                         navigated := navigated (hook p) |} in
  let request :=
    if isRegister
    then RegisterData
           {| RegisterRequest.Email := email formData;
              RegisterRequest.Password := password formData;
              RegisterRequest.ConfirmPassword := or_else (confirmPassword formData) "" |}
    else LoginData
           {| LoginRequest.Email := email formData;
              LoginRequest.Password := password formData |} in
  let (outcome, p) := authMethod request p in
  let p :=
    match outcome with
    | Some errorMessage =>
        if Js.truthy_opt errorMessage
        then set_hook p {| hook_error := errorMessage;
                           isLoading := isLoading (hook p);
                           navigated := navigated (hook p) |}
        else set_hook p {| hook_error := hook_error (hook p);
                           isLoading := isLoading (hook p);
                           navigated := Some redirectPath |}
    | None =>
        set_hook p {| hook_error := Some "An unexpected error occurred. Please try again.";
                      isLoading := isLoading (hook p);
                      navigated := navigated (hook p) |}
    end in
  set_hook p {| hook_error := hook_error (hook p); isLoading := false;
                navigated := navigated (hook p) |}.

(** An auth method of the context as the hook calls it: it never throws. *)
Definition as_authMethod
    (method : Request -> Page -> option string * Page)
    (request : Request) (p : Page) : option (option string) * Page :=
  let (message, p) := method request p in (Some message, p).

(** The filter controls of [TaskList]. *)
Inductive FilterStatus := all | pending | completed.
Inductive FilterPriority := any | p1 | p2 | p3.
Inductive SortByOption := createdAt | dueDate | priority | title.

Definition sortBy_text (s : SortByOption) : string :=
  match s with
  | createdAt => "createdAt"
  | dueDate => "dueDate"
  | priority => "priority"
  | title => "title"
  end.

(** The query [fetchTasks] sends, as the controller binds it. *)
Definition fetchTasks_params (searchQuery : string) (filterStatus : FilterStatus)
    (filterPriority : FilterPriority) (sortBy : SortByOption) : TaskQueryParams.t :=
  {| TaskQueryParams.IsCompleted :=
       match filterStatus with
       | all => None
       | completed => Some true
       | pending => Some false
       end;
     TaskQueryParams.Priority :=
       match filterPriority with
       | any => None
       | p1 => Some 1
       | p2 => Some 2
       | p3 => Some 3
       end;
     TaskQueryParams.DueBefore := None;
     TaskQueryParams.DueAfter := None;
     TaskQueryParams.Search :=
       if Js.truthy (Js.trim searchQuery) then Some (Js.trim searchQuery) else None;
     TaskQueryParams.SortBy := sortBy_text sortBy;
     TaskQueryParams.SortDirection := "desc" |}.
End Frontend.

(* ===================================================================== *)
(** ** Sanity checks of the model on the fixtures                         *)
(* ===================================================================== *)

Example Trim_pads : Str.Trim "  Buy milk	 " = "Buy milk".
Proof. reflexivity. Qed.

Example Trim_blank : Str.Trim "   " = "".
Proof. reflexivity. Qed.

Example ToLower_mixed : Str.ToLowerInvariant "Carol@Example.COM" = "carol@example.com".
Proof. reflexivity. Qed.

Example Contains_inner : Str.Contains "buy milk" "y m" = true.
Proof. reflexivity. Qed.

Example login_alice_ok :
  exists r, fst (run (AuthService.LoginAsync Fixture.settings
      {| LoginRequest.Email := " Alice@Example.com";
         LoginRequest.Password := "correct horse" |}) Fixture.world)
    = Returned (Some r)
    /\ UserInfo.Id (AuthResponse.User r) = 1.
Proof. eexists. split; reflexivity. Qed.

Example register_carol_created :
  StatusCode
    match fst (run (Endpoints.Register false Fixture.settings Fixture.carol_request)
                 Fixture.world) with
    | Returned r => r
    | Thrown _ => NoContent
    end = 201.
Proof. reflexivity. Qed.

Example register_alice_conflict :
  fst (run (Endpoints.Register false Fixture.settings
              {| RegisterRequest.Email := "ALICE@example.com ";
                 RegisterRequest.Password := "hunter2hunter2";
                 RegisterRequest.ConfirmPassword := "hunter2hunter2" |})
         Fixture.world)
  = Returned (Conflict (error "An account with this email already exists")).
Proof. reflexivity. Qed.

(* ===================================================================== *)
(** ** Running programs                                                   *)
(* ===================================================================== *)

Section Running.
Context {bcrypt : BCrypt}.

Lemma run_bind {A B : Type} (p : Prog A) (f : A -> Prog B) (w : World) :
  run (bind p f) w =
  match run p w with
  | (Returned a, w') => run (f a) w'
  | (Thrown e, w') => (Thrown e, w')
  end.
Proof.
  revert w. induction p as [a | e | X e k IH]; intros w; simpl.
  - reflexivity.
  - reflexivity.
  - destruct (handle e w) as [x w']. apply IH.
Qed.

Lemma run_try_catch {A : Type} (p : Prog A) (h : Exception -> Prog A) (w : World) :
  run (try_catch p h) w =
  match run p w with
  | (Returned a, w') => (Returned a, w')
  | (Thrown e, w') => run (h e) w'
  end.
Proof.
  revert w. induction p as [a | e | X e k IH]; intros w; simpl.
  - reflexivity.
  - reflexivity.
  - destruct (handle e w) as [x w']. apply IH.
Qed.
End Running.

(* ===================================================================== *)
(** ** Rows, keys and lookups                                             *)
(* ===================================================================== *)

Lemma has_row_In (t : TodoTask.t) (rows : list TodoTask.t) :
  In t rows -> has_row (TodoTask.Id t) rows = true.
Proof.
  intros H. unfold has_row. apply existsb_exists.
  exists t. split; [exact H | apply Z.eqb_refl].
Qed.

Lemma key_determines_row (rows : list TodoTask.t) (x y : TodoTask.t) :
  Contract.primary_key rows -> In x rows -> In y rows ->
  TodoTask.Id x = TodoTask.Id y -> x = y.
Proof.
  unfold Contract.primary_key.
  induction rows as [| a rows IH]; simpl; intros Hk Hx Hy Hid.
  - contradiction.
  - inversion Hk as [| ? ? Hnotin Hk']; subst.
    destruct Hx as [-> | Hx], Hy as [-> | Hy].
    + reflexivity.
    + exfalso. apply Hnotin. rewrite Hid. now apply in_map.
    + exfalso. apply Hnotin. rewrite <- Hid. now apply in_map.
    + now apply IH.
Qed.

Lemma find_missing (i userId : Z) (rows : list TodoTask.t) :
  has_row i rows = false ->
  find (fun t => (TodoTask.Id t =? i) && (TodoTask.UserId t =? userId)) rows = None.
Proof.
  induction rows as [| a rows IH]; simpl; intros H.
  - reflexivity.
  - apply orb_false_iff in H. destruct H as [Ha Hrest].
    rewrite Ha. simpl. now apply IH.
Qed.

Lemma find_owned (t : TodoTask.t) (rows : list TodoTask.t) :
  Contract.primary_key rows -> In t rows ->
  find (fun r => (TodoTask.Id r =? TodoTask.Id t)
                 && (TodoTask.UserId r =? TodoTask.UserId t)) rows = Some t.
Proof.
  unfold Contract.primary_key.
  induction rows as [| a rows IH]; simpl; intros Hk Hin.
  - contradiction.
  - inversion Hk as [| ? ? Hnotin Hk']; subst.
    destruct Hin as [-> | Hin].
    + now rewrite !Z.eqb_refl.
    + destruct (TodoTask.Id a =? TodoTask.Id t) eqn:E.
      * exfalso. apply Hnotin. apply Z.eqb_eq in E. rewrite E. now apply in_map.
      * simpl. now apply IH.
Qed.

Lemma find_foreign (t : TodoTask.t) (other : Z) (rows : list TodoTask.t) :
  Contract.primary_key rows -> In t rows -> other <> TodoTask.UserId t ->
  find (fun r => (TodoTask.Id r =? TodoTask.Id t)
                 && (TodoTask.UserId r =? other)) rows = None.
Proof.
  intros Hk Hin Hne.
  destruct (find _ rows) as [r |] eqn:F; [exfalso | reflexivity].
  apply find_some in F. destruct F as [Hr Hp].
  apply andb_true_iff in Hp. destruct Hp as [Hid Hu].
  apply Z.eqb_eq in Hid. apply Z.eqb_eq in Hu.
  assert (r = t) by (eapply key_determines_row; eauto).
  subst r. congruence.
Qed.

(* ===================================================================== *)
(** ** The primary key is an invariant of every request                   *)
(* ===================================================================== *)

Lemma replace_row_keys (t' : TodoTask.t) (rows : list TodoTask.t) :
  map TodoTask.Id (replace_row t' rows) = map TodoTask.Id rows.
Proof.
  unfold replace_row. induction rows as [| a rows IH]; simpl.
  - reflexivity.
  - rewrite IH. destruct (TodoTask.Id a =? TodoTask.Id t') eqn:E.
    + apply Z.eqb_eq in E. now rewrite E.
    + reflexivity.
Qed.

Lemma keys_after_filter (f : TodoTask.t -> bool) (rows : list TodoTask.t) :
  NoDup (map TodoTask.Id rows) -> NoDup (map TodoTask.Id (filter f rows)).
Proof.
  induction rows as [| a rows IH]; simpl; intros H.
  - constructor.
  - inversion H as [| ? ? Hnotin Hrest]; subst.
    destruct (f a); simpl; [constructor |]; auto.
    intros Hin. apply Hnotin.
    apply in_map_iff in Hin. destruct Hin as [x [Hx Hin]].
    apply filter_In in Hin. apply in_map_iff. exists x. tauto.
Qed.

Lemma keys_after_append (t : TodoTask.t) (rows : list TodoTask.t) :
  NoDup (map TodoTask.Id rows) ->
  Forall (fun r => TodoTask.Id r < TodoTask.Id t) rows ->
  NoDup (map TodoTask.Id (rows ++ [t])).
Proof.
  induction rows as [| a rows IH]; simpl; intros Hk Hlt.
  - repeat constructor. auto.
  - inversion Hk as [| ? ? Hnotin Hrest]; subst.
    inversion Hlt as [| ? ? Ha Hlt']; subst.
    constructor; [| now apply IH].
    rewrite map_app, in_app_iff. simpl. intros [Hin | [Heq | []]].
    + contradiction.
    + lia.
Qed.

Section Invariant.
Context {bcrypt : BCrypt}.

Lemma handle_keeps_store_ok {X : Type} (e : Eff X) (w : World) :
  Contract.store_ok w -> Contract.store_ok (snd (handle e w)).
Proof.
  unfold Contract.store_ok, Contract.primary_key. intros [Hk Hlt].
  destruct e; simpl; auto.
  - (* a user is added *)
    destruct (existsb _ (Users w)); simpl; auto.
  - (* a task is added under a fresh key *)
    destruct (existsb _ (Users w)); simpl; auto.
    split.
    + now apply keys_after_append.
    + apply Forall_app. split.
      * eapply Forall_impl; [| exact Hlt]. simpl. intros; lia.
      * repeat constructor. simpl. lia.
  - (* a task is updated in place *)
    destruct (has_row _ (Tasks w)); simpl; auto.
    split.
    + now rewrite replace_row_keys.
    + rewrite Forall_forall in *. intros r Hr.
      unfold replace_row in Hr. apply in_map_iff in Hr.
      destruct Hr as [x [Hx Hin]].
      destruct (TodoTask.Id x =? TodoTask.Id t) eqn:E; subst r.
      * apply Z.eqb_eq in E. rewrite <- E. now apply Hlt.
      * now apply Hlt.
  - (* a task is removed *)
    destruct (has_row _ (Tasks w)); simpl; auto.
    split.
    + now apply keys_after_filter.
    + rewrite Forall_forall in *. intros r Hr.
      apply filter_In in Hr. apply Hlt. tauto.
Qed.

Lemma run_keeps_store_ok {A : Type} (p : Prog A) (w : World) :
  Contract.store_ok w -> Contract.store_ok (snd (run p w)).
Proof.
  revert w. induction p as [a | e | X e k IH]; intros w H; simpl; auto.
  pose proof (handle_keeps_store_ok e w H) as H'.
  destruct (handle e w) as [x w']. now apply IH.
Qed.

Lemma run_pair_keeps_store_ok {A B : Type} (sched : list bool)
    (p : Prog A) (q : Prog B) (w : World) :
  Contract.store_ok w -> Contract.store_ok (snd (run_pair sched p q w)).
Proof.
  revert p q w. induction sched as [| first sched IH]; intros p q w H; simpl.
  - pose proof (run_keeps_store_ok p w H) as H1.
    destruct (run p w) as [a w1].
    pose proof (run_keeps_store_ok q w1 H1) as H2.
    destruct (run q w1) as [b w2]. exact H2.
  - destruct first.
    + destruct p as [a | e | X e k]; simpl; try now apply IH.
      pose proof (handle_keeps_store_ok e w H) as H'.
      destruct (handle e w) as [x w']. now apply IH.
    + destruct q as [b | e | X e k]; simpl; try now apply IH.
      pose proof (handle_keeps_store_ok e w H) as H'.
      destruct (handle e w) as [x w']. now apply IH.
Qed.
End Invariant.

(* ===================================================================== *)
(** ** Filtering and sorting                                              *)
(* ===================================================================== *)

Lemma filter_filter {A : Type} (p q : A -> bool) (l : list A) :
  filter q (filter p l) = filter (fun x => p x && q x) l.
Proof.
  induction l as [| a l IH]; simpl.
  - reflexivity.
  - destruct (p a); simpl; [destruct (q a) |]; now rewrite IH.
Qed.

Lemma insert_by_perm le x l : Permutation (Linq.insert_by le x l) (x :: l).
Proof.
  induction l as [| y l IH]; simpl.
  - apply Permutation_refl.
  - destruct (le x y).
    + apply Permutation_refl.
    + eapply perm_trans; [apply perm_skip, IH | apply perm_swap].
Qed.

Lemma sort_by_perm le l : Permutation (Linq.sort_by le l) l.
Proof.
  induction l as [| x l IH]; simpl.
  - apply perm_nil.
  - eapply perm_trans; [apply insert_by_perm | now apply perm_skip].
Qed.

Lemma ApplySorting_perm query qp rows :
  Permutation (TaskService.ApplySorting query qp rows) (query rows).
Proof.
  unfold TaskService.ApplySorting, Linq.OrderBy, Linq.OrderByDescending.
  repeat match goal with
         | |- context [if ?b then _ else _] => destruct b
         end; apply sort_by_perm.
Qed.

Lemma ApplyFilters_matches query qp rows :
  TaskService.ApplyFilters query qp rows
  = filter (Contract.matches_filters qp) (query rows).
Proof.
  unfold TaskService.ApplyFilters, Contract.matches_filters, Contract.search_term,
    Str.IsNullOrWhiteSpace, Linq.Where.
  destruct qp as [c p b a s sb sd]; simpl.
  assert (forall (f g : TodoTask.t -> bool) l,
             (forall x, f x = g x) -> filter f l = filter g l) as ext.
  { intros f g l H. induction l as [| y l IH]; simpl; [easy |].
    rewrite H, IH. reflexivity. }
  assert (forall (g : TodoTask.t -> bool) l,
             (forall x, g x = true) -> l = filter g l) as all.
  { intros g l H. induction l as [| y l IH]; simpl; [easy |].
    rewrite H, <- IH. reflexivity. }
  destruct c, p, b, a, s as [s |]; try destruct (Str.all_white s); simpl;
    rewrite ?filter_filter; first [apply ext | apply all]; intros x;
    destruct (TodoTask.DueDate x); simpl;
    rewrite ?Z.geb_leb, ?andb_true_r, ?andb_false_r, ?andb_assoc; reflexivity.
Qed.

(* ===================================================================== *)
(** ** TaskService step by step                                           *)
(* ===================================================================== *)

Lemma apply_request_keeps_identity task request :
  TodoTask.Id (TaskService.apply_request task request) = TodoTask.Id task
  /\ TodoTask.UserId (TaskService.apply_request task request) = TodoTask.UserId task
  /\ TodoTask.CreatedAt (TaskService.apply_request task request) = TodoTask.CreatedAt task.
Proof.
  unfold TaskService.apply_request.
  destruct request as [[?|] [?|] [?|] [?|] [?|]]; simpl; auto.
Qed.

Section TaskRuns.
Context {bcrypt : BCrypt}.

Lemma GetTasksAsync_run userId qp w :
  run (TaskService.GetTasksAsync userId qp) w =
  (Returned
     {| TaskListResponse.Tasks :=
          map TaskService.MapToResponse
            (TaskService.ApplySorting
               (fun rows => Contract.filtered userId qp rows) qp (Tasks w));
        TaskListResponse.TotalCount :=
          Z.of_nat (List.length (Contract.filtered userId qp (Tasks w)));
        TaskListResponse.CompletedCount :=
          Z.of_nat (List.length
            (filter TodoTask.IsCompleted (Contract.filtered userId qp (Tasks w))));
        TaskListResponse.PendingCount :=
          Z.of_nat (List.length (Contract.filtered userId qp (Tasks w)))
          - Z.of_nat (List.length
              (filter TodoTask.IsCompleted (Contract.filtered userId qp (Tasks w))))
     |}, w).
Proof.
  assert (forall rows,
    TaskService.ApplyFilters
      (Linq.Where (fun t => TodoTask.UserId t =? userId) (fun r => r)) qp rows
    = Contract.filtered userId qp rows) as E.
  { intros rows. rewrite ApplyFilters_matches. unfold Linq.Where, Contract.filtered.
    apply filter_filter. }
  unfold TaskService.GetTasksAsync. simpl.
  set (q := TaskService.ApplyFilters _ qp) in *.
  assert (TaskService.ApplySorting q qp (Tasks w)
          = TaskService.ApplySorting
              (fun rows => Contract.filtered userId qp rows) qp (Tasks w)) as S.
  { unfold TaskService.ApplySorting, Linq.OrderBy, Linq.OrderByDescending.
    repeat match goal with
           | |- context [if ?b then _ else _] => destruct b
           end; now rewrite E. }
  rewrite S. unfold Linq.Where. rewrite !E. reflexivity.
Qed.

Lemma absent_task_not_found userId taskId w :
  find (owned_by userId taskId) (Tasks w) = None ->
  Contract.answers_not_found userId taskId w.
Proof.
  intros H. unfold owned_by in H.
  unfold Contract.answers_not_found, Contract.notFound,
    TasksController.GetTask, TasksController.UpdateTask,
    TasksController.DeleteTask, TasksController.ToggleCompletion,
    TaskService.GetTaskByIdAsync, TaskService.UpdateTaskAsync,
    TaskService.DeleteTaskAsync, TaskService.ToggleCompletionAsync,
    TaskService.GetUserTaskAsync.
  simpl. rewrite H. simpl. repeat split; reflexivity.
Qed.

Lemma UpdateTaskAsync_run userId taskId request w task :
  find (owned_by userId taskId) (Tasks w) = Some task ->
  let task' :=
    TaskService.set_UpdatedAt (TaskService.apply_request task request)
      (Some (Now w)) in
  run (TaskService.UpdateTaskAsync userId taskId request) w =
  (Returned (Some (TaskService.MapToResponse task')),
   emit (with_Tasks w (replace_row task' (Tasks w)) (NextTaskId w))
     (Logged Information "Task updated: {TaskId} for user {UserId}")).
Proof.
  intros F task'. unfold owned_by in F.
  unfold TaskService.UpdateTaskAsync, TaskService.GetUserTaskAsync.
  simpl. rewrite F. simpl.
  assert (has_row (TodoTask.Id (TaskService.apply_request task request)) (Tasks w)
          = true) as Hrow.
  { replace (TodoTask.Id (TaskService.apply_request task request))
      with (TodoTask.Id task)
      by (symmetry; apply apply_request_keeps_identity).
    apply has_row_In. apply find_some in F. tauto. }
  rewrite Hrow. reflexivity.
Qed.

Lemma ToggleCompletionAsync_run userId taskId w task :
  find (owned_by userId taskId) (Tasks w) = Some task ->
  let task' :=
    TaskService.set_UpdatedAt
      (TaskService.set_IsCompleted task (negb (TodoTask.IsCompleted task)))
      (Some (Now w)) in
  run (TaskService.ToggleCompletionAsync userId taskId) w =
  (Returned (Some (TaskService.MapToResponse task')),
   emit (with_Tasks w (replace_row task' (Tasks w)) (NextTaskId w))
     (Logged Information
        "Task {TaskId} completion toggled to {IsCompleted} for user {UserId}")).
Proof.
  intros F task'. unfold owned_by in F.
  unfold TaskService.ToggleCompletionAsync, TaskService.GetUserTaskAsync.
  simpl. rewrite F. simpl.
  assert (has_row (TodoTask.Id task) (Tasks w) = true) as Hrow.
  { apply has_row_In. apply find_some in F. tauto. }
  rewrite Hrow. reflexivity.
Qed.

Lemma DeleteTaskAsync_run userId taskId w task :
  find (owned_by userId taskId) (Tasks w) = Some task ->
  run (TaskService.DeleteTaskAsync userId taskId) w =
  (Returned true,
   emit (with_Tasks w (delete_row task (Tasks w)) (NextTaskId w))
     (Logged Information "Task deleted: {TaskId} for user {UserId}")).
Proof.
  intros F. unfold owned_by in F.
  unfold TaskService.DeleteTaskAsync, TaskService.GetUserTaskAsync.
  simpl. rewrite F. simpl.
  assert (has_row (TodoTask.Id task) (Tasks w) = true) as Hrow.
  { apply has_row_In. apply find_some in F. tauto. }
  rewrite Hrow. reflexivity.
Qed.

Lemma GetTaskByIdAsync_run userId taskId w :
  run (TaskService.GetTaskByIdAsync userId taskId) w =
  (Returned (option_map TaskService.MapToResponse
               (find (owned_by userId taskId) (Tasks w))), w).
Proof. reflexivity. Qed.
End TaskRuns.

(* ===================================================================== *)
(** ** Tenant isolation                                                   *)
(* ===================================================================== *)

Section Isolation.
Context {bcrypt : BCrypt}.

Lemma GetCurrentUserId_principal (userId : Z) :
  TasksController.GetCurrentUserId (Contract.principal userId) = Ret userId.
Proof. reflexivity. Qed.

Lemma listed_rows_are_owned userId qp w r :
  In r (TaskService.ApplySorting
          (fun rows => Contract.filtered userId qp rows) qp (Tasks w)) ->
  In r (Tasks w) /\ TodoTask.UserId r = userId.
Proof.
  intros H.
  apply (Permutation_in _ (ApplySorting_perm _ qp (Tasks w))) in H.
  unfold Contract.filtered in H. apply filter_In in H.
  destruct H as [Hin Hp]. apply andb_true_iff in Hp.
  split; [exact Hin | apply Z.eqb_eq; tauto].
Qed.

Lemma own_calls_succeed (w : World) (t : TodoTask.t) :
  Contract.primary_key (Tasks w) -> In t (Tasks w) ->
  let me := Contract.principal (TodoTask.UserId t) in
  fst (run (TasksController.GetTask me (TodoTask.Id t)) w)
    = Returned (Ok (TaskBody (TaskService.MapToResponse t)))
  /\ (forall request, exists r,
        fst (run (TasksController.UpdateTask me (TodoTask.Id t) request) w)
          = Returned (Ok (TaskBody r))
        /\ TaskResponse.Id r = TodoTask.Id t)
  /\ fst (run (TasksController.DeleteTask me (TodoTask.Id t)) w)
     = Returned NoContent
  /\ (exists r,
        fst (run (TasksController.ToggleCompletion me (TodoTask.Id t)) w)
          = Returned (Ok (TaskBody r))
        /\ TaskResponse.Id r = TodoTask.Id t)
  /\ (forall sortBy sortDirection, exists resp,
        fst (run (TasksController.GetTasks me
                    (Contract.unfiltered sortBy sortDirection)) w)
          = Returned (Ok (TaskListBody resp))
        /\ In (TaskService.MapToResponse t) (TaskListResponse.Tasks resp)).
Proof.
  intros Hk Hin me. subst me.
  pose proof (find_owned t (Tasks w) Hk Hin) as F.
  change (find (owned_by (TodoTask.UserId t) (TodoTask.Id t)) (Tasks w) = Some t) in F.
  repeat split.
  - unfold TasksController.GetTask. simpl.
    unfold owned_by in F. rewrite F. reflexivity.
  - intros request. eexists.
    unfold TasksController.UpdateTask. rewrite GetCurrentUserId_principal.
    cbn [bind]. rewrite run_bind, (UpdateTaskAsync_run _ _ request w t F).
    simpl. split; [reflexivity |]. apply apply_request_keeps_identity.
  - unfold TasksController.DeleteTask. rewrite GetCurrentUserId_principal.
    cbn [bind]. rewrite run_bind, (DeleteTaskAsync_run _ _ w t F). reflexivity.
  - eexists.
    unfold TasksController.ToggleCompletion. rewrite GetCurrentUserId_principal.
    cbn [bind]. rewrite run_bind, (ToggleCompletionAsync_run _ _ w t F).
    simpl. split; reflexivity.
  - intros sortBy sortDirection. eexists.
    unfold TasksController.GetTasks. rewrite GetCurrentUserId_principal.
    cbn [bind]. rewrite run_bind, GetTasksAsync_run. simpl.
    split; [reflexivity |]. apply in_map.
    apply (Permutation_in _ (Permutation_sym (ApplySorting_perm _ _ (Tasks w)))).
    unfold Contract.filtered. apply filter_In. split; [exact Hin |].
    rewrite Z.eqb_refl. reflexivity.
Qed.

(** C1. Tenant isolation.  Let [t] be a task stored for its owner and [B]
    any other user.  (1) No list call by [B], under any filters and
    sorting, returns a task with the id of [t].  (2) [B]'s get, update,
    delete and toggle on the id of [t] all answer 404 "Task not found" and
    change nothing, (3) which is exactly the answer for an id that no task
    has.  (4) The owner's own get, update, delete, toggle and unfiltered
    list on [t] succeed. *)
Theorem tenant_isolation (w : World) (t : TodoTask.t) (B : Z) :
  Contract.primary_key (Tasks w) ->
  In t (Tasks w) ->
  B <> TodoTask.UserId t ->
  let A := Contract.principal (TodoTask.UserId t) in
  (forall qp, exists resp,
      run (TasksController.GetTasks (Contract.principal B) qp) w
        = (Returned (Ok (TaskListBody resp)), w)
      /\ forall r, In r (TaskListResponse.Tasks resp) ->
                   TaskResponse.Id r <> TodoTask.Id t)
  /\ Contract.answers_not_found B (TodoTask.Id t) w
  /\ (forall missing, has_row missing (Tasks w) = false ->
        Contract.answers_not_found B missing w)
  /\ fst (run (TasksController.GetTask A (TodoTask.Id t)) w)
     = Returned (Ok (TaskBody (TaskService.MapToResponse t)))
  /\ (forall request, exists r,
        fst (run (TasksController.UpdateTask A (TodoTask.Id t) request) w)
          = Returned (Ok (TaskBody r))
        /\ TaskResponse.Id r = TodoTask.Id t)
  /\ fst (run (TasksController.DeleteTask A (TodoTask.Id t)) w)
     = Returned NoContent
  /\ (exists r,
        fst (run (TasksController.ToggleCompletion A (TodoTask.Id t)) w)
          = Returned (Ok (TaskBody r))
        /\ TaskResponse.Id r = TodoTask.Id t)
  /\ (forall sortBy sortDirection, exists resp,
        fst (run (TasksController.GetTasks A
                    (Contract.unfiltered sortBy sortDirection)) w)
          = Returned (Ok (TaskListBody resp))
        /\ In (TaskService.MapToResponse t) (TaskListResponse.Tasks resp)).
Proof.
  intros Hk Hin Hne A.
  split; [| split; [| split]].
  - intros qp. eexists.
    unfold TasksController.GetTasks. rewrite GetCurrentUserId_principal.
    cbn [bind]. rewrite run_bind, GetTasksAsync_run. simpl.
    split; [reflexivity |].
    intros r Hr Hid. apply in_map_iff in Hr. destruct Hr as [x [<- Hx]].
    apply listed_rows_are_owned in Hx. destruct Hx as [Hx Hu].
    simpl in Hid.
    assert (x = t) by (eapply key_determines_row; eauto).
    subst x. congruence.
  - apply absent_task_not_found. now apply find_foreign.
  - intros missing Hm. apply absent_task_not_found. now apply find_missing.
  - now apply own_calls_succeed.
Qed.

End Isolation.

Lemma tenant_isolation_witness :
  Contract.answers_not_found (bcrypt := Fixture.toyBCrypt) 2
    (TodoTask.Id Fixture.milk) Fixture.world.
Proof.
  refine (proj1 (proj2 (tenant_isolation (bcrypt := Fixture.toyBCrypt)
                          Fixture.world Fixture.milk 2 _ _ _))).
  - unfold Contract.primary_key. simpl.
    repeat constructor; simpl; intuition discriminate.
  - simpl. auto.
  - simpl. discriminate.
Defined.

(* ===================================================================== *)
(** ** Counts of a listing                                                *)
(* ===================================================================== *)









Lemma all_white_blank (s : string) :
  Str.all_white s = true <-> Contract.blank s.
Proof.
  unfold Contract.blank. induction s as [| c r IH]; simpl.
  - split; [constructor | reflexivity].
  - rewrite andb_true_iff, IH. split.
    + intros [Hc Hr]. now constructor.
    + intros H. inversion H. now split.
Qed.




Example list_counts_alice :
  fst (run (TaskService.GetTasksAsync 1 (Contract.unfiltered "dueDate" "asc"))
         Fixture.world)
  = Returned
      {| TaskListResponse.Tasks :=
           [TaskService.MapToResponse Fixture.milk;
            TaskService.MapToResponse Fixture.taxes];
         TaskListResponse.TotalCount := 2;
         TaskListResponse.CompletedCount := 1;
         TaskListResponse.PendingCount := 1 |}.
Proof. reflexivity. Qed.

(* ===================================================================== *)
(** ** Partial update                                                     *)
(* ===================================================================== *)

Lemma replace_row_hit (t t' : TodoTask.t) (rows : list TodoTask.t) :
  In t rows -> TodoTask.Id t = TodoTask.Id t' -> In t' (replace_row t' rows).
Proof.
  intros Hin Hid. unfold replace_row. apply in_map_iff.
  exists t. split; [| exact Hin]. now rewrite Hid, Z.eqb_refl.
Qed.

Lemma replace_row_miss (r t' : TodoTask.t) (rows : list TodoTask.t) :
  In r rows -> TodoTask.Id r <> TodoTask.Id t' -> In r (replace_row t' rows).
Proof.
  intros Hin Hid. unfold replace_row. apply in_map_iff.
  exists r. split; [| exact Hin].
  destruct (TodoTask.Id r =? TodoTask.Id t') eqn:E; [| reflexivity].
  apply Z.eqb_eq in E. contradiction.
Qed.

Lemma apply_request_fields task request :
  let task' := TaskService.apply_request task request in
  TodoTask.Title task'
    = match UpdateTaskRequest.Title request with
      | Some v => Str.Trim v
      | None => TodoTask.Title task
      end
  /\ TodoTask.Description task'
     = match UpdateTaskRequest.Description request with
       | Some v => Some (Str.Trim v)
       | None => TodoTask.Description task
       end
  /\ TodoTask.DueDate task'
     = match UpdateTaskRequest.DueDate request with
       | Some v => Some v
       | None => TodoTask.DueDate task
       end
  /\ TodoTask.Priority task'
     = match UpdateTaskRequest.Priority request with
       | Some v => v
       | None => TodoTask.Priority task
       end
  /\ TodoTask.IsCompleted task'
     = match UpdateTaskRequest.IsCompleted request with
       | Some v => v
       | None => TodoTask.IsCompleted task
       end
  /\ TodoTask.UpdatedAt task' = TodoTask.UpdatedAt task.
Proof.
  unfold TaskService.apply_request.
  destruct request as [[?|] [?|] [?|] [?|] [?|]]; simpl; auto 10.
Qed.

Section PartialUpdate.
Context {bcrypt : BCrypt}.

(** C9. An update of a stored task by its owner is accepted, and the
    task as stored afterwards differs from the task before only where the
    request carries a value: title and description take the trimmed
    request text, due date, priority and completion flag the request
    value, each only if present; an omitted field keeps its stored value.
    Id, owner and creation time never change, [UpdatedAt] is the time of
    the update, and every other row and the Users table are untouched. *)
Theorem update_overwrites_only_present_fields
    (w : World) (t : TodoTask.t) (request : UpdateTaskRequest.t) :
  Contract.primary_key (Tasks w) ->
  In t (Tasks w) ->
  exists t',
    run (TaskService.UpdateTaskAsync (TodoTask.UserId t) (TodoTask.Id t) request) w
      = (Returned (Some (TaskService.MapToResponse t')),
         emit (with_Tasks w (replace_row t' (Tasks w)) (NextTaskId w))
           (Logged Information "Task updated: {TaskId} for user {UserId}"))
    /\ In t' (replace_row t' (Tasks w))
    /\ (forall r, In r (Tasks w) -> TodoTask.Id r <> TodoTask.Id t ->
                  In r (replace_row t' (Tasks w)))
    /\ TodoTask.Title t'
       = match UpdateTaskRequest.Title request with
         | Some v => Str.Trim v
         | None => TodoTask.Title t
         end
    /\ TodoTask.Description t'
       = match UpdateTaskRequest.Description request with
         | Some v => Some (Str.Trim v)
         | None => TodoTask.Description t
         end
    /\ TodoTask.DueDate t'
       = match UpdateTaskRequest.DueDate request with
         | Some v => Some v
         | None => TodoTask.DueDate t
         end
    /\ TodoTask.Priority t'
       = match UpdateTaskRequest.Priority request with
         | Some v => v
         | None => TodoTask.Priority t
         end
    /\ TodoTask.IsCompleted t'
       = match UpdateTaskRequest.IsCompleted request with
         | Some v => v
         | None => TodoTask.IsCompleted t
         end
    /\ TodoTask.Id t' = TodoTask.Id t
    /\ TodoTask.UserId t' = TodoTask.UserId t
    /\ TodoTask.CreatedAt t' = TodoTask.CreatedAt t
    /\ TodoTask.UpdatedAt t' = Some (Now w).
Proof.
  intros Hk Hin.
  pose proof (find_owned t (Tasks w) Hk Hin) as F.
  change (find (owned_by (TodoTask.UserId t) (TodoTask.Id t)) (Tasks w) = Some t) in F.
  pose proof (UpdateTaskAsync_run _ _ request w t F) as R. cbv zeta in R.
  pose proof (apply_request_keeps_identity t request) as [Hid [Hu Hc]].
  pose proof (apply_request_fields t request) as Hf. cbv zeta in Hf.
  destruct Hf as [H1 [H2 [H3 [H4 [H5 _]]]]].
  exists (TaskService.set_UpdatedAt (TaskService.apply_request t request)
            (Some (Now w))).
  split; [exact R |].
  split; [apply (replace_row_hit t); [exact Hin | simpl; congruence] |].
  split; [intros r Hr Hne; apply replace_row_miss;
          [exact Hr | simpl; congruence] |].
  simpl. repeat split; assumption.
Qed.
End PartialUpdate.

Lemma update_overwrites_only_present_fields_witness :
  exists t',
    fst (run (bcrypt := Fixture.toyBCrypt)
           (TaskService.UpdateTaskAsync (TodoTask.UserId Fixture.milk)
              (TodoTask.Id Fixture.milk)
              {| UpdateTaskRequest.Title := None;
                 UpdateTaskRequest.Description := None;
                 UpdateTaskRequest.DueDate := None;
                 UpdateTaskRequest.Priority := Some 3;
                 UpdateTaskRequest.IsCompleted := None |}) Fixture.world)
    = Returned (Some (TaskService.MapToResponse t'))
    /\ TodoTask.Title t' = "Buy milk"
    /\ TaskResponse.PriorityLabel (TaskService.MapToResponse t') = "High"
    /\ TodoTask.UpdatedAt t' = Some 6000.
Proof.
  destruct (update_overwrites_only_present_fields (bcrypt := Fixture.toyBCrypt)
              Fixture.world Fixture.milk
              {| UpdateTaskRequest.Title := None;
                 UpdateTaskRequest.Description := None;
                 UpdateTaskRequest.DueDate := None;
                 UpdateTaskRequest.Priority := Some 3;
                 UpdateTaskRequest.IsCompleted := None |})
    as [t' [R [_ [_ [Ht [_ [_ [Hp [_ [_ [_ [_ Hu]]]]]]]]]]]].
  - unfold Contract.primary_key. simpl.
    repeat constructor; simpl; intuition discriminate.
  - simpl. auto.
  - exists t'. rewrite R. simpl in Ht, Hp, Hu. simpl.
    unfold TaskResponse.PriorityLabel. simpl. rewrite Hp. simpl. auto.
Defined.

Section NeverCleared.
Context {bcrypt : BCrypt}.

(** C10. A null field of an update request is an absent field, so no
    update call can set an optional field back to null.  For every update
    call (by any user, on any id, with any request) and every stored task
    [t], the task [t'] stored under the id of [t] afterwards has the due
    date, description and title of [t] whenever the request carries none;
    and if [t] had a due date (a description), so has [t']. *)
Theorem update_never_clears_a_field
    (w : World) (t : TodoTask.t) (userId taskId : Z)
    (request : UpdateTaskRequest.t) :
  Contract.primary_key (Tasks w) ->
  In t (Tasks w) ->
  let w' := snd (run (TaskService.UpdateTaskAsync userId taskId request) w) in
  Contract.primary_key (Tasks w')
  /\ exists t',
       In t' (Tasks w')
       /\ TodoTask.Id t' = TodoTask.Id t
       /\ (UpdateTaskRequest.DueDate request = None ->
           TodoTask.DueDate t' = TodoTask.DueDate t)
       /\ (UpdateTaskRequest.Description request = None ->
           TodoTask.Description t' = TodoTask.Description t)
       /\ (UpdateTaskRequest.Title request = None ->
           TodoTask.Title t' = TodoTask.Title t)
       /\ (TodoTask.DueDate t <> None -> TodoTask.DueDate t' <> None)
       /\ (TodoTask.Description t <> None -> TodoTask.Description t' <> None).
Proof.
  intros Hk Hin w'. subst w'.
  destruct (find (owned_by userId taskId) (Tasks w)) as [task |] eqn:F.
  - rewrite (UpdateTaskAsync_run _ _ request w task F). simpl.
    split.
    { unfold Contract.primary_key. now rewrite replace_row_keys. }
    pose proof (apply_request_keeps_identity task request) as [Hid _].
    pose proof (apply_request_fields task request) as Hf. cbv zeta in Hf.
    destruct Hf as [H1 [H2 [H3 _]]].
    destruct (Z.eq_dec (TodoTask.Id t) (TodoTask.Id task)) as [E | E].
    + assert (t = task) as ->.
      { apply (key_determines_row (Tasks w)); auto.
        apply find_some in F. tauto. }
      eexists. split; [apply (replace_row_hit task);
                       [exact Hin | simpl; congruence] |].
      simpl. rewrite H1, H2, H3.
      repeat split; try congruence.
      * intros ->. reflexivity.
      * intros ->. reflexivity.
      * intros ->. reflexivity.
      * destruct (UpdateTaskRequest.DueDate request); congruence.
      * destruct (UpdateTaskRequest.Description request); congruence.
    + exists t. split; [apply replace_row_miss; [exact Hin | simpl; congruence] |].
      repeat split; auto.
  - unfold TaskService.UpdateTaskAsync, TaskService.GetUserTaskAsync.
    unfold owned_by in F. simpl. rewrite F. simpl.
    split; [exact Hk |]. exists t. repeat split; auto.
Qed.
End NeverCleared.

Lemma update_never_clears_a_field_witness :
  exists t',
    In t' (Tasks (snd (run (bcrypt := Fixture.toyBCrypt)
                         (TaskService.UpdateTaskAsync 1 11
                            {| UpdateTaskRequest.Title := Some " Taxes ";
                               UpdateTaskRequest.Description := None;
                               UpdateTaskRequest.DueDate := None;
                               UpdateTaskRequest.Priority := None;
                               UpdateTaskRequest.IsCompleted := Some false |})
                         Fixture.world)))
    /\ TodoTask.Id t' = 11
    /\ TodoTask.DueDate t' = Some 9000.
Proof.
  destruct (update_never_clears_a_field (bcrypt := Fixture.toyBCrypt)
              Fixture.world Fixture.taxes 1 11
              {| UpdateTaskRequest.Title := Some " Taxes ";
                 UpdateTaskRequest.Description := None;
                 UpdateTaskRequest.DueDate := None;
                 UpdateTaskRequest.Priority := None;
                 UpdateTaskRequest.IsCompleted := Some false |})
    as [_ [t' [Hin [Hid [Hd _]]]]].
  - unfold Contract.primary_key. simpl.
    repeat constructor; simpl; intuition discriminate.
  - simpl. auto.
  - exists t'. split; [exact Hin |]. split; [exact Hid |].
    rewrite Hd; reflexivity.
Defined.

(* ===================================================================== *)
(** ** Creating a task                                                    *)
(* ===================================================================== *)

Lemma TrimStart_blank s : Str.all_white s = true -> Str.TrimStart s = "".
Proof.
  induction s as [| c r IH]; simpl; intros H.
  - reflexivity.
  - apply andb_true_iff in H. destruct H as [Hc Hr]. rewrite Hc. now apply IH.
Qed.

Lemma TrimEnd_empty s : Str.TrimEnd s = "" -> Str.all_white s = true.
Proof.
  induction s as [| c r IH]; simpl; intros H.
  - reflexivity.
  - destruct (Str.TrimEnd r) eqn:E; [| discriminate].
    destruct (Str.IsWhiteSpace c); [| discriminate].
    simpl. now apply IH.
Qed.

Lemma TrimStart_white s :
  Str.all_white (Str.TrimStart s) = true -> Str.all_white s = true.
Proof.
  induction s as [| c r IH]; simpl; intros H.
  - reflexivity.
  - destruct (Str.IsWhiteSpace c) eqn:E.
    + simpl. now apply IH.
    + simpl in H. rewrite E in H. discriminate.
Qed.

Lemma blank_iff_Trim_empty s : Str.all_white s = true <-> Str.Trim s = "".
Proof.
  unfold Str.Trim. split; intros H.
  - now rewrite TrimStart_blank.
  - apply TrimStart_white. now apply TrimEnd_empty.
Qed.

Lemma TrimEnd_length s : (String.length (Str.TrimEnd s) <= String.length s)%nat.
Proof.
  induction s as [| c r IH]; simpl.
  - lia.
  - destruct (Str.TrimEnd r) eqn:E.
    + destruct (Str.IsWhiteSpace c); simpl; lia.
    + simpl in *. lia.
Qed.

Lemma TrimStart_length s : (String.length (Str.TrimStart s) <= String.length s)%nat.
Proof.
  induction s as [| c r IH]; simpl.
  - lia.
  - destruct (Str.IsWhiteSpace c); simpl; lia.
Qed.

Lemma Trim_length s : Str.Length (Str.Trim s) <= Str.Length s.
Proof.
  unfold Str.Length, Str.Trim.
  pose proof (TrimEnd_length (Str.TrimStart s)).
  pose proof (TrimStart_length s). lia.
Qed.

Lemma CreateTaskRequest_valid request :
  Validation.CreateTaskRequest request = [] ->
  Str.all_white (CreateTaskRequest.Title request) = false
  /\ Str.Length (CreateTaskRequest.Title request) <= 200.
Proof.
  unfold Validation.CreateTaskRequest, Validation.errors,
    Validation.Required, Validation.MaxLength.
  simpl.
  destruct (Str.all_white (CreateTaskRequest.Title request)); simpl;
    [discriminate |].
  destruct (Str.Length (CreateTaskRequest.Title request) <=? 200) eqn:E; simpl;
    [| discriminate].
  intros _. split; [reflexivity | now apply Z.leb_le].
Qed.

Lemma TrimEnd_cons c r c' r' :
  Str.TrimEnd r = String c' r' -> Str.TrimEnd (String c r) = String c (String c' r').
Proof. intros H. simpl. now rewrite H. Qed.

Lemma TrimStart_head s :
  match Str.TrimStart s with
  | EmptyString => True
  | String c _ => Str.IsWhiteSpace c = false
  end.
Proof.
  induction s as [| c r IH]; simpl.
  - exact I.
  - destruct (Str.IsWhiteSpace c) eqn:W; [exact IH | exact W].
Qed.

Lemma TrimEnd_keeps_head c r :
  Str.IsWhiteSpace c = false ->
  exists r', Str.TrimEnd (String c r) = String c r'.
Proof.
  intros W. simpl. destruct (Str.TrimEnd r); rewrite ?W; eauto.
Qed.

Lemma all_white_append (a b : string) :
  Str.all_white (a ++ b) = Str.all_white a && Str.all_white b.
Proof.
  induction a as [| c a IH]; simpl; [reflexivity |].
  now rewrite IH, andb_assoc.
Qed.

Lemma TrimStart_split s :
  exists pre, s = pre ++ Str.TrimStart s /\ Str.all_white pre = true.
Proof.
  induction s as [| c r [pre [E W]]]; simpl.
  - now exists "".
  - destruct (Str.IsWhiteSpace c) eqn:Wc.
    + exists (String c pre). simpl. rewrite Wc, W, <- E. now split.
    + now exists "".
Qed.

Lemma TrimEnd_split s :
  exists post, s = Str.TrimEnd s ++ post /\ Str.all_white post = true.
Proof.
  induction s as [| c r [post [E W]]]; simpl.
  - now exists "".
  - destruct (Str.TrimEnd r) as [| c' r'] eqn:T.
    + simpl in E. subst r. destruct (Str.IsWhiteSpace c) eqn:Wc.
      * exists (String c post). simpl. now rewrite Wc, W.
      * exists post. now split.
    + exists post. simpl. simpl in E. rewrite <- E. now split.
Qed.

Lemma TrimEnd_last s r c :
  Str.TrimEnd s = r ++ String c "" -> Str.IsWhiteSpace c = false.
Proof.
  revert r. induction s as [| c0 s IH]; intros r E; simpl in E.
  - destruct r; discriminate.
  - destruct (Str.TrimEnd s) as [| c1 r1] eqn:T.
    + destruct (Str.IsWhiteSpace c0) eqn:W.
      * destruct r; discriminate.
      * destruct r as [| c2 r]; simpl in E.
        -- injection E as ->. exact W.
        -- injection E as _ E. destruct r; discriminate.
    + destruct r as [| c2 r]; simpl in E.
      * discriminate.
      * injection E as _ E. now apply (IH r).
Qed.

Lemma TrimStart_append_blank (pre x : string) :
  Str.all_white pre = true -> Str.TrimStart (pre ++ x) = Str.TrimStart x.
Proof.
  induction pre as [| c pre IH]; simpl; intros W; [reflexivity |].
  apply andb_true_iff in W. destruct W as [Wc W]. rewrite Wc. now apply IH.
Qed.

Lemma TrimEnd_blank (post : string) :
  Str.all_white post = true -> Str.TrimEnd post = "".
Proof.
  induction post as [| c post IH]; simpl; intros W; [reflexivity |].
  apply andb_true_iff in W. destruct W as [Wc W]. now rewrite IH, Wc.
Qed.

Lemma TrimEnd_append_blank (t post : string) :
  Str.all_white post = true -> Str.TrimEnd (t ++ post) = Str.TrimEnd t.
Proof.
  intros W. induction t as [| c t IH]; simpl.
  - now apply TrimEnd_blank.
  - now rewrite IH.
Qed.

Lemma TrimEnd_fixed (t : string) :
  (forall r c, t = r ++ String c "" -> Str.IsWhiteSpace c = false) ->
  Str.TrimEnd t = t.
Proof.
  induction t as [| c0 t IH]; intros H; [reflexivity |].
  destruct t as [| c1 t].
  - simpl. now rewrite (H "" c0 eq_refl).
  - assert (Str.TrimEnd (String c1 t) = String c1 t) as E.
    { apply IH. intros r c Er. apply (H (String c0 r) c). simpl. now rewrite Er. }
    now apply TrimEnd_cons.
Qed.

(** [String.Trim] removes the surrounding white space, all of it and
    nothing else. *)
Lemma Trim_trimmed_of (s : string) : Contract.trimmed_of s (Str.Trim s).
Proof.
  unfold Contract.trimmed_of, Str.Trim. split; [| split].
  - destruct (TrimStart_split s) as [pre [E W]].
    destruct (TrimEnd_split (Str.TrimStart s)) as [post [E' W']].
    exists pre, post. rewrite <- E', <- E.
    split; [reflexivity |]. split; now apply all_white_blank.
  - intros c r E. pose proof (TrimStart_head s) as H.
    destruct (Str.TrimStart s) as [| c' r']; [discriminate |].
    destruct (TrimEnd_keeps_head c' r' H) as [r'' E'].
    rewrite E' in E. now injection E as <- _.
  - intros r c E. now apply TrimEnd_last in E.
Qed.

(** The surrounding white space removed leaves one text only. *)
Lemma trimmed_of_unique (s t : string) :
  Contract.trimmed_of s t -> t = Str.Trim s.
Proof.
  intros [[pre [post [-> [Wpre Wpost]]]] [Hhead Hlast]].
  apply all_white_blank in Wpre. apply all_white_blank in Wpost.
  unfold Str.Trim. rewrite (TrimStart_append_blank _ _ Wpre).
  destruct t as [| c r].
  - simpl. rewrite (TrimStart_blank _ Wpost). reflexivity.
  - simpl Str.TrimStart. rewrite (Hhead c r eq_refl).
    change (String c (r ++ post)) with (String c r ++ post).
    rewrite (TrimEnd_append_blank _ _ Wpost).
    symmetry. now apply TrimEnd_fixed.
Qed.

Lemma trimmed_of_empty (s : string) :
  Contract.trimmed_of s "" <-> Contract.blank s.
Proof.
  split.
  - intros [[pre [post [-> [Wpre Wpost]]]] _].
    apply all_white_blank. rewrite all_white_append. simpl.
    apply all_white_blank in Wpre. apply all_white_blank in Wpost.
    now rewrite Wpre, Wpost.
  - intros W. apply all_white_blank in W.
    apply blank_iff_Trim_empty in W. rewrite <- W. apply Trim_trimmed_of.
Qed.

Section Create.
Context {bcrypt : BCrypt}.

(** C8. The create endpoint behind its model validation.  A request whose
    title is empty after trimming (what is left when the white space around
    it is removed is nothing: the title is empty or made of white-space
    characters only), and a request whose title has more than 200
    characters, is answered 400 and stores nothing.  Whenever a request is
    answered 201, exactly one task has been added to the store; its title is
    the request title with the surrounding white space removed (the request
    title is the stored title between two runs of white-space characters,
    and the stored title neither begins nor ends with one; no other text is
    that), it is not empty and at most 200 characters long, and the response
    shows that title.  A valid request of a known user is answered 201.
    White-space characters are TAB, LF, VT, FF, CR, the space, NEL and the
    no-break space. *)
Theorem create_trims_and_requires_title
    (User : ClaimsPrincipal) (request : CreateTaskRequest.t) (w : World) :
  let endpoint :=
    Program.ModelState (Validation.CreateTaskRequest request)
      (TasksController.CreateTask User request) in
  let rejected :=
    Validation.CreateTaskRequest request <> []
    /\ run endpoint w
       = (Returned (BadRequest
            (ValidationProblem (Validation.CreateTaskRequest request))), w) in
  (Str.Trim (CreateTaskRequest.Title request) = "" -> rejected)
  /\ (Contract.trimmed_of (CreateTaskRequest.Title request) "" -> rejected)
  /\ (Contract.blank (CreateTaskRequest.Title request) -> rejected)
  /\ (Str.Length (CreateTaskRequest.Title request) > 200 -> rejected)
  /\ (forall body w',
        run endpoint w = (Returned (CreatedAtAction body), w') ->
        exists t,
          Tasks w' = (Tasks w ++ [t])%list
          /\ body = TaskBody (TaskService.MapToResponse t)
          /\ TodoTask.Title t = Str.Trim (CreateTaskRequest.Title request)
          /\ Contract.trimmed_of (CreateTaskRequest.Title request) (TodoTask.Title t)
          /\ (forall t', Contract.trimmed_of (CreateTaskRequest.Title request) t' ->
                         t' = TodoTask.Title t)
          /\ TodoTask.Title t <> ""
          /\ Str.Length (TodoTask.Title t) <= 200)
  /\ (forall userId,
        NameIdentifier User = Some userId ->
        existsb (fun u => User.Id u =? userId) (Users w) = true ->
        Validation.CreateTaskRequest request = [] ->
        exists body w', run endpoint w = (Returned (CreatedAtAction body), w'))
  /\ (forall c, Str.IsWhiteSpace c = true
                <-> In (N_of_ascii c) [9; 10; 11; 12; 13; 32; 133; 160]%N).
Proof.
  intros endpoint rejected. subst endpoint rejected.
  assert (forall errs, errs <> [] ->
            run (Program.ModelState errs (TasksController.CreateTask User request)) w
            = (Returned (BadRequest (ValidationProblem errs)), w)) as Rej.
  { intros [| e errs] H; [congruence | reflexivity]. }
  assert (Str.all_white (CreateTaskRequest.Title request) = true ->
          Validation.CreateTaskRequest request <> []
          /\ run (Program.ModelState (Validation.CreateTaskRequest request)
                    (TasksController.CreateTask User request)) w
             = (Returned (BadRequest
                  (ValidationProblem (Validation.CreateTaskRequest request))), w))
    as Blank.
  { intros Hblank.
    assert (Validation.CreateTaskRequest request <> []) as Hne.
    { intros Hv. apply CreateTaskRequest_valid in Hv. destruct Hv; congruence. }
    split; [exact Hne | now apply Rej]. }
  split; [| split; [| split; [| split; [| split; [| split]]]]].
  - intros Hblank. apply Blank. now apply blank_iff_Trim_empty.
  - intros Hblank. apply Blank. apply all_white_blank.
    now apply trimmed_of_empty.
  - intros Hblank. apply Blank. now apply all_white_blank.
  - intros Hlong.
    assert (Validation.CreateTaskRequest request <> []) as Hne.
    { intros Hv. apply CreateTaskRequest_valid in Hv. destruct Hv; lia. }
    split; [exact Hne | now apply Rej].
  - intros body w' R.
    destruct (Validation.CreateTaskRequest request) as [| e errs] eqn:V.
    + apply CreateTaskRequest_valid in V. destruct V as [Hw Hl].
      unfold Program.ModelState, TasksController.CreateTask,
        TasksController.GetCurrentUserId, TaskService.CreateTaskAsync in R.
      destruct (NameIdentifier User) as [userId |]; simpl in R; [| discriminate].
      destruct (existsb _ (Users w)); simpl in R; [| discriminate].
      inversion R; subst; clear R.
      eexists. split; [reflexivity |]. split; [reflexivity |]. simpl.
      split; [reflexivity |].
      split; [apply Trim_trimmed_of |].
      split; [intros t'; apply trimmed_of_unique |]. split.
      * intros Hempty. apply blank_iff_Trim_empty in Hempty. congruence.
      * pose proof (Trim_length (CreateTaskRequest.Title request)). lia.
    + simpl in R. discriminate.
  - intros userId Hu Hfk V. rewrite V.
    unfold Program.ModelState, TasksController.CreateTask,
      TasksController.GetCurrentUserId, TaskService.CreateTaskAsync.
    rewrite Hu. simpl. rewrite Hfk. simpl. eauto.
  - intros c. destruct c as [[] [] [] [] [] [] [] []]; vm_compute;
      split; intros H; try discriminate; try reflexivity;
      repeat (destruct H as [H | H]; [discriminate |]); try contradiction;
      tauto.
Qed.
End Create.

Example create_buy_milk :
  let request :=
    {| CreateTaskRequest.Title := "  Buy milk ";
       CreateTaskRequest.Description := None;
       CreateTaskRequest.DueDate := None;
       CreateTaskRequest.Priority := 1 |} in
  exists r w',
    run (Program.ModelState (Validation.CreateTaskRequest request)
           (TasksController.CreateTask (Contract.principal 2) request))
      Fixture.world
    = (Returned (CreatedAtAction (TaskBody r)), w')
    /\ TaskResponse.Title r = "Buy milk"
    /\ TaskResponse.PriorityLabel r = "Low"
    /\ TaskResponse.IsCompleted r = false
    /\ TaskResponse.UpdatedAt r = None.
Proof. do 2 eexists. split; [reflexivity |]. repeat split. Qed.

Example create_blank_title_rejected :
  let request :=
    {| CreateTaskRequest.Title := "   ";
       CreateTaskRequest.Description := None;
       CreateTaskRequest.DueDate := None;
       CreateTaskRequest.Priority := 2 |} in
  run (Program.ModelState (Validation.CreateTaskRequest request)
         (TasksController.CreateTask (Contract.principal 2) request))
    Fixture.world
  = (Returned (BadRequest (ValidationProblem ["Title is required"])), Fixture.world).
Proof. reflexivity. Qed.

(* ===================================================================== *)
(** ** Login                                                              *)
(* ===================================================================== *)

Section Login.
Context {bcrypt : BCrypt}.
Variable settings : JwtSettings.t.

Lemma LoginAsync_miss request w :
  lookup request w = None ->
  run (AuthService.LoginAsync settings request) w
  = (Returned None,
     emit w (Logged Warning "Login failed: User not found for {Email}")).
Proof.
  unfold lookup, AuthService.LoginAsync. intros H. simpl. rewrite H. reflexivity.
Qed.

Lemma LoginAsync_wrong_password request w user :
  lookup request w = Some user ->
  Verify (LoginRequest.Password request) (User.PasswordHash user) = false ->
  run (AuthService.LoginAsync settings request) w
  = (Returned None,
     emit (emit w (Verified (LoginRequest.Password request)
                     (User.PasswordHash user)))
       (Logged Warning "Login failed: Invalid password for {Email}")).
Proof.
  unfold lookup, AuthService.LoginAsync. intros H V. simpl. rewrite H. simpl.
  rewrite V. reflexivity.
Qed.

Lemma LoginAsync_success request w user :
  lookup request w = Some user ->
  Verify (LoginRequest.Password request) (User.PasswordHash user) = true ->
  exists r,
    run (AuthService.LoginAsync settings request) w
    = (Returned (Some r),
       emit (emit w (Verified (LoginRequest.Password request)
                       (User.PasswordHash user)))
         (Logged Information "User logged in successfully: {Email}"))
    /\ UserInfo.Id (AuthResponse.User r) = User.Id user.
Proof.
  unfold lookup, AuthService.LoginAsync. intros H V. simpl. rewrite H. simpl.
  rewrite V. simpl. eexists. split; reflexivity.
Qed.

(** C3. Whether no user is stored under the normalized email, or one is
    and the password fails verification against its hash, login returns
    one and the same value: the service returns null and the controller
    answers 401 with the message "Invalid email or password". *)
Theorem login_failures_are_identical (request : LoginRequest.t) (w : World) :
  lookup request w = None
  \/ (exists user,
        lookup request w = Some user
        /\ Verify (LoginRequest.Password request) (User.PasswordHash user) = false) ->
  fst (run (AuthService.LoginAsync settings request) w) = Returned None
  /\ fst (run (AuthController.Login settings request) w)
     = Returned (Unauthorized (error "Invalid email or password")).
Proof.
  intros H.
  assert (fst (run (AuthService.LoginAsync settings request) w) = Returned None) as E.
  { destruct H as [H | [user [H V]]].
    - now rewrite LoginAsync_miss.
    - now rewrite (LoginAsync_wrong_password request w user). }
  split; [exact E |].
  unfold AuthController.Login. rewrite run_bind.
  destruct (run (AuthService.LoginAsync settings request) w) as [[r | e] w'];
    simpl in E; [| discriminate].
  inversion E; subst. reflexivity.
Qed.

(** C4, as the code has it.  A login whose lookup misses returns null
    after writing one log line and makes no password-verification call at
    all; there is no dummy hash.  A login whose lookup finds a user makes
    exactly one verification call, against that user's stored hash. *)
Theorem login_verifies_only_a_found_user (request : LoginRequest.t) (w : World) :
  match lookup request w with
  | None =>
      run (AuthService.LoginAsync settings request) w
      = (Returned None,
         emit w (Logged Warning "Login failed: User not found for {Email}"))
  | Some user =>
      exists r line,
        run (AuthService.LoginAsync settings request) w
        = (r, emit (emit w (Verified (LoginRequest.Password request)
                              (User.PasswordHash user)))
                (Logged (fst line) (snd line)))
  end.
Proof.
  destruct (lookup request w) as [user |] eqn:L.
  - destruct (Verify (LoginRequest.Password request) (User.PasswordHash user)) eqn:V.
    + destruct (LoginAsync_success request w user L V) as [r [R _]].
      exists (Returned (Some r)), (Information, "User logged in successfully: {Email}").
      exact R.
    + exists (Returned None), (Warning, "Login failed: Invalid password for {Email}").
      now apply LoginAsync_wrong_password.
  - now apply LoginAsync_miss.
Qed.
End Login.

Lemma login_failures_are_identical_witness :
  fst (run (AuthController.Login Fixture.settings
              {| LoginRequest.Email := "alice@example.com";
                 LoginRequest.Password := "wrong horse" |}) Fixture.world)
  = fst (run (AuthController.Login Fixture.settings
                {| LoginRequest.Email := "nobody@example.com";
                   LoginRequest.Password := "wrong horse" |}) Fixture.world).
Proof.
  transitivity
    (Returned (A := IActionResult) (Unauthorized (error "Invalid email or password"))).
  - refine (proj2 (login_failures_are_identical (bcrypt := Fixture.toyBCrypt)
                     Fixture.settings _ Fixture.world _)).
    right. exists Fixture.alice. split; reflexivity.
  - symmetry.
    refine (proj2 (login_failures_are_identical (bcrypt := Fixture.toyBCrypt)
                     Fixture.settings _ Fixture.world _)).
    left. reflexivity.
Defined.

(** C4 as stated fails: a login for an address nobody registered ends
    without any call to [Verify]. *)
Lemma login_miss_verifies_nothing :
  lookup {| LoginRequest.Email := "nobody@example.com";
            LoginRequest.Password := "guess" |} Fixture.world = None
  /\ Trace Fixture.world = []
  /\ run (AuthService.LoginAsync Fixture.settings
            {| LoginRequest.Email := "nobody@example.com";
               LoginRequest.Password := "guess" |}) Fixture.world
     = (Returned None,
        emit Fixture.world
          (Logged Warning "Login failed: User not found for {Email}"))
  /\ (forall password hash,
        ~ In (Verified password hash)
            (Trace (snd (run (AuthService.LoginAsync Fixture.settings
                                {| LoginRequest.Email := "nobody@example.com";
                                   LoginRequest.Password := "guess" |})
                           Fixture.world)))).
Proof.
  repeat split.
  intros password hash [H | []]. discriminate.
Qed.

(* ===================================================================== *)
(** ** Sorting by due date                                                *)
(* ===================================================================== *)

Section Sorting.
Variable le : TodoTask.t -> TodoTask.t -> bool.
Hypothesis le_total : forall a b, le a b = true \/ le b a = true.
Hypothesis le_trans : forall a b c, le a b = true -> le b c = true -> le a c = true.

Lemma insert_by_sorted x l :
  StronglySorted (Linq.ordered le) l -> StronglySorted (Linq.ordered le) (Linq.insert_by le x l).
Proof.
  induction 1 as [| y l Hs IH Hall]; simpl.
  - repeat constructor.
  - destruct (le x y) eqn:E.
    + constructor; [constructor; assumption |].
      constructor; [exact E |].
      eapply Forall_impl; [| exact Hall]. intros z Hz. eapply le_trans; eauto.
    + constructor; [exact IH |].
      assert (Linq.ordered le y x) as Hyx by (destruct (le_total x y); [congruence | assumption]).
      apply (Permutation_Forall (Permutation_sym (insert_by_perm le x l))).
      constructor; assumption.
Qed.

Lemma sort_by_sorted l : StronglySorted (Linq.ordered le) (Linq.sort_by le l).
Proof.
  induction l as [| x l IH]; simpl.
  - constructor.
  - now apply insert_by_sorted.
Qed.

Lemma sorted_around before t after :
  StronglySorted (Linq.ordered le) (before ++ t :: after) ->
  Forall (fun u => Linq.ordered le u t) before /\ Forall (Linq.ordered le t) after.
Proof.
  induction before as [| b before IH]; simpl; intros H.
  - inversion H; subst. split; [constructor | assumption].
  - inversion H as [| ? ? Hs Hall]; subst.
    destruct (IH Hs) as [Hb Ha]. split; [| exact Ha].
    constructor; [| exact Hb].
    rewrite Forall_forall in Hall. apply Hall.
    apply in_or_app. right. left. reflexivity.
Qed.
End Sorting.

Lemma nullable_le_total a b :
  Linq.nullable_le a b = true \/ Linq.nullable_le b a = true.
Proof.
  destruct a as [x |], b as [y |]; simpl; auto.
  destruct (Z.leb_spec x y); [left; reflexivity | right; apply Z.leb_le; lia].
Qed.

Lemma nullable_le_trans a b c :
  Linq.nullable_le a b = true -> Linq.nullable_le b c = true ->
  Linq.nullable_le a c = true.
Proof.
  destruct a as [x |], b as [y |], c as [z |]; simpl; try congruence.
  rewrite !Z.leb_le. lia.
Qed.

Lemma nullable_le_None a : Linq.nullable_le a None = true -> a = None.
Proof. destruct a; simpl; [discriminate | reflexivity]. Qed.

(** C5, as the code has it.  When the list is sorted by due date, the tasks
    without a due date stand together at one end, and which end depends on
    the direction: under "desc" no dated task follows an undated one (nulls
    last); under any other direction, "asc" included, no dated task precedes
    an undated one (nulls first). *)
Theorem due_date_nulls_follow_direction
    (query : IQueryable) (qp : TaskQueryParams.t) (rows : list TodoTask.t)
    (before after : list TodoTask.t) (t : TodoTask.t) :
  Str.ToLower (TaskQueryParams.SortBy qp) = "duedate" ->
  TaskService.ApplySorting query qp rows = (before ++ t :: after)%list ->
  TodoTask.DueDate t = None ->
  if String.eqb (Str.ToLower (TaskQueryParams.SortDirection qp)) "desc"
  then Forall (fun u => TodoTask.DueDate u = None) after
  else Forall (fun u => TodoTask.DueDate u = None) before.
Proof.
  intros Hby Hsorted Hnull.
  unfold TaskService.ApplySorting in Hsorted.
  rewrite Hby, String.eqb_refl in Hsorted.
  destruct (String.eqb (Str.ToLower (TaskQueryParams.SortDirection qp)) "desc").
  - unfold Linq.OrderByDescending in Hsorted.
    pose proof (sort_by_sorted
      (fun a b => Linq.nullable_le (TodoTask.DueDate b) (TodoTask.DueDate a))
      (fun a b => nullable_le_total _ _)
      (fun a b c H1 H2 => nullable_le_trans _ _ _ H2 H1) (query rows)) as S.
    rewrite Hsorted in S. apply sorted_around in S. destruct S as [_ S].
    eapply Forall_impl; [| exact S]. unfold Linq.ordered. intros u Hu.
    rewrite Hnull in Hu. now apply nullable_le_None.
  - unfold Linq.OrderBy in Hsorted.
    pose proof (sort_by_sorted
      (fun a b => Linq.nullable_le (TodoTask.DueDate a) (TodoTask.DueDate b))
      (fun a b => nullable_le_total _ _)
      (fun a b c H1 H2 => nullable_le_trans _ _ _ H1 H2) (query rows)) as S.
    rewrite Hsorted in S. apply sorted_around in S. destruct S as [S _].
    eapply Forall_impl; [| exact S]. unfold Linq.ordered. intros u Hu.
    rewrite Hnull in Hu. now apply nullable_le_None.
Qed.

Lemma due_date_nulls_follow_direction_witness :
  TaskService.ApplySorting (fun rows => rows) (Contract.unfiltered "dueDate" "DESC")
    [Fixture.milk; Fixture.taxes; TaskService.set_Title Fixture.milk "Buy eggs";
     Fixture.report]
  = [Fixture.taxes; Fixture.report; Fixture.milk;
     TaskService.set_Title Fixture.milk "Buy eggs"]
  /\ Forall (fun u => TodoTask.DueDate u = None)
       [TaskService.set_Title Fixture.milk "Buy eggs"].
Proof.
  split; [reflexivity |].
  apply (due_date_nulls_follow_direction (fun rows => rows)
           (Contract.unfiltered "dueDate" "DESC")
           [Fixture.milk; Fixture.taxes; TaskService.set_Title Fixture.milk "Buy eggs";
            Fixture.report]
           [Fixture.taxes; Fixture.report] _ Fixture.milk);
    reflexivity.
Defined.

(** C5 as stated fails under "asc": the owner's list sorted by due date
    ascending puts the undated task first, before the dated one. *)
Lemma due_date_asc_puts_null_first :
  TodoTask.DueDate Fixture.milk = None
  /\ TodoTask.DueDate Fixture.taxes = Some 9000
  /\ TaskService.ApplySorting (fun rows => rows) (Contract.unfiltered "dueDate" "asc")
       [Fixture.taxes; Fixture.milk]
     = [Fixture.milk; Fixture.taxes]
  /\ exists resp,
       fst (run (TaskService.GetTasksAsync 1 (Contract.unfiltered "dueDate" "asc"))
              Fixture.world) = Returned resp
       /\ TaskListResponse.Tasks resp
          = [TaskService.MapToResponse Fixture.milk;
             TaskService.MapToResponse Fixture.taxes].
Proof.
  repeat split. eexists. split; reflexivity.
Qed.

(* ===================================================================== *)
(** ** Token lifetime                                                     *)
(* ===================================================================== *)

Lemma nearest_even_bounds (a b : Z) :
  0 < b -> a / b <= Double.nearest_even a b <= a / b + 1.
Proof.
  intros Hb. unfold Double.nearest_even.
  destruct (2 * (a mod b) <? b); [lia |].
  destruct (b <? 2 * (a mod b)); [lia |].
  destruct (Z.even (a / b)); lia.
Qed.

Lemma nearest_even_ge (a b q : Z) :
  0 < b -> q * b <= a -> q <= Double.nearest_even a b.
Proof.
  intros Hb H. pose proof (nearest_even_bounds a b Hb).
  assert (q <= a / b) by (apply Z.div_le_lower_bound; lia). lia.
Qed.

(** The rounded quotient is at most half a unit above the exact one. *)
Lemma nearest_even_half (a b : Z) :
  0 < b -> 2 * (b * Double.nearest_even a b) <= 2 * a + b.
Proof.
  intros Hb. unfold Double.nearest_even.
  pose proof (Z.div_mod a b ltac:(lia)) as E.
  pose proof (Z.mod_pos_bound a b Hb) as R.
  destruct (Z.ltb_spec (2 * (a mod b)) b); [nia |].
  destruct (Z.ltb_spec b (2 * (a mod b))); [nia |].
  destruct (Z.even (a / b)); nia.
Qed.

(** Below [2^60] ticks a whole number of seconds is a double, so the
    conversion never falls below the last whole second. *)
Lemma of_long_bounds (d : Z) :
  0 < d < 2 ^ 60 ->
  d / TicksPerSecond * TicksPerSecond <= Double.of_long d <= d + 64.
Proof.
  intros [Hd Hu]. unfold Double.of_long.
  assert (L : 0 <= Z.log2 d < 60).
  { split; [apply Z.log2_nonneg | now apply Z.log2_lt_pow2]. }
  set (e := Z.max 0 (Z.log2 d - 52)).
  assert (He : 0 <= e <= 7) by (unfold e; lia).
  assert (Hp : 0 < 2 ^ e <= 128).
  { split; [now apply Z.pow_pos_nonneg |].
    change 128 with (2 ^ 7). apply Z.pow_le_mono_r; lia. }
  assert (Hdiv : exists m, TicksPerSecond = m * 2 ^ e).
  { exists (78125 * 2 ^ (7 - e)).
    rewrite <- Z.mul_assoc, <- Z.pow_add_r by lia.
    replace (7 - e + e) with 7 by lia. reflexivity. }
  destruct Hdiv as [m Hm].
  pose proof (Z.mul_div_le d TicksPerSecond eq_refl) as Hk.
  split.
  - pose proof (nearest_even_ge d (2 ^ e) (d / TicksPerSecond * m)) as G.
    rewrite Hm at 2.
    assert (d / TicksPerSecond * m * 2 ^ e <= d) as H
      by (rewrite <- Z.mul_assoc, <- Hm; lia).
    specialize (G ltac:(lia) H). nia.
  - pose proof (nearest_even_half d (2 ^ e)). lia.
Qed.

Lemma seconds_to_long_bounds (x k : Z) :
  0 <= k -> k * TicksPerSecond <= x -> x < 2 ^ 61 ->
  k <= Double.seconds_to_long x
  /\ Double.seconds_to_long x * TicksPerSecond <= x + 153.
Proof.
  intros Hk Hx Hu. unfold Double.seconds_to_long.
  destruct (Z.ltb_spec x TicksPerSecond) as [Hlt | Hge].
  - unfold TicksPerSecond in *. split; [nia | lia].
  - assert (Hq : 0 < x / TicksPerSecond).
    { apply Z.div_str_pos. unfold TicksPerSecond in *. lia. }
    assert (Hl : Z.log2 (x / TicksPerSecond) < 38).
    { apply Z.log2_lt_pow2; [exact Hq |].
      apply Z.div_lt_upper_bound; [reflexivity |].
      unfold TicksPerSecond.
      assert (2 ^ 61 <= 10000000 * 2 ^ 38) by (vm_compute; discriminate). lia. }
    set (s := 52 - Z.log2 (x / TicksPerSecond)).
    assert (Hs : 15 <= s) by (unfold s; lia).
    destruct (Z.leb_spec 0 s) as [_ | Hn]; [| lia].
    assert (Hp : 2 ^ 15 <= 2 ^ s) by (apply Z.pow_le_mono_r; lia).
    change (2 ^ 15) with 32768 in Hp.
    pose proof (nearest_even_ge (x * 2 ^ s) TicksPerSecond (k * 2 ^ s) eq_refl) as G.
    specialize (G ltac:(nia)).
    split.
    + apply Z.div_le_lower_bound; [lia | lia].
    + pose proof (Z.mul_div_le (Double.nearest_even (x * 2 ^ s) TicksPerSecond)
                    (2 ^ s) ltac:(lia)) as D1.
      pose proof (nearest_even_half (x * 2 ^ s) TicksPerSecond eq_refl) as D2.
      set (M := Double.nearest_even (x * 2 ^ s) TicksPerSecond) in *.
      set (g := M / 2 ^ s) in *.
      set (P := 2 ^ s) in *.
      unfold TicksPerSecond in *.
      assert (2 * (P * (g * 10000000)) <= 2 * (P * (x + 153))); [| nia].
      nia.
Qed.

(** The [exp] claim of an instant after the epoch and before [2^60] ticks
    (the year 5623): never earlier than the whole second the instant lies
    in, and at most 217 ticks after the instant. *)
Lemma GetIntDate_bounds (d : DateTime) :
  0 < d < 2 ^ 60 ->
  d / TicksPerSecond <= AuthService.GetIntDate d
  /\ AuthService.GetIntDate d * TicksPerSecond <= d + 217.
Proof.
  intros Hd. unfold AuthService.GetIntDate.
  destruct (Z.leb_spec d 0) as [? | _]; [lia |].
  pose proof (of_long_bounds d Hd) as [Lo Hi].
  assert (0 <= d / TicksPerSecond) by (apply Z.div_pos; [lia | reflexivity]).
  assert (Double.of_long d < 2 ^ 61).
  { assert (2 ^ 60 + 64 < 2 ^ 61) by (vm_compute; reflexivity). lia. }
  pose proof (seconds_to_long_bounds (Double.of_long d) (d / TicksPerSecond)
                ltac:(assumption) Lo ltac:(assumption)) as [A B].
  split; lia.
Qed.

Lemma GetIntDate_nonneg (d : DateTime) : 0 <= AuthService.GetIntDate d.
Proof.
  unfold AuthService.GetIntDate.
  destruct (Z.leb_spec d 0) as [| Hd]; [lia |].
  assert (P : forall e, 0 < 2 ^ Z.max 0 e) by (intros e; apply Z.pow_pos_nonneg; lia).
  assert (Hx : 0 <= Double.of_long d).
  { unfold Double.of_long.
    pose proof (P (Z.log2 d - 52)) as Hp.
    pose proof (nearest_even_bounds d _ Hp) as [Lo _].
    pose proof (Z.div_pos d _ ltac:(lia) Hp). nia. }
  unfold Double.seconds_to_long.
  destruct (Z.ltb_spec (Double.of_long d) TicksPerSecond); [lia |].
  set (s := 52 - Z.log2 (Double.of_long d / TicksPerSecond)).
  destruct (Z.leb_spec 0 s) as [Hs | Hs].
  - assert (Hp : 0 < 2 ^ s) by (apply Z.pow_pos_nonneg; lia).
    apply Z.div_pos; [| exact Hp].
    pose proof (nearest_even_bounds (Double.of_long d * 2 ^ s) TicksPerSecond eq_refl)
      as [Lo _].
    assert (0 <= Double.of_long d * 2 ^ s / TicksPerSecond)
      by (apply Z.div_pos; [nia | reflexivity]).
    lia.
  - assert (Hp : 0 < 2 ^ (- s)) by (apply Z.pow_pos_nonneg; lia).
    assert (Hb : 0 < TicksPerSecond * 2 ^ (- s)) by (unfold TicksPerSecond; lia).
    pose proof (nearest_even_bounds (Double.of_long d) _ Hb) as [Lo _].
    pose proof (Z.div_pos (Double.of_long d) _ Hx Hb). nia.
Qed.

(** The claim that [GenerateAuthResponse] writes is read back as it was
    written. *)
Lemma ValidTo_GetIntDate (d : DateTime) :
  (if AuthService.GetIntDate d <=? 0 then 0
   else AuthService.GetIntDate d * TicksPerSecond)
  = AuthService.GetIntDate d * TicksPerSecond.
Proof.
  pose proof (GetIntDate_nonneg d).
  destruct (Z.leb_spec (AuthService.GetIntDate d) 0) as [Hle | _]; [| reflexivity].
  replace (AuthService.GetIntDate d) with 0 by lia. reflexivity.
Qed.

(** The announced expiry and the expiry the token carries. *)
Lemma GetIntDate_near (d : DateTime) :
  0 < d < 2 ^ 60 ->
  d - TicksPerSecond < AuthService.GetIntDate d * TicksPerSecond <= d + 217.
Proof.
  intros Hd. destruct (GetIntDate_bounds d Hd) as [Lo Hi].
  pose proof (Z.mod_pos_bound d TicksPerSecond eq_refl) as Hr.
  pose proof (Z.div_mod d TicksPerSecond ltac:(discriminate)) as Hq.
  unfold TicksPerSecond in *. lia.
Qed.

Lemma ValidateLifetime_skew (p : TokenValidationParameters.t)
    (utcNow expires : DateTime) :
  TokenValidationParameters.ValidateLifetime p = true ->
  (Program.ValidateLifetime p utcNow (Some expires) = Some Expired
   <-> utcNow > expires + TokenValidationParameters.ClockSkew p).
Proof.
  intros V. unfold Program.ValidateLifetime. rewrite V.
  destruct (Z.ltb_spec expires (utcNow - TokenValidationParameters.ClockSkew p)).
  - split; [lia | reflexivity].
  - split; [discriminate | lia].
Qed.

Lemma ValidateToken_lifetime (s : JwtSettings.t) (utcNow expires : DateTime)
    (token : JwtSecurityToken.t) :
  JwtSecurityToken.SigningKey token = JwtSettings.SecretKey s ->
  JwtSecurityToken.ValidTo token = Some expires ->
  (Program.ValidateToken (Program.TokenValidationParameters s) utcNow token
     = inl Expired <-> utcNow > expires).
Proof.
  intros Hkey Hexp. unfold Program.ValidateToken, Program.ValidateLifetime. simpl.
  rewrite Hkey, String.eqb_refl, Hexp. simpl. rewrite Z.sub_0_r.
  destruct (Z.ltb_spec expires utcNow) as [Hlt | Hge].
  - split; [lia | reflexivity].
  - split; [| lia].
    destruct (negb _); [discriminate |].
    destruct (negb _); discriminate.
Qed.

(** C7. Program.cs configures the bearer handler with a clock skew of zero
    and lifetime validation on.  The lifetime check grants exactly the clock
    skew as a grace window past the expiry, so under those parameters every
    token signed with the server key fails validation with [Expired] exactly
    when the current time is past the token's expiry.  The lifetime is the
    single configured number of minutes, 60 unless configured otherwise: a
    token issued at time [Now] announces the expiry [Now] + that many
    minutes and carries it as the [exp] claim in whole seconds, which for
    every clock after the epoch and before the year 5623 is less than one
    second before and at most 217 ticks after the announced instant; the
    token is accepted for its user up to the expiry it carries and is
    [Expired] after it.  The claim is 0 for an instant at or before the
    epoch, and it is not always cut down: one tick before a whole second it
    is that second. *)
Theorem token_expires_exactly_after_expiry {bcrypt : BCrypt}
    (s : JwtSettings.t) (user : User.t) (w : World) (utcNow : DateTime) :
  TokenValidationParameters.ClockSkew (Program.TokenValidationParameters s) = 0
  /\ TokenValidationParameters.ValidateLifetime (Program.TokenValidationParameters s)
     = true
  /\ JwtSettings.ExpirationMinutes JwtSettings.default = 60
  /\ (forall p expires,
        TokenValidationParameters.ValidateLifetime p = true ->
        (Program.ValidateLifetime p utcNow (Some expires) = Some Expired
         <-> utcNow > expires + TokenValidationParameters.ClockSkew p))
  /\ (forall token expires,
        JwtSecurityToken.SigningKey token = JwtSettings.SecretKey s ->
        JwtSecurityToken.ValidTo token = Some expires ->
        (Program.ValidateToken (Program.TokenValidationParameters s) utcNow token
           = inl Expired <-> utcNow > expires))
  /\ exists resp expires,
       run (AuthService.GenerateAuthResponse s user) w = (Returned resp, w)
       /\ AuthResponse.ExpiresAt resp
          = Now w + JwtSettings.ExpirationMinutes s * (60 * TicksPerSecond)
       /\ JwtSecurityToken.Exp (AuthResponse.Token resp)
          = Some (AuthService.GetIntDate (AuthResponse.ExpiresAt resp))
       /\ JwtSecurityToken.ValidTo (AuthResponse.Token resp) = Some expires
       /\ (0 < AuthResponse.ExpiresAt resp < 2 ^ 60 ->
           AuthResponse.ExpiresAt resp - TicksPerSecond < expires
           /\ expires <= AuthResponse.ExpiresAt resp + 217)
       /\ (Program.ValidateToken (Program.TokenValidationParameters s) utcNow
             (AuthResponse.Token resp) = inl Expired <-> utcNow > expires)
       /\ (utcNow <= expires ->
           Program.ValidateToken (Program.TokenValidationParameters s) utcNow
             (AuthResponse.Token resp)
           = inr (Contract.principal (User.Id user)))
       /\ (forall d, d <= 0 -> AuthService.GetIntDate d = 0)
       /\ AuthService.GetIntDate 17999999999999999 * TicksPerSecond
          = 17999999999999999 + 1.
Proof.
  split; [reflexivity |]. split; [reflexivity |]. split; [reflexivity |].
  split; [intros p expires; apply ValidateLifetime_skew |].
  split; [intros token expires; apply ValidateToken_lifetime |].
  assert (E0 : forall d, d <= 0 -> AuthService.GetIntDate d = 0).
  { intros d Hd. unfold AuthService.GetIntDate.
    destruct (Z.leb_spec d 0); [reflexivity | lia]. }
  eexists.
  exists (AuthService.GetIntDate (AddMinutes (Now w) (JwtSettings.ExpirationMinutes s))
          * TicksPerSecond).
  split; [reflexivity |].
  assert (V : JwtSecurityToken.ValidTo
                {| JwtSecurityToken.NameIdentifier := User.Id user;
                   JwtSecurityToken.EmailClaim := User.Email user;
                   JwtSecurityToken.Jti := Guid w;
                   JwtSecurityToken.Iat := AuthService.ToUnixTimeSeconds (Now w);
                   JwtSecurityToken.Issuer := JwtSettings.Issuer s;
                   JwtSecurityToken.Audience := JwtSettings.Audience s;
                   JwtSecurityToken.Exp :=
                     Some (AuthService.GetIntDate
                             (AddMinutes (Now w) (JwtSettings.ExpirationMinutes s)));
                   JwtSecurityToken.SigningKey := JwtSettings.SecretKey s |}
              = Some (AuthService.GetIntDate
                        (AddMinutes (Now w) (JwtSettings.ExpirationMinutes s))
                      * TicksPerSecond)).
  { unfold JwtSecurityToken.ValidTo. simpl. now rewrite ValidTo_GetIntDate. }
  cbn [AuthResponse.ExpiresAt AuthResponse.Token].
  split; [reflexivity |]. split; [reflexivity |]. split; [exact V |].
  split; [| split; [| split; [| split; [exact E0 | reflexivity]]]].
  - intros Hr. pose proof (GetIntDate_near _ Hr) as Hn.
    unfold TicksPerSecond in *. lia.
  - now apply ValidateToken_lifetime.
  - intros Hle. unfold Program.ValidateToken, Program.ValidateLifetime.
    rewrite V. simpl. rewrite !String.eqb_refl. simpl. rewrite Z.sub_0_r.
    destruct (Z.ltb_spec
      (AuthService.GetIntDate (AddMinutes (Now w) (JwtSettings.ExpirationMinutes s))
       * TicksPerSecond) utcNow); [lia | reflexivity].
Qed.

(** One tick before a whole second is that second once it is a double; at
    or before the epoch the claim is 0. *)
Example GetIntDate_rounds_up :
  AuthService.GetIntDate 17999999999999999 = 1800000000
  /\ AuthService.GetIntDate 17999999999999998 = 1799999999
  /\ AuthService.GetIntDate 36000006000 = 3600
  /\ AuthService.GetIntDate (-5) = 0.
Proof. repeat split. Qed.

Example token_valid_at_expiry_expired_one_tick_later :
  exists resp,
    fst (run (AuthService.GenerateAuthResponse Fixture.settings Fixture.alice)
           Fixture.world) = Returned resp
    /\ AuthResponse.ExpiresAt resp = 6000 + 60 * 600000000
    /\ Program.ValidateToken (Program.TokenValidationParameters Fixture.settings)
         36000000000 (AuthResponse.Token resp)
       = inr (Contract.principal 1)
    /\ Program.ValidateToken (Program.TokenValidationParameters Fixture.settings)
         36000000001 (AuthResponse.Token resp)
       = inl Expired.
Proof. eexists. repeat split. Qed.

(* ===================================================================== *)
(** ** Registration under a concurrent duplicate                          *)
(* ===================================================================== *)

Section Registration.
Context {bcrypt : BCrypt}.
Variable settings : JwtSettings.t.

Lemma RegisterAsync_taken request w :
  taken request w = true ->
  run (AuthController.Register settings request) w
  = (Returned (Conflict (error "An account with this email already exists")),
     emit w (Logged Warning "Registration failed: Email {Email} already exists")).
Proof.
  unfold taken, AuthController.Register, AuthService.RegisterAsync,
    AuthService.EmailExistsAsync.
  intros H. simpl. rewrite H. reflexivity.
Qed.

(** The request passed the pre-check in [w0]; by the time of its insert
    the store, now [w1], holds the address: the unique index refuses the
    row, [RegisterAsync] logs and rethrows, and the middleware answers 500. *)
Lemma RegisterAsync_lost_race (isDevelopment : bool) request w0 w1 :
  taken request w0 = false ->
  taken request w1 = true ->
  let resumed := fst (step (AuthService.RegisterAsync settings request) w0) in
  fst (run resumed w1)
  = Thrown (DbUpdateException "UNIQUE constraint failed: Users.Email")
  /\ StatusCode
       match fst (run (fst (step (Program.Anonymous isDevelopment
                                    (AuthController.Register settings request)) w0))
                    w1) with
       | Returned r => r
       | Thrown _ => NoContent
       end = 500.
Proof.
  unfold taken, Program.Anonymous, ExceptionMiddleware.InvokeAsync,
    AuthController.Register, AuthService.RegisterAsync,
    AuthService.EmailExistsAsync.
  intros H0 H1. simpl. rewrite H0. simpl. rewrite H1. simpl.
  split; reflexivity.
Qed.
End Registration.

(** C2 on the code.  Two registrations of one address (typed with different
    case) are in flight.  Served one after the other, the second is answered
    409 by the pre-check.  When both pass the pre-check before either
    inserts, the first is answered 201 and the second, refused by the unique
    index, is answered 500 with the generic message: the duplicate-key
    failure is not translated to Conflict. *)
Theorem concurrent_duplicate_registration_answers_500 :
  let first := Endpoints.Register false Fixture.settings Fixture.carol_request in
  let second := Endpoints.Register false Fixture.settings Fixture.carol_again in
  (exists created w',
      run_pair [] first second Fixture.world
      = (Returned (CreatedAtAction created),
         Returned (Conflict (error "An account with this email already exists")),
         w'))
  /\ (exists created w',
        run_pair [true; false] first second Fixture.world
        = (Returned (CreatedAtAction created),
           Returned (InternalServerError
             (error "An unexpected error occurred. Please try again later.")),
           w')
        /\ List.length (Users w') = 3%nat)
  /\ fst (fst (run_pair [true; false]
                 (AuthService.RegisterAsync Fixture.settings Fixture.carol_request)
                 (AuthService.RegisterAsync Fixture.settings Fixture.carol_again)
                 Fixture.world))
     = Returned (Some
         {| AuthResponse.Token :=
              {| JwtSecurityToken.NameIdentifier := 3;
                 JwtSecurityToken.EmailClaim := "carol@example.com";
                 JwtSecurityToken.Jti := Guid Fixture.world;
                 JwtSecurityToken.Iat := 0;
                 JwtSecurityToken.Issuer := "TodoApi";
                 JwtSecurityToken.Audience := "TodoFrontend";
                 JwtSecurityToken.Exp := Some 3600;
                 JwtSecurityToken.SigningKey := "0123456789abcdef0123456789abcdef" |};
            AuthResponse.ExpiresAt := 36000006000;
            AuthResponse.User :=
              {| UserInfo.Id := 3; UserInfo.Email := "carol@example.com" |} |})
  /\ snd (fst (run_pair [true; false]
                 (AuthService.RegisterAsync Fixture.settings Fixture.carol_request)
                 (AuthService.RegisterAsync Fixture.settings Fixture.carol_again)
                 Fixture.world))
     = Thrown (DbUpdateException "UNIQUE constraint failed: Users.Email").
Proof.
  cbv zeta. split; [| split; [| split]].
  - do 2 eexists. vm_compute. reflexivity.
  - do 2 eexists. split; vm_compute; reflexivity.
  - vm_compute. reflexivity.
  - vm_compute. reflexivity.
Qed.

Example fixture_store_ok : Contract.store_ok Fixture.world.
Proof.
  split.
  - unfold Contract.primary_key. simpl.
    repeat constructor; simpl; intuition discriminate.
  - simpl. repeat constructor.
Qed.

(* ===================================================================== *)
(** ** Toggle, delete and create over the store                           *)
(* ===================================================================== *)

Lemma find_after_append (p : TodoTask.t -> bool) (rows : list TodoTask.t)
    (t : TodoTask.t) :
  (forall r, In r rows -> p r = false) ->
  find p (rows ++ [t]) = if p t then Some t else None.
Proof.
  induction rows as [| a rows IH]; simpl; intros H.
  - reflexivity.
  - rewrite (H a (or_introl eq_refl)). apply IH. auto.
Qed.

Lemma delete_row_In (t r : TodoTask.t) (rows : list TodoTask.t) :
  In r (delete_row t rows) <-> In r rows /\ TodoTask.Id r <> TodoTask.Id t.
Proof.
  unfold delete_row. rewrite filter_In, negb_true_iff, Z.eqb_neq. tauto.
Qed.

Lemma delete_row_gone (t : TodoTask.t) (rows : list TodoTask.t) :
  has_row (TodoTask.Id t) (delete_row t rows) = false.
Proof.
  unfold has_row. destruct (existsb _ _) eqn:E; [| reflexivity].
  apply existsb_exists in E. destruct E as [r [Hin Hid]].
  apply delete_row_In in Hin. apply Z.eqb_eq in Hid. tauto.
Qed.

Section StoreOperations.
Context {bcrypt : BCrypt}.

(** X1. Toggling a stored task twice, as its owner, brings the completion
    flag back to where it was: the first call returns the flag negated, the
    second the original flag; both stamp [UpdatedAt] with the time of the
    call, nothing else of the task changes, and no other row is touched. *)
Theorem toggle_twice_restores_flag (w : World) (t : TodoTask.t) :
  Contract.primary_key (Tasks w) ->
  In t (Tasks w) ->
  exists r1 w1 r2 w2,
    run (TaskService.ToggleCompletionAsync (TodoTask.UserId t) (TodoTask.Id t)) w
      = (Returned (Some r1), w1)
    /\ run (TaskService.ToggleCompletionAsync (TodoTask.UserId t) (TodoTask.Id t)) w1
       = (Returned (Some r2), w2)
    /\ TaskResponse.IsCompleted r1 = negb (TodoTask.IsCompleted t)
    /\ TaskResponse.IsCompleted r2 = TodoTask.IsCompleted t
    /\ TaskResponse.UpdatedAt r1 = Some (Now w)
    /\ TaskResponse.UpdatedAt r2 = Some (Now w1)
    /\ In (TaskService.set_UpdatedAt t (Some (Now w1))) (Tasks w2)
    /\ (forall r, In r (Tasks w) -> TodoTask.Id r <> TodoTask.Id t -> In r (Tasks w2)).
Proof.
  intros Hk Hin.
  pose proof (find_owned t (Tasks w) Hk Hin) as F.
  change (find (owned_by (TodoTask.UserId t) (TodoTask.Id t)) (Tasks w) = Some t) in F.
  pose proof (ToggleCompletionAsync_run _ _ w t F) as R1. cbv zeta in R1.
  set (t1 := TaskService.set_UpdatedAt
               (TaskService.set_IsCompleted t (negb (TodoTask.IsCompleted t)))
               (Some (Now w))) in *.
  set (w1 := emit (with_Tasks w (replace_row t1 (Tasks w)) (NextTaskId w)) _) in R1.
  assert (Contract.primary_key (Tasks w1)) as Hk1.
  { unfold Contract.primary_key. simpl. now rewrite replace_row_keys. }
  assert (In t1 (Tasks w1)) as Hin1.
  { simpl. now apply (replace_row_hit t). }
  pose proof (find_owned t1 (Tasks w1) Hk1 Hin1) as F1.
  change (find (owned_by (TodoTask.UserId t) (TodoTask.Id t)) (Tasks w1) = Some t1) in F1.
  pose proof (ToggleCompletionAsync_run _ _ w1 t1 F1) as R2. cbv zeta in R2.
  do 4 eexists. split; [exact R1 |]. split; [exact R2 |].
  simpl. rewrite negb_involutive.
  repeat split.
  - apply (replace_row_hit t1); [exact Hin1 | reflexivity].
  - intros r Hr Hne.
    apply replace_row_miss; [apply replace_row_miss |]; auto.
Qed.

(** X2. Deleting a stored task, as its owner, returns true, removes that
    row and no other, and leaves the Users table alone; afterwards the id is
    gone for good: get finds nothing and a second delete returns false
    without changing the store. *)
Theorem delete_removes_exactly_that_task (w : World) (t : TodoTask.t) :
  Contract.primary_key (Tasks w) ->
  In t (Tasks w) ->
  exists w1,
    run (TaskService.DeleteTaskAsync (TodoTask.UserId t) (TodoTask.Id t)) w
      = (Returned true, w1)
    /\ (forall r, In r (Tasks w1) <-> In r (Tasks w) /\ TodoTask.Id r <> TodoTask.Id t)
    /\ Users w1 = Users w
    /\ run (TaskService.GetTaskByIdAsync (TodoTask.UserId t) (TodoTask.Id t)) w1
       = (Returned None, w1)
    /\ run (TaskService.DeleteTaskAsync (TodoTask.UserId t) (TodoTask.Id t)) w1
       = (Returned false, w1).
Proof.
  intros Hk Hin.
  pose proof (find_owned t (Tasks w) Hk Hin) as F.
  change (find (owned_by (TodoTask.UserId t) (TodoTask.Id t)) (Tasks w) = Some t) in F.
  eexists. split; [apply (DeleteTaskAsync_run _ _ w t F) |].
  split; [intros r; simpl; apply delete_row_In |].
  split; [reflexivity |].
  assert (find (fun r => (TodoTask.Id r =? TodoTask.Id t)
                         && (TodoTask.UserId r =? TodoTask.UserId t))
            (delete_row t (Tasks w)) = None) as Gone.
  { apply find_missing. apply delete_row_gone. }
  split.
  - rewrite GetTaskByIdAsync_run. unfold owned_by. simpl. now rewrite Gone.
  - unfold TaskService.DeleteTaskAsync, TaskService.GetUserTaskAsync.
    simpl. now rewrite Gone.
Qed.

(** X3. A task created for a known user can be read back at once: create
    returns the task under a key no stored task has, not completed, never
    updated, created at the time of the call, with title and description
    trimmed; get by that key returns the same task to its creator and
    nothing to any other user. *)
Theorem create_then_get_round_trip
    (w : World) (userId : Z) (request : CreateTaskRequest.t) :
  Contract.store_ok w ->
  existsb (fun u => User.Id u =? userId) (Users w) = true ->
  exists resp w1,
    run (TaskService.CreateTaskAsync userId request) w = (Returned resp, w1)
    /\ run (TaskService.GetTaskByIdAsync userId (TaskResponse.Id resp)) w1
       = (Returned (Some resp), w1)
    /\ (forall other, other <> userId ->
          run (TaskService.GetTaskByIdAsync other (TaskResponse.Id resp)) w1
          = (Returned None, w1))
    /\ (forall r, In r (Tasks w) -> TodoTask.Id r <> TaskResponse.Id resp)
    /\ (forall r, In r (Tasks w) -> In r (Tasks w1))
    /\ TaskResponse.IsCompleted resp = false
    /\ TaskResponse.UpdatedAt resp = None
    /\ TaskResponse.CreatedAt resp = Now w
    /\ TaskResponse.Title resp = Str.Trim (CreateTaskRequest.Title request)
    /\ TaskResponse.Description resp
       = option_map Str.Trim (CreateTaskRequest.Description request)
    /\ TaskResponse.DueDate resp = CreateTaskRequest.DueDate request
    /\ TaskResponse.Priority resp = CreateTaskRequest.Priority request.
Proof.
  intros [Hk Hlt] Hu.
  do 2 eexists.
  split; [unfold TaskService.CreateTaskAsync; simpl; rewrite Hu; reflexivity |].
  assert (forall r, In r (Tasks w) -> TodoTask.Id r <> NextTaskId w) as Fresh.
  { rewrite Forall_forall in Hlt. intros r Hr. specialize (Hlt r Hr). lia. }
  assert (forall who r, In r (Tasks w) ->
            (TodoTask.Id r =? NextTaskId w) && (TodoTask.UserId r =? who) = false)
    as Miss.
  { intros who r Hr. apply andb_false_iff. left. apply Z.eqb_neq. now apply Fresh. }
  split; [| split; [| split; [| split]]].
  - rewrite GetTaskByIdAsync_run. unfold owned_by. simpl.
    rewrite (find_after_append _ _ _ (Miss userId)). simpl.
    now rewrite !Z.eqb_refl.
  - intros other Hne. rewrite GetTaskByIdAsync_run. unfold owned_by. simpl.
    rewrite (find_after_append _ _ _ (Miss other)). simpl.
    rewrite Z.eqb_refl. simpl.
    destruct (userId =? other) eqn:E; [| reflexivity].
    apply Z.eqb_eq in E. congruence.
  - exact Fresh.
  - intros r Hr. simpl. apply in_or_app. now left.
  - simpl. repeat split.
Qed.
End StoreOperations.

Lemma toggle_twice_restores_flag_witness :
  exists r1 w1 r2 w2,
    run (bcrypt := Fixture.toyBCrypt)
        (TaskService.ToggleCompletionAsync (TodoTask.UserId Fixture.taxes)
           (TodoTask.Id Fixture.taxes)) Fixture.world
      = (Returned (Some r1), w1)
    /\ run (bcrypt := Fixture.toyBCrypt)
           (TaskService.ToggleCompletionAsync (TodoTask.UserId Fixture.taxes)
              (TodoTask.Id Fixture.taxes)) w1
       = (Returned (Some r2), w2)
    /\ TaskResponse.IsCompleted r1 = false
    /\ TaskResponse.IsCompleted r2 = true.
Proof.
  destruct (toggle_twice_restores_flag (bcrypt := Fixture.toyBCrypt)
              Fixture.world Fixture.taxes)
    as [r1 [w1 [r2 [w2 [R1 [R2 [H1 [H2 _]]]]]]]].
  - unfold Contract.primary_key. simpl.
    repeat constructor; simpl; intuition discriminate.
  - simpl. auto.
  - exists r1, w1, r2, w2. auto.
Defined.

Lemma delete_removes_exactly_that_task_witness :
  exists w1,
    run (bcrypt := Fixture.toyBCrypt)
        (TaskService.DeleteTaskAsync (TodoTask.UserId Fixture.milk)
           (TodoTask.Id Fixture.milk)) Fixture.world
      = (Returned true, w1)
    /\ In Fixture.taxes (Tasks w1)
    /\ ~ In Fixture.milk (Tasks w1).
Proof.
  destruct (delete_removes_exactly_that_task (bcrypt := Fixture.toyBCrypt)
              Fixture.world Fixture.milk) as [w1 [R [Hrows _]]].
  - unfold Contract.primary_key. simpl.
    repeat constructor; simpl; intuition discriminate.
  - simpl. auto.
  - exists w1. split; [exact R |]. split.
    + apply Hrows. simpl. split; [auto | discriminate].
    + intros H. apply Hrows in H. tauto.
Defined.

Lemma create_then_get_round_trip_witness :
  exists resp w1,
    run (bcrypt := Fixture.toyBCrypt)
        (TaskService.CreateTaskAsync 2
           {| CreateTaskRequest.Title := " Call mum ";
              CreateTaskRequest.Description := Some "  sunday ";
              CreateTaskRequest.DueDate := None;
              CreateTaskRequest.Priority := 2 |}) Fixture.world
      = (Returned resp, w1)
    /\ run (bcrypt := Fixture.toyBCrypt)
           (TaskService.GetTaskByIdAsync 2 (TaskResponse.Id resp)) w1
       = (Returned (Some resp), w1)
    /\ TaskResponse.Title resp = "Call mum".
Proof.
  destruct (create_then_get_round_trip (bcrypt := Fixture.toyBCrypt)
              Fixture.world 2
              {| CreateTaskRequest.Title := " Call mum ";
                 CreateTaskRequest.Description := Some "  sunday ";
                 CreateTaskRequest.DueDate := None;
                 CreateTaskRequest.Priority := 2 |})
    as [resp [w1 [R [G [_ [_ [_ [_ [_ [_ [T _]]]]]]]]]]].
  - split.
    + unfold Contract.primary_key. simpl.
      repeat constructor; simpl; intuition discriminate.
    + simpl. repeat constructor.
  - reflexivity.
  - exists resp, w1. split; [exact R |]. split; [exact G |].
    rewrite T. reflexivity.
Defined.

(* ===================================================================== *)
(** ** Normalized addresses                                               *)
(* ===================================================================== *)

Lemma ToLowerChar_idempotent c : Str.ToLowerChar (Str.ToLowerChar c) = Str.ToLowerChar c.
Proof. destruct c as [[] [] [] [] [] [] [] []]; reflexivity. Qed.

Lemma IsWhiteSpace_ToLowerChar c :
  Str.IsWhiteSpace (Str.ToLowerChar c) = Str.IsWhiteSpace c.
Proof. destruct c as [[] [] [] [] [] [] [] []]; reflexivity. Qed.

Lemma ToLower_idempotent s : Str.ToLower (Str.ToLower s) = Str.ToLower s.
Proof.
  induction s as [| c r IH]; simpl.
  - reflexivity.
  - now rewrite ToLowerChar_idempotent, IH.
Qed.

Lemma all_white_ToLower s : Str.all_white (Str.ToLower s) = Str.all_white s.
Proof.
  induction s as [| c r IH]; simpl.
  - reflexivity.
  - now rewrite IsWhiteSpace_ToLowerChar, IH.
Qed.

Lemma TrimStart_ToLower s : Str.TrimStart (Str.ToLower s) = Str.ToLower (Str.TrimStart s).
Proof.
  induction s as [| c r IH]; simpl.
  - reflexivity.
  - rewrite IsWhiteSpace_ToLowerChar. destruct (Str.IsWhiteSpace c); [exact IH | reflexivity].
Qed.

Lemma TrimEnd_ToLower s : Str.TrimEnd (Str.ToLower s) = Str.ToLower (Str.TrimEnd s).
Proof.
  induction s as [| c r IH]; simpl.
  - reflexivity.
  - rewrite IH, IsWhiteSpace_ToLowerChar.
    destruct (Str.TrimEnd r); simpl; [destruct (Str.IsWhiteSpace c) |]; reflexivity.
Qed.

Lemma TrimEnd_idempotent s : Str.TrimEnd (Str.TrimEnd s) = Str.TrimEnd s.
Proof.
  induction s as [| c r IH].
  - reflexivity.
  - destruct (Str.TrimEnd r) as [| c' r'] eqn:E.
    + simpl. rewrite E. destruct (Str.IsWhiteSpace c) eqn:W; simpl; [reflexivity |].
      now rewrite W.
    + rewrite (TrimEnd_cons c r c' r' E). now apply TrimEnd_cons.
Qed.

Lemma Trim_idempotent s : Str.Trim (Str.Trim s) = Str.Trim s.
Proof.
  unfold Str.Trim. pose proof (TrimStart_head s) as H.
  destruct (Str.TrimStart s) as [| c r]; [reflexivity |].
  destruct (TrimEnd_keeps_head c r H) as [r' E].
  rewrite E. simpl Str.TrimStart. rewrite H. rewrite <- E.
  apply TrimEnd_idempotent.
Qed.

Lemma normalize_idempotent e : Laws.normalize (Laws.normalize e) = Laws.normalize e.
Proof.
  unfold Laws.normalize, Str.ToLowerInvariant, Str.Trim.
  rewrite <- TrimEnd_ToLower, <- TrimStart_ToLower, ToLower_idempotent.
  apply Trim_idempotent.
Qed.

Example normalize_mixed : Laws.normalize "  Carol@Example.COM " = "carol@example.com".
Proof. reflexivity. Qed.

(* ===================================================================== *)
(** ** Registration and login, one after the other                        *)
(* ===================================================================== *)

Lemma find_after_rows {A : Type} (p : A -> bool) (rows : list A) (x : A) :
  existsb p rows = false ->
  find p (rows ++ [x]) = if p x then Some x else None.
Proof.
  induction rows as [| a rows IH]; simpl; intros H.
  - reflexivity.
  - apply orb_false_iff in H. destruct H as [Ha Hr]. rewrite Ha. now apply IH.
Qed.

Section Accounts.
Context {bcrypt : BCrypt}.
Variable settings : JwtSettings.t.

(** The row a registration inserts into world [w]. *)
Let new_user (request : RegisterRequest.t) (w : World) : User.t :=
  {| User.Id := NextUserId w;
     User.Email := Laws.normalize (RegisterRequest.Email request);
     User.PasswordHash := HashPassword (Salt w) (RegisterRequest.Password request);
     User.CreatedAt := Now w |}.

Lemma RegisterAsync_fresh request w :
  taken request w = false ->
  exists resp w1,
    run (AuthService.RegisterAsync settings request) w = (Returned (Some resp), w1)
    /\ AuthResponse.User resp
       = {| UserInfo.Id := NextUserId w;
            UserInfo.Email := Laws.normalize (RegisterRequest.Email request) |}
    /\ Users w1 = (Users w ++ [new_user request w])%list
    /\ Tasks w1 = Tasks w
    /\ Trace w1
       = (Trace w ++ [Hashed (RegisterRequest.Password request);
                      Logged Information "User registered successfully: {Email}"])%list.
Proof.
  unfold taken, AuthService.RegisterAsync, AuthService.EmailExistsAsync.
  intros H. simpl. rewrite H. simpl.
  change (Str.Trim (Str.ToLowerInvariant (RegisterRequest.Email request)))
    with (Laws.normalize (RegisterRequest.Email request)) in *.
  rewrite H. simpl.
  do 2 eexists. split; [reflexivity |]. simpl.
  repeat split. now rewrite <- app_assoc.
Qed.

(** X4. Registration and login round trip.  After a registration of an
    address that was free, a login with the same password and with the same
    address, however cased or padded, succeeds for that very user, provided
    BCrypt verifies the password against the hash it made of it. *)
Theorem register_then_login_succeeds
    (request : RegisterRequest.t) (login : LoginRequest.t) (w : World) :
  taken request w = false ->
  Verify (RegisterRequest.Password request)
    (HashPassword (Salt w) (RegisterRequest.Password request)) = true ->
  Laws.normalize (LoginRequest.Email login)
    = Laws.normalize (RegisterRequest.Email request) ->
  LoginRequest.Password login = RegisterRequest.Password request ->
  exists registered w1 logged,
    run (AuthService.RegisterAsync settings request) w = (Returned (Some registered), w1)
    /\ fst (run (AuthService.LoginAsync settings login) w1) = Returned (Some logged)
    /\ AuthResponse.User logged = AuthResponse.User registered
    /\ UserInfo.Email (AuthResponse.User logged)
       = Laws.normalize (RegisterRequest.Email request).
Proof.
  intros Hfree Hv He Hp.
  destruct (RegisterAsync_fresh request w Hfree) as [resp [w1 [R [Hu [Hus _]]]]].
  assert (lookup login w1 = Some (new_user request w)) as L.
  { unfold lookup. rewrite Hus.
    change (Str.Trim (Str.ToLowerInvariant (LoginRequest.Email login)))
      with (Laws.normalize (LoginRequest.Email login)).
    rewrite He. rewrite find_after_rows by exact Hfree.
    simpl. now rewrite String.eqb_refl. }
  destruct (LoginAsync_success settings login w1 (new_user request w) L)
    as [logged [R2 Hid]].
  { rewrite Hp. exact Hv. }
  exists resp, w1, logged. split; [exact R |].
  rewrite R2. split; [reflexivity |].
  unfold AuthService.LoginAsync in R2. fold (lookup login w1) in R2.
  simpl in R2. unfold lookup in L. rewrite L in R2. simpl in R2.
  rewrite Hp, Hv in R2. simpl in R2. inversion R2; subst.
  rewrite Hu. simpl. split; reflexivity.
Qed.

(** X5. Registering one address twice.  The first registration of a free
    address is answered 201 for a new user whose stored address is the
    normalized one; from then on every registration whose address
    normalizes to the same (other case, other padding) is answered 409
    "An account with this email already exists" and stores nothing. *)
Theorem second_registration_conflicts
    (first second : RegisterRequest.t) (w : World) :
  taken first w = false ->
  Laws.normalize (RegisterRequest.Email second)
    = Laws.normalize (RegisterRequest.Email first) ->
  exists created w1,
    run (AuthController.Register settings first) w
      = (Returned (CreatedAtAction (AuthBody created)), w1)
    /\ UserInfo.Email (AuthResponse.User created)
       = Laws.normalize (RegisterRequest.Email first)
    /\ UserInfo.Id (AuthResponse.User created) = NextUserId w
    /\ List.length (Users w1) = S (List.length (Users w))
    /\ run (AuthController.Register settings second) w1
       = (Returned (Conflict (error "An account with this email already exists")),
          emit w1 (Logged Warning "Registration failed: Email {Email} already exists")).
Proof.
  intros Hfree He.
  destruct (RegisterAsync_fresh first w Hfree) as [resp [w1 [R [Hu [Hus _]]]]].
  exists resp, w1.
  split.
  { unfold AuthController.Register. rewrite run_bind, R. reflexivity. }
  rewrite Hu. simpl. split; [reflexivity |]. split; [reflexivity |].
  split.
  { rewrite Hus, length_app. simpl. lia. }
  apply RegisterAsync_taken.
  unfold taken. rewrite Hus, existsb_app. simpl.
  change (Str.Trim (Str.ToLowerInvariant (RegisterRequest.Email second)))
    with (Laws.normalize (RegisterRequest.Email second)).
  rewrite He, String.eqb_refl. apply orb_true_iff. right. reflexivity.
Qed.

(** X6. Login never writes to the store: whatever the request and whether
    it succeeds or fails, the Users and Tasks tables and the key counters
    after [LoginAsync] are those before it. *)
Theorem login_never_writes (login : LoginRequest.t) (w : World) :
  let w' := snd (run (AuthService.LoginAsync settings login) w) in
  Users w' = Users w
  /\ Tasks w' = Tasks w
  /\ NextUserId w' = NextUserId w
  /\ NextTaskId w' = NextTaskId w.
Proof.
  cbv zeta.
  destruct (lookup login w) as [user |] eqn:L.
  - destruct (Verify (LoginRequest.Password login) (User.PasswordHash user)) eqn:V.
    + destruct (LoginAsync_success settings login w user L V) as [r [R _]].
      rewrite R. repeat split.
    + rewrite (LoginAsync_wrong_password settings login w user L V). repeat split.
  - rewrite (LoginAsync_miss settings login w L). repeat split.
Qed.
End Accounts.

Lemma register_then_login_succeeds_witness :
  exists registered w1 logged,
    run (AuthService.RegisterAsync Fixture.settings Fixture.carol_request) Fixture.world
      = (Returned (Some registered), w1)
    /\ fst (run (AuthService.LoginAsync Fixture.settings
                   {| LoginRequest.Email := " CAROL@example.com";
                      LoginRequest.Password := "hunter2hunter2" |}) w1)
       = Returned (Some logged)
    /\ UserInfo.Id (AuthResponse.User logged) = 3.
Proof.
  destruct (register_then_login_succeeds (bcrypt := Fixture.toyBCrypt)
              Fixture.settings Fixture.carol_request
              {| LoginRequest.Email := " CAROL@example.com";
                 LoginRequest.Password := "hunter2hunter2" |} Fixture.world)
    as [registered [w1 [logged [R [L [Hu _]]]]]]; try reflexivity.
  exists registered, w1, logged. split; [exact R |]. split; [exact L |].
  rewrite Hu. vm_compute in R. inversion R. reflexivity.
Defined.

Lemma second_registration_conflicts_witness :
  exists created w1,
    run (AuthController.Register Fixture.settings Fixture.carol_request) Fixture.world
      = (Returned (CreatedAtAction (AuthBody created)), w1)
    /\ fst (run (AuthController.Register Fixture.settings Fixture.carol_again) w1)
       = Returned (Conflict (error "An account with this email already exists")).
Proof.
  destruct (second_registration_conflicts (bcrypt := Fixture.toyBCrypt)
              Fixture.settings Fixture.carol_request Fixture.carol_again
              Fixture.world)
    as [created [w1 [R [_ [_ [_ C]]]]]]; try reflexivity.
  exists created, w1. split; [exact R |]. now rewrite C.
Defined.

(* ===================================================================== *)
(** ** The Users table under concurrent registrations                     *)
(* ===================================================================== *)

Lemma inserts_normalized_bind {A B : Type} (p : Prog A) (f : A -> Prog B) :
  Laws.inserts_normalized p ->
  (forall a, Laws.inserts_normalized (f a)) ->
  Laws.inserts_normalized (bind p f).
Proof.
  intros Hp Hf. induction Hp as [a | e | X e k He Hk IH]; simpl.
  - apply Hf.
  - constructor.
  - constructor; assumption.
Qed.

Lemma inserts_normalized_try_catch {A : Type} (p : Prog A) (h : Exception -> Prog A) :
  Laws.inserts_normalized p ->
  (forall e, Laws.inserts_normalized (h e)) ->
  Laws.inserts_normalized (try_catch p h).
Proof.
  intros Hp Hh. induction Hp as [a | e | X e k He Hk IH]; simpl.
  - constructor.
  - apply Hh.
  - constructor; assumption.
Qed.

Lemma inserts_normalized_perform {X : Type} (e : Eff X) :
  Laws.adds_ok e -> Laws.inserts_normalized (perform e).
Proof. intros H. constructor; [exact H | intros x; constructor]. Qed.

Lemma Register_inserts_normalized isDevelopment settings request :
  Laws.inserts_normalized (Endpoints.Register isDevelopment settings request).
Proof.
  unfold Endpoints.Register, Program.Anonymous, Program.ModelState,
    ExceptionMiddleware.InvokeAsync.
  destruct (Validation.RegisterRequest request); [| constructor].
  apply inserts_normalized_try_catch.
  - unfold AuthController.Register, AuthService.RegisterAsync,
      AuthService.EmailExistsAsync, AuthService.GenerateAuthResponse, SaveAdded.
    apply inserts_normalized_bind.
    + apply inserts_normalized_try_catch.
      * apply inserts_normalized_bind;
          [apply inserts_normalized_perform; exact I |].
        intros [|].
        -- repeat first [ apply inserts_normalized_bind
                        | apply inserts_normalized_perform; exact I
                        | intros ? | constructor ].
        -- apply inserts_normalized_bind;
             [apply inserts_normalized_perform; exact I | intros hash].
           apply inserts_normalized_bind;
             [apply inserts_normalized_perform; exact I | intros now].
           apply inserts_normalized_bind.
           ++ apply inserts_normalized_bind.
              ** apply inserts_normalized_perform. simpl.
                 apply normalize_idempotent.
              ** intros [ex | u]; constructor.
           ++ intros u.
              repeat first [ apply inserts_normalized_bind
                           | apply inserts_normalized_perform; exact I
                           | intros ? | constructor ].
      * intros ex.
        repeat first [ apply inserts_normalized_bind
                     | apply inserts_normalized_perform; exact I
                     | intros ? | constructor ].
    + intros [r |]; constructor.
  - intros [m | m | m | m | m];
      repeat first [ apply inserts_normalized_bind
                   | apply inserts_normalized_perform; exact I
                   | intros ? | constructor ].
Qed.

Section UsersInvariant.
Context {bcrypt : BCrypt}.

Lemma handle_keeps_emails_ok {X : Type} (e : Eff X) (w : World) :
  Laws.adds_ok e -> Laws.emails_ok w -> Laws.emails_ok (snd (handle e w)).
Proof.
  unfold Laws.emails_ok. intros He [Hu Hn].
  destruct e; simpl; auto.
  - destruct (existsb _ (Users w)) eqn:E; simpl; auto.
    split.
    + rewrite map_app. simpl.
      apply NoDup_app_remove_l with (l := []). simpl.
      apply Permutation_NoDup with (l := User.Email t :: map User.Email (Users w)).
      * apply Permutation_cons_append.
      * constructor; [| exact Hu].
        intros Hin. apply in_map_iff in Hin. destruct Hin as [v [Hv Hin]].
        assert (existsb (fun v => String.eqb (User.Email v) (User.Email t)) (Users w)
                = true) as C.
        { apply existsb_exists. exists v. split; [exact Hin |].
          rewrite Hv. apply String.eqb_refl. }
        congruence.
    + apply Forall_app. split; [exact Hn |]. repeat constructor. exact He.
  - destruct (existsb _ (Users w)); simpl; auto.
  - destruct (has_row _ (Tasks w)); simpl; auto.
  - destruct (has_row _ (Tasks w)); simpl; auto.
Qed.

Lemma run_keeps_emails_ok {A : Type} (p : Prog A) (w : World) :
  Laws.inserts_normalized p -> Laws.emails_ok w -> Laws.emails_ok (snd (run p w)).
Proof.
  intros Hp. revert w. induction Hp as [a | e | X e k He Hk IH]; intros w H; simpl; auto.
  pose proof (handle_keeps_emails_ok e w He H) as H'.
  destruct (handle e w) as [x w']. now apply IH.
Qed.

Lemma run_pair_keeps_emails_ok {A B : Type} (sched : list bool)
    (p : Prog A) (q : Prog B) (w : World) :
  Laws.inserts_normalized p -> Laws.inserts_normalized q ->
  Laws.emails_ok w -> Laws.emails_ok (snd (run_pair sched p q w)).
Proof.
  revert p q w. induction sched as [| first sched IH]; intros p q w Hp Hq H; simpl.
  - pose proof (run_keeps_emails_ok p w Hp H) as H1.
    destruct (run p w) as [a w1].
    pose proof (run_keeps_emails_ok q w1 Hq H1) as H2.
    destruct (run q w1) as [b w2]. exact H2.
  - destruct first.
    + destruct Hp as [a | e | X e k He Hk]; simpl; try (apply IH; auto; constructor).
      pose proof (handle_keeps_emails_ok e w He H) as H'.
      destruct (handle e w) as [x w']. apply IH; auto.
    + destruct Hq as [b | e | X e k He Hk]; simpl; try (apply IH; auto; constructor).
      pose proof (handle_keeps_emails_ok e w He H) as H'.
      destruct (handle e w) as [x w']. apply IH; auto.
Qed.

(** X7. Two registration requests in flight, interleaved at their await
    points in any order at all, never leave the Users table with one address
    twice or with an address that is not in normalized form (lower case,
    trimmed), provided it held none before: what the pre-check misses under
    a race the unique index refuses, and the address is normalized before
    the insert. *)
Theorem concurrent_registrations_keep_emails_unique
    (isDevelopment : bool) (settings : JwtSettings.t)
    (first second : RegisterRequest.t) (sched : list bool) (w : World) :
  Laws.emails_ok w ->
  Laws.emails_ok
    (snd (run_pair sched
            (Endpoints.Register isDevelopment settings first)
            (Endpoints.Register isDevelopment settings second) w)).
Proof.
  intros H. apply run_pair_keeps_emails_ok; auto using Register_inserts_normalized.
Qed.
End UsersInvariant.

Lemma concurrent_registrations_keep_emails_unique_witness :
  Laws.emails_ok
    (snd (run_pair [true; false; false; true]
            (Endpoints.Register false Fixture.settings Fixture.carol_request)
            (Endpoints.Register false Fixture.settings Fixture.carol_again)
            Fixture.world)).
Proof.
  apply (concurrent_registrations_keep_emails_unique (bcrypt := Fixture.toyBCrypt)).
  split.
  - simpl. repeat constructor; simpl; intuition discriminate.
  - simpl. repeat constructor.
Defined.

(* ===================================================================== *)
(** ** The exception middleware and the identity claim                    *)
(* ===================================================================== *)

Section Middleware.
Context {bcrypt : BCrypt}.
Variable IsDevelopment : bool.

(** X8. The exception middleware lets no exception through and changes
    nothing when there is none.  If the rest of the pipeline returns an
    answer, that answer and that world are the result.  If it throws, the
    result is an answer after one more log line: 401 for an
    [UnauthorizedAccessException], 400 carrying the exception's message for
    an [ArgumentException], 500 for anything else; and outside development
    the 500 body is the fixed generic text, never the exception's message. *)
Theorem middleware_answers_every_exception (next : Prog IActionResult) (w : World) :
  match run next w with
  | (Returned r, w1) =>
      run (ExceptionMiddleware.InvokeAsync IsDevelopment next) w = (Returned r, w1)
  | (Thrown ex, w1) =>
      exists r level line,
        run (ExceptionMiddleware.InvokeAsync IsDevelopment next) w
          = (Returned r, emit w1 (Logged level line))
        /\ StatusCode r
           = match ex with
             | UnauthorizedAccessException _ => 401
             | ArgumentException _ => 400
             | _ => 500
             end
        /\ (StatusCode r = 400 -> Value r = error (Message ex))
        /\ (StatusCode r = 500 ->
            Value r = error (if IsDevelopment then Message ex
                             else "An unexpected error occurred. Please try again later."))
  end.
Proof.
  unfold ExceptionMiddleware.InvokeAsync. rewrite run_try_catch.
  destruct (run next w) as [[r | ex] w1]; [reflexivity |].
  destruct ex as [m | m | m | m | m]; simpl;
    do 3 eexists; (split; [reflexivity |]); simpl;
    repeat split; intros; try reflexivity; try discriminate.
Qed.

(** X9. A request that reaches the tasks controller without a usable
    name-identifier claim is refused by every one of its six actions in the
    same way: [GetCurrentUserId] throws before the service is called, the
    middleware answers 401 "Unauthorized access" after one warning log line,
    and the store is not read or written. *)
Theorem no_identity_claim_is_401
    (w : World) (queryParams : TaskQueryParams.t) (id : Z)
    (create : CreateTaskRequest.t) (update : UpdateTaskRequest.t) :
  let nobody := {| NameIdentifier := None |} in
  let refused :=
    (Returned (Unauthorized (error "Unauthorized access")),
     emit w (Logged Warning "Unauthorized access attempt")) in
  run (ExceptionMiddleware.InvokeAsync IsDevelopment
         (TasksController.GetTasks nobody queryParams)) w = refused
  /\ run (ExceptionMiddleware.InvokeAsync IsDevelopment
            (TasksController.GetTask nobody id)) w = refused
  /\ run (ExceptionMiddleware.InvokeAsync IsDevelopment
            (TasksController.CreateTask nobody create)) w = refused
  /\ run (ExceptionMiddleware.InvokeAsync IsDevelopment
            (TasksController.UpdateTask nobody id update)) w = refused
  /\ run (ExceptionMiddleware.InvokeAsync IsDevelopment
            (TasksController.DeleteTask nobody id)) w = refused
  /\ run (ExceptionMiddleware.InvokeAsync IsDevelopment
            (TasksController.ToggleCompletion nobody id)) w = refused.
Proof.
  cbv zeta. repeat split; reflexivity.
Qed.
End Middleware.

Example middleware_hides_store_errors :
  fst (run (ExceptionMiddleware.InvokeAsync false
              (TasksController.CreateTask (Contract.principal 99)
                 {| CreateTaskRequest.Title := "Orphan";
                    CreateTaskRequest.Description := None;
                    CreateTaskRequest.DueDate := None;
                    CreateTaskRequest.Priority := 2 |})) Fixture.world)
  = Returned (InternalServerError
      (error "An unexpected error occurred. Please try again later.")).
Proof. reflexivity. Qed.

(* ===================================================================== *)
(** ** Priorities and their labels                                        *)
(* ===================================================================== *)

Lemma UpdateTaskRequest_valid request :
  Validation.UpdateTaskRequest request = [] ->
  Validation.opt (Validation.MaxLength 200) (UpdateTaskRequest.Title request) = true
  /\ Validation.opt (Validation.Range 1 3) (UpdateTaskRequest.Priority request) = true.
Proof.
  unfold Validation.UpdateTaskRequest, Validation.errors. simpl.
  destruct (Validation.opt (Validation.MaxLength 200) _); simpl; [| discriminate].
  destruct (Validation.opt (Validation.MaxLength 2000) _); simpl; [| discriminate].
  destruct (Validation.opt (Validation.Range 1 3) _); simpl; [| discriminate].
  auto.
Qed.

Lemma CreateTaskRequest_priority request :
  Validation.CreateTaskRequest request = [] ->
  1 <= CreateTaskRequest.Priority request <= 3.
Proof.
  unfold Validation.CreateTaskRequest, Validation.errors. simpl.
  destruct (Validation.Required _); simpl; [| discriminate].
  destruct (Validation.MaxLength 200 _); simpl; [| discriminate].
  destruct (Validation.opt (Validation.MaxLength 2000) _); simpl; [| discriminate].
  unfold Validation.Range.
  destruct (1 <=? CreateTaskRequest.Priority request) eqn:E1;
    destruct (CreateTaskRequest.Priority request <=? 3) eqn:E2;
    simpl; try discriminate.
  intros _. apply Z.leb_le in E1. apply Z.leb_le in E2. lia.
Qed.

Lemma PriorityLabel_known (r : TaskResponse.t) :
  1 <= TaskResponse.Priority r <= 3 ->
  TaskResponse.PriorityLabel r = "Low"
  \/ TaskResponse.PriorityLabel r = "Medium"
  \/ TaskResponse.PriorityLabel r = "High".
Proof.
  intros H. unfold TaskResponse.PriorityLabel.
  assert (TaskResponse.Priority r = 1 \/ TaskResponse.Priority r = 2
          \/ TaskResponse.Priority r = 3) as [E | [E | E]] by lia;
    rewrite E; simpl; auto.
Qed.

Section Priorities.
Context {bcrypt : BCrypt}.

(** X10. The validated endpoints keep every stored priority among 1, 2
    and 3.  If all stored tasks have such a priority, then after any create
    or update request sent through model validation, and after any delete or
    toggle, they still all have, whoever calls and whether or not the call
    succeeds; hence every task listed afterwards is labelled "Low", "Medium"
    or "High", never "Unknown". *)
Theorem validated_writes_keep_priorities
    (User : ClaimsPrincipal) (w : World) :
  Laws.priorities_ok w ->
  (forall request,
      Laws.priorities_ok
        (snd (run (Program.ModelState (Validation.CreateTaskRequest request)
                     (TasksController.CreateTask User request)) w)))
  /\ (forall id request,
        Laws.priorities_ok
          (snd (run (Program.ModelState (Validation.UpdateTaskRequest request)
                       (TasksController.UpdateTask User id request)) w)))
  /\ (forall id,
        Laws.priorities_ok (snd (run (TasksController.DeleteTask User id) w)))
  /\ (forall id,
        Laws.priorities_ok (snd (run (TasksController.ToggleCompletion User id) w)))
  /\ (forall userId qp resp,
        fst (run (TaskService.GetTasksAsync userId qp) w) = Returned resp ->
        Forall (fun r => TaskResponse.PriorityLabel r = "Low"
                         \/ TaskResponse.PriorityLabel r = "Medium"
                         \/ TaskResponse.PriorityLabel r = "High")
          (TaskListResponse.Tasks resp)).
Proof.
  unfold Laws.priorities_ok. intros H.
  assert (forall t' : TodoTask.t,
            1 <= TodoTask.Priority t' <= 3 ->
            Forall (fun t => 1 <= TodoTask.Priority t <= 3) (replace_row t' (Tasks w)))
    as Hreplace.
  { intros t' Ht'. unfold replace_row. rewrite Forall_forall in *.
    intros r Hr. apply in_map_iff in Hr. destruct Hr as [x [Hx Hin]].
    destruct (TodoTask.Id x =? TodoTask.Id t'); subst r; auto. }
  split; [| split; [| split; [| split]]].
  - intros request.
    destruct (Validation.CreateTaskRequest request) as [| e errs] eqn:V;
      [| exact H].
    apply CreateTaskRequest_priority in V.
    unfold Program.ModelState, TasksController.CreateTask,
      TasksController.GetCurrentUserId, TaskService.CreateTaskAsync.
    destruct (NameIdentifier User) as [userId |]; simpl; [| exact H].
    destruct (existsb _ (Users w)); simpl; [| exact H].
    apply Forall_app. split; [exact H |]. repeat constructor; simpl; lia.
  - intros id request.
    destruct (Validation.UpdateTaskRequest request) as [| e errs] eqn:V;
      [| exact H].
    apply UpdateTaskRequest_valid in V. destruct V as [_ V].
    unfold Program.ModelState, TasksController.UpdateTask,
      TasksController.GetCurrentUserId.
    destruct (NameIdentifier User) as [userId |]; [| simpl; exact H].
    cbn [bind]. rewrite run_bind.
    destruct (find (owned_by userId id) (Tasks w)) as [task |] eqn:F.
    + rewrite (UpdateTaskAsync_run userId id request w task F). simpl.
      apply Hreplace. simpl.
      destruct (apply_request_fields task request) as [_ [_ [_ [Hp _]]]].
      rewrite Hp.
      destruct (UpdateTaskRequest.Priority request) as [v |]; simpl in V.
      * unfold Validation.Range in V. apply andb_true_iff in V.
        rewrite !Z.leb_le in V. lia.
      * apply find_some in F. destruct F as [Hin _].
        rewrite Forall_forall in H. now apply H.
    + unfold TaskService.UpdateTaskAsync, TaskService.GetUserTaskAsync.
      unfold owned_by in F. simpl. rewrite F. simpl. exact H.
  - intros id. unfold TasksController.DeleteTask, TasksController.GetCurrentUserId.
    destruct (NameIdentifier User) as [userId |]; [| simpl; exact H].
    cbn [bind]. rewrite run_bind.
    destruct (find (owned_by userId id) (Tasks w)) as [task |] eqn:F.
    + rewrite (DeleteTaskAsync_run userId id w task F). simpl.
      rewrite Forall_forall in *. intros r Hr.
      apply delete_row_In in Hr. apply H. tauto.
    + unfold TaskService.DeleteTaskAsync, TaskService.GetUserTaskAsync.
      unfold owned_by in F. simpl. rewrite F. simpl. exact H.
  - intros id. unfold TasksController.ToggleCompletion, TasksController.GetCurrentUserId.
    destruct (NameIdentifier User) as [userId |]; [| simpl; exact H].
    cbn [bind]. rewrite run_bind.
    destruct (find (owned_by userId id) (Tasks w)) as [task |] eqn:F.
    + rewrite (ToggleCompletionAsync_run userId id w task F). simpl.
      apply Hreplace. simpl.
      apply find_some in F. destruct F as [Hin _].
      rewrite Forall_forall in H. now apply H.
    + unfold TaskService.ToggleCompletionAsync, TaskService.GetUserTaskAsync.
      unfold owned_by in F. simpl. rewrite F. simpl. exact H.
  - intros userId qp resp R. rewrite GetTasksAsync_run in R. simpl in R.
    inversion R; subst; clear R. simpl.
    rewrite Forall_forall in *. intros r Hr.
    apply in_map_iff in Hr. destruct Hr as [t [<- Ht]].
    apply listed_rows_are_owned in Ht. destruct Ht as [Ht _].
    apply PriorityLabel_known. simpl. now apply H.
Qed.
End Priorities.

Lemma validated_writes_keep_priorities_witness :
  Laws.priorities_ok
    (snd (run (bcrypt := Fixture.toyBCrypt)
            (Program.ModelState
               (Validation.UpdateTaskRequest
                  {| UpdateTaskRequest.Title := None;
                     UpdateTaskRequest.Description := None;
                     UpdateTaskRequest.DueDate := None;
                     UpdateTaskRequest.Priority := Some 7;
                     UpdateTaskRequest.IsCompleted := None |})
               (TasksController.UpdateTask (Contract.principal 1) 10
                  {| UpdateTaskRequest.Title := None;
                     UpdateTaskRequest.Description := None;
                     UpdateTaskRequest.DueDate := None;
                     UpdateTaskRequest.Priority := Some 7;
                     UpdateTaskRequest.IsCompleted := None |}))
            Fixture.world)).
Proof.
  refine (proj1 (proj2 (validated_writes_keep_priorities (bcrypt := Fixture.toyBCrypt)
                          (Contract.principal 1) Fixture.world _)) 10 _).
  unfold Laws.priorities_ok. simpl. repeat constructor; simpl; lia.
Defined.

(* ===================================================================== *)
(** ** Every sort order of the listing                                    *)
(* ===================================================================== *)

Lemma String_leb_trans (a b c : string) :
  String.leb a b = true -> String.leb b c = true -> String.leb a c = true.
Proof.
  unfold String.leb. revert b c.
  induction a as [| x a IH]; intros [| y b] [| z c]; simpl; try easy.
  unfold Ascii.compare.
  destruct (N.compare_spec (N_of_ascii x) (N_of_ascii y)) as [Exy | Lxy | Gxy];
    destruct (N.compare_spec (N_of_ascii y) (N_of_ascii z)) as [Eyz | Lyz | Gyz];
    try easy;
    destruct (N.compare_spec (N_of_ascii x) (N_of_ascii z)) as [Exz | Lxz | Gxz];
    try easy; try lia.
  apply IH.
Qed.

Lemma Z_leb_total (a b : Z) : (a <=? b) = true \/ (b <=? a) = true.
Proof. rewrite !Z.leb_le. lia. Qed.

Lemma Z_leb_trans (a b c : Z) :
  (a <=? b) = true -> (b <=? c) = true -> (a <=? c) = true.
Proof. rewrite !Z.leb_le. lia. Qed.

(** X11. Whatever [SortBy] and [SortDirection] say, [ApplySorting] returns
    the rows of the query, none lost and none repeated, in the order asked
    for: by due date, priority or title when the lower-cased [SortBy] is
    "duedate", "priority" or "title", by creation time for every other
    value; descending when the lower-cased direction is "desc", ascending
    for every other value. *)
Theorem ApplySorting_sorts_by_the_chosen_column
    (query : IQueryable) (qp : TaskQueryParams.t) (rows : list TodoTask.t) :
  Permutation (TaskService.ApplySorting query qp rows) (query rows)
  /\ StronglySorted (fun a b => Laws.precedes qp a b = true)
       (TaskService.ApplySorting query qp rows).
Proof.
  split; [apply ApplySorting_perm |].
  unfold TaskService.ApplySorting, Laws.precedes,
    Linq.OrderBy, Linq.OrderByDescending.
  destruct (String.eqb (Str.ToLower (TaskQueryParams.SortDirection qp)) "desc");
    destruct (String.eqb (Str.ToLower (TaskQueryParams.SortBy qp)) "duedate");
    [| destruct (String.eqb (Str.ToLower (TaskQueryParams.SortBy qp)) "priority");
       [| destruct (String.eqb (Str.ToLower (TaskQueryParams.SortBy qp)) "title")]
     | | destruct (String.eqb (Str.ToLower (TaskQueryParams.SortBy qp)) "priority");
       [| destruct (String.eqb (Str.ToLower (TaskQueryParams.SortBy qp)) "title")]];
    apply sort_by_sorted;
    eauto using nullable_le_total, nullable_le_trans, Z_leb_total, Z_leb_trans,
      String.leb_total, String_leb_trans.
Qed.

Example sort_unknown_column_is_creation_time :
  TaskService.ApplySorting (fun rows => rows) (Contract.unfiltered "owner" "up")
    [Fixture.report; Fixture.milk; Fixture.taxes]
  = [Fixture.milk; Fixture.taxes; Fixture.report].
Proof. reflexivity. Qed.

Example sort_by_title_descending :
  TaskService.ApplySorting (fun rows => rows) (Contract.unfiltered "TITLE" "Desc")
    [Fixture.milk; Fixture.taxes; Fixture.report]
  = [Fixture.report; Fixture.taxes; Fixture.milk].
Proof. reflexivity. Qed.

(* ===================================================================== *)
(** ** Search and due-date bounds                                         *)
(* ===================================================================== *)

Lemma filter_ext_in {A : Type} (f g : A -> bool) (l : list A) :
  (forall x, f x = g x) -> filter f l = filter g l.
Proof.
  intros H. induction l as [| a l IH]; simpl; [reflexivity |].
  now rewrite H, IH.
Qed.

Lemma ToLowerChar_lowerChar c :
  Str.ToLowerChar (Sqlite.lowerChar c) = Str.ToLowerChar c.
Proof. destruct c as [[] [] [] [] [] [] [] []]; reflexivity. Qed.

Lemma ToLower_lower s : Str.ToLower (Sqlite.lower s) = Str.ToLower s.
Proof.
  induction s as [| c r IH]; simpl.
  - reflexivity.
  - now rewrite ToLowerChar_lowerChar, IH.
Qed.

Lemma prefix_ToLower (a b : string) :
  String.prefix a b = true ->
  String.prefix (Str.ToLower a) (Str.ToLower b) = true.
Proof.
  revert b. induction a as [| c a IH]; intros b H; simpl.
  - now destruct b.
  - destruct b as [| c' b]; simpl in *; [discriminate |].
    destruct (ascii_dec c c') as [-> | N]; [| discriminate].
    destruct (ascii_dec (Str.ToLowerChar c') (Str.ToLowerChar c')) as [_ | N];
      [now apply IH | now elim N].
Qed.

Lemma Contains_ToLower (s sub : string) :
  Str.Contains s sub = true ->
  Str.Contains (Str.ToLower s) (Str.ToLower sub) = true.
Proof.
  induction s as [| c r IH]; intros H.
  - destruct sub; [reflexivity | discriminate].
  - change (String.prefix sub (String c r) || Str.Contains r sub = true) in H.
    change (String.prefix (Str.ToLower sub) (Str.ToLower (String c r))
            || Str.Contains (Str.ToLower r) (Str.ToLower sub) = true).
    apply orb_true_iff in H. apply orb_true_iff.
    destruct H as [H | H]; [left; now apply prefix_ToLower | right; now apply IH].
Qed.

(** What a search that answered a row says with the framework's lowering
    on both sides. *)
Lemma Contains_lower_ToLower (text term : string) :
  Str.Contains (Sqlite.lower text) (Str.ToLower term) = true ->
  Str.Contains (Str.ToLower text) (Str.ToLower term) = true.
Proof.
  intros H. apply Contains_ToLower in H.
  now rewrite ToLower_lower, ToLower_idempotent in H.
Qed.

(** X12. The free-text search of the listing.  A search term that is empty
    or all white space filters nothing (it is as if no term were given); a
    term filters the same whatever its letter case; and every task that
    passes a real term has the lower-cased term inside its lower-cased
    title or inside its lower-cased description. *)
Theorem search_is_case_insensitive
    (query : IQueryable) (qp : TaskQueryParams.t) (rows : list TodoTask.t)
    (term : string) :
  (Str.all_white term = true ->
     TaskService.ApplyFilters query (Laws.with_Search qp (Some term)) rows
     = TaskService.ApplyFilters query (Laws.with_Search qp None) rows)
  /\ TaskService.ApplyFilters query (Laws.with_Search qp (Some term)) rows
     = TaskService.ApplyFilters query
         (Laws.with_Search qp (Some (Str.ToLower term))) rows
  /\ (Str.all_white term = false ->
      Forall (fun t =>
                Str.Contains (Str.ToLower (TodoTask.Title t)) (Str.ToLower term) = true
                \/ exists d, TodoTask.Description t = Some d
                             /\ Str.Contains (Str.ToLower d) (Str.ToLower term) = true)
        (TaskService.ApplyFilters query (Laws.with_Search qp (Some term)) rows)).
Proof.
  rewrite !ApplyFilters_matches.
  split; [| split].
  - intros Hw. apply filter_ext_in. intros t.
    unfold Contract.matches_filters, Contract.search_term. simpl. now rewrite Hw.
  - apply filter_ext_in. intros t.
    unfold Contract.matches_filters, Contract.search_term. simpl.
    now rewrite all_white_ToLower, ToLower_idempotent.
  - intros Hw. rewrite Forall_forall. intros t Ht. apply filter_In in Ht.
    destruct Ht as [_ Hm].
    unfold Contract.matches_filters, Contract.search_term in Hm. simpl in Hm.
    rewrite Hw in Hm. apply andb_true_iff in Hm. destruct Hm as [_ Hm].
    apply orb_true_iff in Hm.
    destruct Hm as [Hm | Hm]; [left; now apply Contains_lower_ToLower | right].
    destruct (TodoTask.Description t) as [d |]; [| discriminate].
    exists d. split; [reflexivity | now apply Contains_lower_ToLower].
Qed.

(** The title is E-acute in upper case followed by COLE; the store folds
    COLE and leaves the first letter, the framework folds the whole term. *)
Example search_folds_ascii_letters_only :
  let row :=
    {| TodoTask.Id := 40; TodoTask.UserId := 1;
       TodoTask.Title := String "201"%char "COLE";
       TodoTask.Description := None; TodoTask.DueDate := None;
       TodoTask.Priority := 2; TodoTask.IsCompleted := false;
       TodoTask.CreatedAt := 0; TodoTask.UpdatedAt := None |} in
  let search term :=
    TaskService.ApplyFilters (fun rows => rows)
      (Laws.with_Search (Contract.unfiltered "title" "asc") (Some term)) [row] in
  search "Cole" = [row]
  /\ search (String "233"%char "cole") = []
  /\ search (String "201"%char "COLE") = [].
Proof. repeat split. Qed.

Example search_finds_upper_case_term :
  TaskService.ApplyFilters (fun rows => rows)
    (Laws.with_Search (Contract.unfiltered "title" "asc") (Some "MILK"))
    (Tasks Fixture.world)
  = [Fixture.milk].
Proof. reflexivity. Qed.

(** X13. The due-date bounds of the listing are inclusive and drop undated
    tasks.  Every task returned under a [DueBefore] bound has a due date at
    or before it, every task returned under a [DueAfter] bound has one at or
    after it, so a task without a due date is never returned when either
    bound is given; and with no other filter set, a task due exactly at the
    bound is returned. *)
Theorem due_date_bounds_are_inclusive
    (query : IQueryable) (qp : TaskQueryParams.t) (rows : list TodoTask.t) :
  Forall (fun t =>
            (forall bound, TaskQueryParams.DueBefore qp = Some bound ->
               exists d, TodoTask.DueDate t = Some d /\ d <= bound)
            /\ (forall bound, TaskQueryParams.DueAfter qp = Some bound ->
                  exists d, TodoTask.DueDate t = Some d /\ bound <= d))
    (TaskService.ApplyFilters query qp rows)
  /\ (forall t bound sortBy sortDirection,
        In t (query rows) -> TodoTask.DueDate t = Some bound ->
        In t (TaskService.ApplyFilters query
                {| TaskQueryParams.IsCompleted := None;
                   TaskQueryParams.Priority := None;
                   TaskQueryParams.DueBefore := Some bound;
                   TaskQueryParams.DueAfter := Some bound;
                   TaskQueryParams.Search := None;
                   TaskQueryParams.SortBy := sortBy;
                   TaskQueryParams.SortDirection := sortDirection |} rows)).
Proof.
  rewrite ApplyFilters_matches. split.
  - rewrite Forall_forall. intros t Ht. apply filter_In in Ht.
    destruct Ht as [_ Hm]. unfold Contract.matches_filters in Hm.
    repeat (apply andb_true_iff in Hm; destruct Hm as [Hm ?]).
    split; intros bound Hb; rewrite Hb in *;
      destruct (TodoTask.DueDate t) as [d |]; try discriminate;
      exists d; split; auto; apply Z.leb_le; assumption.
  - intros t bound sortBy sortDirection Hin Hd.
    rewrite ApplyFilters_matches. apply filter_In. split; [exact Hin |].
    unfold Contract.matches_filters, Contract.search_term. simpl.
    rewrite Hd, Z.leb_refl. reflexivity.
Qed.

(* ===================================================================== *)
(** ** Bearer tokens through the pipeline                                 *)
(* ===================================================================== *)

Section Bearer.
Context {bcrypt : BCrypt}.
Variable IsDevelopment : bool.
Variable settings : JwtSettings.t.

Lemma Authorized_accepts token principal action w :
  Program.ValidateToken (Program.TokenValidationParameters settings) (Now w) token
    = inr principal ->
  run (Program.Authorized IsDevelopment settings (Some token) action) w
  = run (ExceptionMiddleware.InvokeAsync IsDevelopment (action principal)) w.
Proof.
  intros V. unfold Program.Authorized, ExceptionMiddleware.InvokeAsync.
  rewrite !run_try_catch. rewrite run_bind.
  change (run (perform UtcNow) w) with (Returned (Now w), w).
  cbv beta iota. rewrite V. reflexivity.
Qed.

Lemma Authorized_challenges token err action w :
  Program.ValidateToken (Program.TokenValidationParameters settings) (Now w) token
    = inl err ->
  run (Program.Authorized IsDevelopment settings (Some token) action) w
  = (Returned Program.OnChallenge, w).
Proof.
  intros V. unfold Program.Authorized, ExceptionMiddleware.InvokeAsync.
  rewrite !run_try_catch. rewrite run_bind.
  change (run (perform UtcNow) w) with (Returned (Now w), w).
  cbv beta iota. rewrite V. reflexivity.
Qed.

(** X14. A token issued for a user opens the tasks endpoints for exactly
    that user.  With a lifetime of at least one minute, the token made by
    [GenerateAuthResponse] at a time [Now w], presented at any time up to
    one second before the announced expiry, passes the bearer check, and the
    action runs with the issuing user's id as the caller.  The announced
    expiry lies before [2^60] ticks (the year 5623): up to there a whole
    number of seconds is exactly a double, so the [exp] claim is never
    earlier than the second the expiry lies in. *)
Theorem issued_token_authenticates_its_user
    (user : User.t) (w w2 : World)
    (action : ClaimsPrincipal -> Prog IActionResult) :
  1 <= JwtSettings.ExpirationMinutes settings ->
  0 <= Now w ->
  AddMinutes (Now w) (JwtSettings.ExpirationMinutes settings) < 2 ^ 60 ->
  Now w2 <= AddMinutes (Now w) (JwtSettings.ExpirationMinutes settings)
            - TicksPerSecond ->
  exists resp,
    run (AuthService.GenerateAuthResponse settings user) w = (Returned resp, w)
    /\ AuthResponse.ExpiresAt resp
       = AddMinutes (Now w) (JwtSettings.ExpirationMinutes settings)
    /\ run (Program.Authorized IsDevelopment settings
              (Some (AuthResponse.Token resp)) action) w2
       = run (ExceptionMiddleware.InvokeAsync IsDevelopment
                (action (Contract.principal (User.Id user)))) w2.
Proof.
  intros Hm Hnow Hmax Hw2.
  eexists. split; [reflexivity |]. split; [reflexivity |].
  apply Authorized_accepts. simpl.
  assert (0 < AddMinutes (Now w) (JwtSettings.ExpirationMinutes settings)) as Hpos.
  { unfold AddMinutes, TicksPerMinute, TicksPerSecond. lia. }
  pose proof (GetIntDate_near
    (AddMinutes (Now w) (JwtSettings.ExpirationMinutes settings))
    (conj Hpos Hmax)) as [Hn _].
  unfold Program.ValidateToken, Program.ValidateLifetime,
    JwtSecurityToken.ValidTo. simpl.
  rewrite !String.eqb_refl, ValidTo_GetIntDate. simpl. rewrite Z.sub_0_r.
  destruct (Z.ltb_spec
    (AuthService.GetIntDate (AddMinutes (Now w) (JwtSettings.ExpirationMinutes settings))
     * TicksPerSecond) (Now w2)); [| reflexivity].
  unfold TicksPerSecond in *. lia.
Qed.

(** X15. Every way of failing the bearer check is answered alike and runs
    nothing.  A request with no token, with a token signed with another key,
    with an expired token, with a token that carries no expiry, or with a
    token for another audience or issuer gets the one 401 answer
    "Authentication required. Please provide a valid token."; the action is
    not run and the world is unchanged. *)
Theorem failed_authentication_is_one_401
    (token : JwtSecurityToken.t)
    (action : ClaimsPrincipal -> Prog IActionResult) (w : World) :
  let challenged bearer :=
    run (Program.Authorized IsDevelopment settings bearer action) w
    = (Returned (Unauthorized
         (error "Authentication required. Please provide a valid token.")), w) in
  challenged None
  /\ (JwtSecurityToken.SigningKey token <> JwtSettings.SecretKey settings ->
      challenged (Some token))
  /\ (JwtSecurityToken.ValidTo token = None -> challenged (Some token))
  /\ (forall expires, JwtSecurityToken.ValidTo token = Some expires ->
        expires < Now w -> challenged (Some token))
  /\ (JwtSecurityToken.Audience token <> JwtSettings.Audience settings ->
      challenged (Some token))
  /\ (JwtSecurityToken.Issuer token <> JwtSettings.Issuer settings ->
      challenged (Some token)).
Proof.
  cbv zeta.
  assert (forall a b, a <> b -> negb (String.eqb a b) = true) as Neq.
  { intros a b H. apply negb_true_iff. now apply String.eqb_neq. }
  split; [reflexivity |].
  split; [| split; [| split; [| split]]].
  - intros H. apply (Authorized_challenges token InvalidSignature).
    unfold Program.ValidateToken, Program.ValidateLifetime. simpl. now rewrite (Neq _ _ H).
  - intros H.
    destruct (String.eqb (JwtSecurityToken.SigningKey token)
                (JwtSettings.SecretKey settings)) eqn:K.
    + apply (Authorized_challenges token NoExpiration).
      unfold Program.ValidateToken, Program.ValidateLifetime. simpl. now rewrite K, H.
    + apply (Authorized_challenges token InvalidSignature).
      unfold Program.ValidateToken, Program.ValidateLifetime. simpl. now rewrite K.
  - intros expires H Hlt.
    destruct (String.eqb (JwtSecurityToken.SigningKey token)
                (JwtSettings.SecretKey settings)) eqn:K.
    + apply (Authorized_challenges token Expired).
      unfold Program.ValidateToken, Program.ValidateLifetime. simpl. rewrite K, H. simpl.
      rewrite Z.sub_0_r. apply Z.ltb_lt in Hlt. now rewrite Hlt.
    + apply (Authorized_challenges token InvalidSignature).
      unfold Program.ValidateToken, Program.ValidateLifetime. simpl. now rewrite K.
  - intros H.
    destruct (Program.ValidateToken (Program.TokenValidationParameters settings)
                (Now w) token) as [err | principal] eqn:V.
    + now apply (Authorized_challenges token err).
    + exfalso. unfold Program.ValidateToken, Program.ValidateLifetime in V. simpl in V.
      rewrite (Neq _ _ H) in V.
      destruct (negb _); [discriminate |].
      destruct (JwtSecurityToken.ValidTo token); [| discriminate].
      destruct (_ <? _); discriminate.
  - intros H.
    destruct (Program.ValidateToken (Program.TokenValidationParameters settings)
                (Now w) token) as [err | principal] eqn:V.
    + now apply (Authorized_challenges token err).
    + exfalso. unfold Program.ValidateToken, Program.ValidateLifetime in V. simpl in V.
      rewrite (Neq _ _ H) in V.
      destruct (negb _); [discriminate |].
      destruct (JwtSecurityToken.ValidTo token); [| discriminate].
      destruct (_ <? _); [discriminate |].
      destruct (negb _); discriminate.
Qed.
End Bearer.

Lemma issued_token_authenticates_its_user_witness :
  exists resp,
    run (AuthService.GenerateAuthResponse Fixture.settings Fixture.alice) Fixture.world
      = (Returned resp, Fixture.world)
    /\ fst (run (Endpoints.GetTask false Fixture.settings
                   (Some (AuthResponse.Token resp)) 10) Fixture.world)
       = Returned (Ok (TaskBody (TaskService.MapToResponse Fixture.milk))).
Proof.
  destruct (issued_token_authenticates_its_user (bcrypt := Fixture.toyBCrypt)
              false Fixture.settings Fixture.alice Fixture.world Fixture.world
              (fun user => TasksController.GetTask user 10))
    as [resp [R [_ A]]].
  - simpl. lia.
  - simpl. lia.
  - vm_compute. reflexivity.
  - vm_compute. discriminate.
  - exists resp. split; [exact R |].
    unfold Endpoints.GetTask. rewrite A. reflexivity.
Defined.

(* ===================================================================== *)
(** ** What update accepts and create does not                            *)
(* ===================================================================== *)

Section BlankTitle.
Context {bcrypt : BCrypt}.

(** X16. Update has no required-title rule.  An update of a stored task by
    its owner whose title is present but empty or all white space (and not
    longer than 200 characters) passes model validation, is answered 200,
    and leaves the task stored with an empty title, although the same title
    in a create request is refused. *)
Theorem update_accepts_a_blank_title
    (w : World) (t : TodoTask.t) (title : string) :
  Contract.primary_key (Tasks w) ->
  In t (Tasks w) ->
  Str.all_white title = true ->
  Str.Length title <= 200 ->
  let request :=
    {| UpdateTaskRequest.Title := Some title;
       UpdateTaskRequest.Description := None;
       UpdateTaskRequest.DueDate := None;
       UpdateTaskRequest.Priority := None;
       UpdateTaskRequest.IsCompleted := None |} in
  exists r w1 t',
    run (Program.ModelState (Validation.UpdateTaskRequest request)
           (TasksController.UpdateTask (Contract.principal (TodoTask.UserId t))
              (TodoTask.Id t) request)) w
      = (Returned (Ok (TaskBody r)), w1)
    /\ TaskResponse.Title r = ""
    /\ In t' (Tasks w1)
    /\ TodoTask.Id t' = TodoTask.Id t
    /\ TodoTask.Title t' = ""
    /\ forall description dueDate priority,
         Validation.CreateTaskRequest
           {| CreateTaskRequest.Title := title;
              CreateTaskRequest.Description := description;
              CreateTaskRequest.DueDate := dueDate;
              CreateTaskRequest.Priority := priority |} <> [].
Proof.
  intros Hk Hin Hblank Hlen request. subst request.
  pose proof (find_owned t (Tasks w) Hk Hin) as F.
  change (find (owned_by (TodoTask.UserId t) (TodoTask.Id t)) (Tasks w) = Some t) in F.
  match goal with
  | |- context [Validation.UpdateTaskRequest ?r] =>
      assert (Validation.UpdateTaskRequest r = []) as V
  end.
  { unfold Validation.UpdateTaskRequest, Validation.errors. simpl.
    unfold Validation.MaxLength. apply Z.leb_le in Hlen. now rewrite Hlen. }
  rewrite V. unfold Program.ModelState, TasksController.UpdateTask.
  rewrite GetCurrentUserId_principal. cbn [bind]. rewrite run_bind.
  rewrite (UpdateTaskAsync_run _ _ _ w t F).
  assert (Str.Trim title = "") as E by now apply blank_iff_Trim_empty.
  do 3 eexists. split; [reflexivity |].
  split; [unfold TaskService.apply_request; simpl; exact E |].
  split; [simpl; apply (replace_row_hit t); [exact Hin | reflexivity] |].
  split; [reflexivity |].
  split; [unfold TaskService.apply_request; simpl; exact E |].
  intros description dueDate priority Hv.
  apply CreateTaskRequest_valid in Hv. simpl in Hv. destruct Hv. congruence.
Qed.
End BlankTitle.

Lemma update_accepts_a_blank_title_witness :
  exists r w1,
    run (bcrypt := Fixture.toyBCrypt)
        (Program.ModelState
           (Validation.UpdateTaskRequest
              {| UpdateTaskRequest.Title := Some "   ";
                 UpdateTaskRequest.Description := None;
                 UpdateTaskRequest.DueDate := None;
                 UpdateTaskRequest.Priority := None;
                 UpdateTaskRequest.IsCompleted := None |})
           (TasksController.UpdateTask
              (Contract.principal (TodoTask.UserId Fixture.milk))
              (TodoTask.Id Fixture.milk)
              {| UpdateTaskRequest.Title := Some "   ";
                 UpdateTaskRequest.Description := None;
                 UpdateTaskRequest.DueDate := None;
                 UpdateTaskRequest.Priority := None;
                 UpdateTaskRequest.IsCompleted := None |})) Fixture.world
      = (Returned (Ok (TaskBody r)), w1)
    /\ TaskResponse.Title r = "".
Proof.
  destruct (update_accepts_a_blank_title (bcrypt := Fixture.toyBCrypt)
              Fixture.world Fixture.milk "   ")
    as [r [w1 [t' [R [T _]]]]].
  - unfold Contract.primary_key. simpl.
    repeat constructor; simpl; intuition discriminate.
  - simpl. auto.
  - reflexivity.
  - vm_compute. discriminate.
  - exists r, w1. split; [exact R | exact T].
Defined.

(* ===================================================================== *)
(** ** The browser client                                                 *)
(* ===================================================================== *)

Lemma getErrorMessage_truthy (error : Frontend.Thrown) :
  Js.truthy (Frontend.getErrorMessage error) = true.
Proof.
  destruct error as [[[status [m |]] |] message |]; simpl; try reflexivity;
    repeat match goal with
           | |- context [if Js.truthy ?x then _ else _] =>
               let E := fresh "E" in destruct (Js.truthy x) eqn:E
           end; auto.
Qed.

(** X17. [getErrorMessage] never yields an empty message.  Whatever was
    thrown, the text shown to the user is not empty: it is the message of
    the server's error body when that is present and not empty, else the
    message of the axios error when that is not empty, else the fixed text
    "An unexpected error occurred. Please try again.". *)
Theorem getErrorMessage_is_never_empty (error : Frontend.Thrown) :
  Js.truthy (Frontend.getErrorMessage error) = true
  /\ (forall status body message,
        Js.truthy body = true ->
        Frontend.getErrorMessage
          (Frontend.AxiosError
             (Some (Frontend.mkResponse status (Some body))) message) = body)
  /\ (forall response message,
        match response with
        | Some r => Js.truthy_opt (Frontend.data_message r)
        | None => false
        end = false ->
        Js.truthy message = true ->
        Frontend.getErrorMessage (Frontend.AxiosError response message) = message)
  /\ (forall response,
        match response with
        | Some r => Js.truthy_opt (Frontend.data_message r)
        | None => false
        end = false ->
        Frontend.getErrorMessage (Frontend.AxiosError response "")
        = "An unexpected error occurred. Please try again.").
Proof.
  split; [apply getErrorMessage_truthy |].
  split; [| split].
  - intros status body message H. simpl. now rewrite H.
  - intros [[status [m |]] |] message H Hm; simpl in *; rewrite ?H, ?Hm; reflexivity.
  - intros [[status [m |]] |] H; simpl in *; rewrite ?H; reflexivity.
Qed.

(** X18. The login form.  Whatever the server makes of the request, after
    [handleSubmit] with the context's [login] the spinner is off, and: if
    the call succeeded with a body, the token and user are in local storage
    and in the provider's state, no error is shown and the page navigates to
    the redirect path; otherwise the page does not navigate, the provider's
    state is untouched and a non-empty error is shown ("Login failed" for a
    success without body, else the text [getErrorMessage] extracts), the
    stored session being cleared when the failure is a 401. *)
Theorem login_submit_navigates_only_when_signed_in
    (post : Frontend.Request -> Frontend.Settled) (redirectPath : string)
    (formData : Frontend.AuthFormData) (p : Frontend.Page) :
  let p' :=
    Frontend.handleSubmit false (Frontend.as_authMethod (Frontend.login post))
      redirectPath formData p in
  Frontend.isLoading (Frontend.hook p') = false
  /\ match post (Frontend.LoginData
                   {| LoginRequest.Email := Frontend.email formData;
                      LoginRequest.Password := Frontend.password formData |}) with
     | Frontend.Fulfilled (Some d) =>
         Frontend.navigated (Frontend.hook p') = Some redirectPath
         /\ Frontend.hook_error (Frontend.hook p') = None
         /\ Frontend.stored_token (Frontend.browser p') = Some (Frontend.token d)
         /\ Frontend.stored_user (Frontend.browser p') = Some (Frontend.user d)
         /\ Frontend.auth p'
            = Frontend.mkAuthState (Some (Frontend.user d))
                (Some (Frontend.token d)) true false
     | Frontend.Fulfilled None =>
         Frontend.navigated (Frontend.hook p') = Frontend.navigated (Frontend.hook p)
         /\ Frontend.hook_error (Frontend.hook p') = Some "Login failed"
         /\ Frontend.auth p' = Frontend.auth p
         /\ Frontend.browser p' = Frontend.browser p
     | Frontend.Rejected e =>
         Frontend.navigated (Frontend.hook p') = Frontend.navigated (Frontend.hook p)
         /\ Frontend.hook_error (Frontend.hook p') = Some (Frontend.getErrorMessage e)
         /\ Js.truthy (Frontend.getErrorMessage e) = true
         /\ Frontend.auth p' = Frontend.auth p
         /\ Frontend.browser p' = Frontend.onRejected e (Frontend.browser p)
         /\ (forall r m, e = Frontend.AxiosError (Some r) m ->
               Frontend.status r = 401 ->
               Frontend.stored_token (Frontend.browser p') = None
               /\ Frontend.stored_user (Frontend.browser p') = None)
     end.
Proof.
  cbv zeta.
  unfold Frontend.handleSubmit, Frontend.as_authMethod, Frontend.login,
    Frontend.authenticate, Frontend.authApi_call.
  destruct (post _) as [[d |] | e]; simpl.
  - repeat split.
  - repeat split.
  - pose proof (getErrorMessage_truthy e) as T.
    unfold Frontend.or_else. rewrite T. simpl. rewrite T. simpl.
    repeat (split; [first [reflexivity | assumption] |]).
    intros r m -> H. simpl. apply Z.eqb_eq in H. rewrite H. split; reflexivity.
Qed.

Section TaskListView.
Context {bcrypt : BCrypt}.

(** X19. What the task list shows is always in descending order.  The
    query [fetchTasks] builds asks for "desc" whatever the controls say, so
    the tasks the service returns for it are in descending order of the
    chosen column (creation time by default), and when that column is the
    due date the tasks without one come last. *)
Theorem task_list_is_listed_descending
    (userId : Z) (w : World) (searchQuery : string)
    (filterStatus : Frontend.FilterStatus)
    (filterPriority : Frontend.FilterPriority)
    (sortBy : Frontend.SortByOption) :
  exists resp listed,
    run (TaskService.GetTasksAsync userId
           (Frontend.fetchTasks_params searchQuery filterStatus filterPriority sortBy))
      w = (Returned resp, w)
    /\ TaskListResponse.Tasks resp = map TaskService.MapToResponse listed
    /\ match sortBy with
       | Frontend.createdAt =>
           StronglySorted
             (fun a b => (TodoTask.CreatedAt b <=? TodoTask.CreatedAt a) = true) listed
       | Frontend.priority =>
           StronglySorted
             (fun a b => (TodoTask.Priority b <=? TodoTask.Priority a) = true) listed
       | Frontend.title =>
           StronglySorted
             (fun a b => String.leb (TodoTask.Title b) (TodoTask.Title a) = true) listed
       | Frontend.dueDate =>
           StronglySorted
             (fun a b => Linq.nullable_le (TodoTask.DueDate b) (TodoTask.DueDate a)
                         = true) listed
           /\ forall before t after,
                listed = (before ++ t :: after)%list ->
                TodoTask.DueDate t = None ->
                Forall (fun u => TodoTask.DueDate u = None) after
       end.
Proof.
  do 2 eexists. rewrite GetTasksAsync_run. split; [reflexivity |].
  split; [reflexivity |].
  destruct sortBy; unfold TaskService.ApplySorting; simpl;
    unfold Linq.OrderByDescending.
  - apply (sort_by_sorted
             (fun a b => TodoTask.CreatedAt b <=? TodoTask.CreatedAt a)).
    + intros a b. apply Z_leb_total.
    + intros a b c H1 H2. eapply Z_leb_trans; eauto.
  - assert (StronglySorted
              (Linq.ordered
                 (fun a b => Linq.nullable_le (TodoTask.DueDate b) (TodoTask.DueDate a)))
              (Linq.sort_by
                 (fun a b => Linq.nullable_le (TodoTask.DueDate b) (TodoTask.DueDate a))
                 (Contract.filtered userId
                    (Frontend.fetchTasks_params searchQuery filterStatus
                       filterPriority Frontend.dueDate) (Tasks w)))) as S.
    { apply sort_by_sorted.
      - intros a b. apply nullable_le_total.
      - intros a b c H1 H2. eapply nullable_le_trans; eauto. }
    split; [exact S |].
    intros before t after E Hnull. simpl in E. rewrite E in S.
    apply sorted_around in S. destruct S as [_ S].
    eapply Forall_impl; [| exact S]. unfold Linq.ordered. intros u Hu.
    rewrite Hnull in Hu. now apply nullable_le_None.
  - apply (sort_by_sorted
             (fun a b => TodoTask.Priority b <=? TodoTask.Priority a)).
    + intros a b. apply Z_leb_total.
    + intros a b c H1 H2. eapply Z_leb_trans; eauto.
  - apply (sort_by_sorted
             (fun a b => String.leb (TodoTask.Title b) (TodoTask.Title a))).
    + intros a b. apply String.leb_total.
    + intros a b c H1 H2. eapply String_leb_trans; eauto.
Qed.
End TaskListView.

Example login_401_shows_server_message :
  let p :=
    Frontend.mkPage (Frontend.mkBrowser None None "/login" None)
      (Frontend.mkAuthState None None false false)
      (Frontend.mkHook None false None) in
  Frontend.handleSubmit false
    (Frontend.as_authMethod
       (Frontend.login
          (fun _ => Frontend.Rejected
             (Frontend.AxiosError
                (Some (Frontend.mkResponse 401 (Some "Invalid email or password")))
                "Request failed with status code 401"))))
    "/" (Frontend.mkForm "alice@example.com" "wrong horse" None) p
  = Frontend.mkPage (Frontend.mkBrowser None None "/login" None)
      (Frontend.mkAuthState None None false false)
      (Frontend.mkHook (Some "Invalid email or password") false None).
Proof. reflexivity. Qed.
